(** * quick-vault: capsule storage, lock evaluation, creation and capture

  A shallow embedding of the TypeScript sources

    - [services/storage.ts]   (module [Storage])
    - [services/gemini.ts]    (module [Gemini])
    - [App.tsx]               (module [App])
    - [components/CapsuleCard.tsx]   (module [CapsuleCard])
    - [components/CreateCapsule.tsx] (module [CreateCapsule])

  Asynchronous functions are functions from the platform state to a
  settled promise and the next platform state.  Time stamps are the
  integer millisecond values of JavaScript [Date] objects; they are
  carried as [Z], exact in the range where a double holds integers
  exactly.  The browser collaborators (IndexedDB, [URL.createObjectURL],
  [Date] parsing, the media devices and the text service) are modelled
  by the part of their behaviour the sources rely on.  Output to the
  console is left out. *)

From Stdlib Require Import ZArith Strings.Ascii Strings.Byte.
From stdpp Require Import base gmap strings list sorting pretty.

Local Open Scope Z_scope.

(** ** Promises and asynchronous functions *)

Inductive promise (A : Type) : Type :=
| Resolved (a : A)
| Rejected (reason : string).
Arguments Resolved {A} a.
Arguments Rejected {A} reason.

(** An [async] function over a platform state [S]. *)
Definition Async (S A : Type) : Type := S -> promise A * S.

Definition resolve {S A : Type} (a : A) : Async S A :=
  fun s => (Resolved a, s).

Definition reject {S A : Type} (reason : string) : Async S A :=
  fun s => (Rejected reason, s).

(** [await m] followed by the rest of the function body [k]: a rejection
    of [m] leaves the body at once. *)
Definition await {S A B : Type} (m : Async S A) (k : A -> Async S B) : Async S B :=
  fun s =>
    match m s with
    | (Resolved a, s') => k a s'
    | (Rejected r, s') => (Rejected r, s')
    end.

(** [try { m } catch (e) { h e }]. *)
Definition try_catch {S A : Type} (m : Async S A) (h : string -> Async S A) : Async S A :=
  fun s =>
    match m s with
    | (Resolved a, s') => (Resolved a, s')
    | (Rejected r, s') => h r s'
    end.

Notation "'do' x <- m ;; k" := (await m (fun x => k))
  (at level 10, x binder, m at level 99, k at level 200).

(** ** The data model ([types.ts]) *)

Inductive MediaType : Type := text | image | video | audio.

Record Blob : Type := mkBlob {
  blob_bytes : list byte;
  blob_type : string
}.

Definition blob_size (b : Blob) : nat := length (blob_bytes b).

(** A [File] is a [Blob] with a name. *)
Record File : Type := mkFile {
  file_blob :> Blob;
  file_name : string
}.

Module Capsule.
(** Modelled from the spec: [types.ts] is not part of the sources; the
    [Capsule] interface is the record of section 3 of the specification,
    with the optional members the sources read or write as [option]. *)
Record t : Type := mk {
  id : string;
  title : string;
  description : string;
  mediaType : MediaType;
  mediaBlob : option Blob;
  mediaUrl : option string;
  unlockDate : string;
  createdAt : string;
  isLocked : bool;
  aiHint : option string;
  aiReflection : option string
}.
End Capsule.

Module CreateCapsuleFormData.
(** Modelled from the spec: the form record of [types.ts], as
    [CreateCapsule.tsx] initialises it. *)
Record t : Type := mk {
  title : string;
  description : string;
  unlockDate : string;
  mediaFile : option File
}.
End CreateCapsuleFormData.

Inductive ViewState : Type := DASHBOARD | CREATE | VIEW_CAPSULE.

(** JavaScript truthiness of a string: only the empty string is falsy. *)
Definition truthy (s : string) : bool :=
  match s with EmptyString => false | String _ _ => true end.

(** [a || b] on an optional string: [undefined] and the empty string give [b]. *)
Definition or_else (a : option string) (b : string) : string :=
  match a with
  | Some s => if truthy s then s else b
  | None => b
  end.

(** ** The browser *)

(** [Date] values compared with [>]: both sides are converted to their time
    value; an invalid date is [NaN] and every comparison with it is false. *)
Definition Date_gt (a : option Z) (b : Z) : bool :=
  match a with
  | Some t => bool_decide (b < t)
  | None => false
  end.

(** The state of the browser the storage layer works against: the content of
    the object store [capsules] of the database [ChronosVaultDB], keyed by
    the key path [id], and the blob URL store, which holds the blob of every
    object URL issued so far. *)
Record Browser : Type := mkBrowser {
  objectStore : gmap string Capsule.t;
  blobURLs : list Blob
}.

(** The [n]-th object URL of the page. *)
Definition blob_url (n : nat) : string := "blob:" +:+ pretty n.

(** [URL.createObjectURL(blob)]: a new URL, registered for [blob]. *)
Definition createObjectURL (b : Blob) (urls : list Blob) : string * list Blob :=
  (blob_url (length urls), urls ++ [b]).

(** The blob an object URL dereferences to. *)
Definition url_resolves (urls : list Blob) (u : string) (b : Blob) : Prop :=
  exists n, u = blob_url n /\ urls !! n = Some b.

(** What the platform does to one IndexedDB operation, as the source listens
    to it: its two [onerror] handlers.  A transaction that aborts after its
    request succeeded, a blocked open and an exception thrown by
    [db.transaction] or by the call of the store have no handler in the
    source and are not modelled. *)
Inductive Fault : Type :=
| NoFault
| OpenFault (err : string)   (* [indexedDB.open] fires [onerror] *)
| RequestFault.              (* the request on the store fires [onerror] *)

(** ** [services/storage.ts] *)

Module Storage.

Section WithClock.

(** The time value of [new Date(s)]; [None] is an invalid date. *)
Variable Date_parse : string -> option Z.

(** [openDB]: the open request fails, or gives the database.  The object
    store is created by the first open ([onupgradeneeded]) and is empty
    then. *)
Definition openDB (f : Fault) : Async Browser unit :=
  match f with
  | OpenFault err => reject ("Database error: " +:+ err)
  | _ => resolve tt
  end.

(** [const { mediaUrl, ...dataToStore } = capsule]. *)
Definition dataToStore (c : Capsule.t) : Capsule.t :=
  {| Capsule.id := Capsule.id c;
     Capsule.title := Capsule.title c;
     Capsule.description := Capsule.description c;
     Capsule.mediaType := Capsule.mediaType c;
     Capsule.mediaBlob := Capsule.mediaBlob c;
     Capsule.mediaUrl := None;
     Capsule.unlockDate := Capsule.unlockDate c;
     Capsule.createdAt := Capsule.createdAt c;
     Capsule.isLocked := Capsule.isLocked c;
     Capsule.aiHint := Capsule.aiHint c;
     Capsule.aiReflection := Capsule.aiReflection c |}.

(** [store.put(record)] on a store with key path [id]. *)
Definition put (r : Capsule.t) (br : Browser) : Browser :=
  {| objectStore := <[Capsule.id r := r]> (objectStore br); blobURLs := blobURLs br |}.

Definition saveCapsule (f : Fault) (capsule : Capsule.t) : Async Browser unit :=
  do _ <- openDB f ;;
  match f with
  | RequestFault => reject "Error saving capsule"
  | _ => fun br => (Resolved tt, put (dataToStore capsule) br)
  end.

(** The body of [capsules.map(c => ({...c, isLocked, mediaUrl}))] for one
    record. *)
Definition process (now : Z) (c : Capsule.t) (urls : list Blob)
  : Capsule.t * list Blob :=
  let url :=
    match Capsule.mediaBlob c with
    | Some b => let '(u, urls') := createObjectURL b urls in (Some u, urls')
    | None => (None, urls)
    end in
  ({| Capsule.id := Capsule.id c;
      Capsule.title := Capsule.title c;
      Capsule.description := Capsule.description c;
      Capsule.mediaType := Capsule.mediaType c;
      Capsule.mediaBlob := Capsule.mediaBlob c;
      Capsule.mediaUrl := url.1;
      Capsule.unlockDate := Capsule.unlockDate c;
      Capsule.createdAt := Capsule.createdAt c;
      Capsule.isLocked := Date_gt (Date_parse (Capsule.unlockDate c)) now;
      Capsule.aiHint := Capsule.aiHint c;
      Capsule.aiReflection := Capsule.aiReflection c |},
   url.2).

(** [capsules.map(...)], left to right, threading the blob URL store. *)
Fixpoint processed (now : Z) (cs : list Capsule.t) (urls : list Blob)
  : list Capsule.t * list Blob :=
  match cs with
  | [] => ([], urls)
  | c :: cs' =>
      let '(c', urls1) := process now c urls in
      let '(rest, urls2) := processed now cs' urls1 in
      (c' :: rest, urls2)
  end.

(** The order of the keys of the store (byte-wise on the identifiers). *)
Definition key_le (a b : Capsule.t) : Prop :=
  String.leb (Capsule.id a) (Capsule.id b) = true.

#[global] Instance key_le_dec (a b : Capsule.t) : Decision (key_le a b) :=
  decide (String.leb (Capsule.id a) (Capsule.id b) = true).

(** [store.getAll()]: every record of the store, in the order of the keys. *)
Definition getAll (br : Browser) : list Capsule.t :=
  merge_sort key_le (map_to_list (objectStore br)).*2.

Definition getAllCapsules (f : Fault) (now : Z) : Async Browser (list Capsule.t) :=
  do _ <- openDB f ;;
  match f with
  | RequestFault => reject "Error fetching capsules"
  | _ => fun br =>
      let '(cs, urls') := processed now (getAll br) (blobURLs br) in
      (Resolved cs, {| objectStore := objectStore br; blobURLs := urls' |})
  end.

Definition deleteCapsule (f : Fault) (id : string) : Async Browser unit :=
  do _ <- openDB f ;;
  match f with
  | RequestFault => reject "Error deleting capsule"
  | _ => fun br =>
      (Resolved tt, {| objectStore := delete id (objectStore br); blobURLs := blobURLs br |})
  end.

End WithClock.

(** [s.split(',')]. *)
Fixpoint split_comma (s : string) : list string :=
  match s with
  | EmptyString => [EmptyString]
  | String a s' =>
      if Ascii.eqb a ","%char then EmptyString :: split_comma s'
      else match split_comma s' with
           | piece :: rest => String a piece :: rest
           | [] => [String a EmptyString]
           end
  end.

(** [blobToBase64]: [readAsDataURL] is what the [FileReader] delivers for
    the blob, a rejection when it fires [onerror]; the result is the piece
    after the first comma of the data URL, [undefined] when there is none. *)
Definition blobToBase64 {S : Type} (readAsDataURL : Blob -> promise string)
    (blob : Blob) : Async S (option string) :=
  match readAsDataURL blob with
  | Resolved base64String => resolve (split_comma base64String !! 1%nat)
  | Rejected e => reject e
  end.

End Storage.

(** ** [services/gemini.ts] *)

Module Gemini.

(** The [contents] of a [generateContent] request. *)
Inductive Contents : Type :=
| TextContents (text : string)
| PartsContents (mimeType : string) (data : option string) (text : string).

(** What a [generateContent] call does: it throws, or it answers with a
    response whose [text] may be missing. *)
Inductive Generated : Type :=
| GenerateThrows (error : string)
| Response (text : option string).

(** The text service as the page sees it: the configured credential and the
    behaviour of the model endpoint. *)
Record Service : Type := mkService {
  API_KEY : option string;
  generateContent : Contents -> Generated;
  readAsDataURL : Blob -> promise string
}.

Definition dquote : string := String (Ascii.ascii_of_nat 34) EmptyString.

Section WithService.

Context {S : Type}.
Variable svc : Service.

(** [getAI]: no client without a non-empty key. *)
Definition getAI : option (Contents -> Generated) :=
  match API_KEY svc with
  | Some apiKey => if truthy apiKey then Some (generateContent svc) else None
  | None => None
  end.

(** [await ai.models.generateContent(...)] and the [text] of the response. *)
Definition generate (ai : Contents -> Generated) (c : Contents)
  : Async S (option string) :=
  match ai c with
  | GenerateThrows e => reject e
  | Response t => resolve t
  end.

Definition hint_image_prompt : string :=
  "Analyze this image and write a short, mysterious, one-sentence cryptic hint about what is inside this time capsule. Do not reveal exactly what it is, just give a poetic clue. Example: 'A frozen moment of laughter under the sun.'".

Definition hint_other_prompt : string :=
  "Write a short, mysterious, one-sentence cryptic hint about a time capsule containing a secret video, audio recording, or message. It should be poetic and evoke curiosity.".

Definition generateCapsuleHint (mediaBlob : Blob) (mediaType : string)
  : Async S string :=
  match getAI with
  | None => resolve "A mysterious memory from the past..."
  | Some ai =>
      try_catch
        (do base64Data <- Storage.blobToBase64 (readAsDataURL svc) mediaBlob ;;
         let mimeType :=
           if String.eqb mediaType "image"
           then or_else (Some (blob_type mediaBlob)) "image/jpeg"
           else "image/jpeg" in
         if String.eqb mediaType "image" then
           do response <- generate ai (PartsContents mimeType base64Data hint_image_prompt) ;;
           resolve (or_else response "A locked visual memory.")
         else
           do response <- generate ai (TextContents hint_other_prompt) ;;
           resolve (or_else response "A voice echoing from yesterday."))
        (fun _ => resolve "A securely sealed memory.")
  end.

Definition reflection_prompt (userNote : string) : string :=
  "The user is creating a time capsule with the following note: " +:+ dquote
    +:+ userNote +:+ dquote +:+ ". 
        Write a short, inspiring question or reflection for the user to read when they open this in the future. 
        It should make them think about how they've changed since they wrote the note.".

Definition generateFutureReflection (userNote : string) : Async S string :=
  match getAI with
  | None => resolve ""
  | Some ai =>
      try_catch
        (do response <- generate ai (TextContents (reflection_prompt userNote)) ;;
         resolve (or_else response ""))
        (fun _ => resolve "")
  end.

Definition refine_prompt (currentNote : string) : string :=
  "Rewrite the following time capsule note to be more emotional, timeless, and impactful for a future self, but keep the core meaning: "
    +:+ dquote +:+ currentNote +:+ dquote.

Definition refineUserNote (currentNote : string) : Async S string :=
  match getAI with
  | None => resolve currentNote
  | Some ai =>
      try_catch
        (do response <- generate ai (TextContents (refine_prompt currentNote)) ;;
         resolve (or_else response currentNote))
        (fun _ => resolve currentNote)
  end.

End WithService.

End Gemini.

(** ** [Array.prototype.sort] *)

Section ArraySort.

Context {A : Type}.

(** The comparator answers with a JavaScript number; [None] is [NaN]. *)
Variable comparefn : A -> A -> option Z.

(** [SortCompare]: a [NaN] answer counts as [+0]. *)
Definition SortCompare (x y : A) : Z := default 0 (comparefn x y).

(** [x] came before every element of the sorted [l]: it is placed before
    the first element it is not greater than. *)
Fixpoint sort_insert (x : A) (l : list A) : list A :=
  match l with
  | [] => [x]
  | y :: l' =>
      if bool_decide (0 < SortCompare x y) then y :: sort_insert x l'
      else x :: y :: l'
  end.

(** The sort is stable (ECMAScript 2019): for a consistent comparator the
    result is fixed by the standard, and is the one a stable insertion
    computes. *)
Definition Array_sort (l : list A) : list A := foldr sort_insert [] l.

End ArraySort.

(** ** [App.tsx] *)

Module App.

Record State : Type := mkState {
  view : ViewState;
  capsules : list Capsule.t;
  selectedCapsule : option Capsule.t;
  browser : Browser
}.

Definition setView (v : ViewState) : Async State unit :=
  fun st => (Resolved tt,
             {| view := v; capsules := capsules st;
                selectedCapsule := selectedCapsule st; browser := browser st |}).

Definition setCapsules (cs : list Capsule.t) : Async State unit :=
  fun st => (Resolved tt,
             {| view := view st; capsules := cs;
                selectedCapsule := selectedCapsule st; browser := browser st |}).

Definition setSelectedCapsule (c : option Capsule.t) : Async State unit :=
  fun st => (Resolved tt,
             {| view := view st; capsules := capsules st;
                selectedCapsule := c; browser := browser st |}).

(** A storage call, made from the component. *)
Definition db {A : Type} (m : Async Browser A) : Async State A :=
  fun st =>
    let '(r, br) := m (browser st) in
    (r, {| view := view st; capsules := capsules st;
           selectedCapsule := selectedCapsule st; browser := br |}).

(** What the platform supplies to one submission: the identifier drawn by
    [crypto.randomUUID], the clock read for [createdAt], what happens to
    the save and to the reload, and the clock read by the reload. *)
Record Submission : Type := mkSubmission {
  randomUUID : string;
  createdNow : Z;
  saveFault : Fault;
  loadFault : Fault;
  loadNow : Z
}.

Section WithPlatform.

Variable Date_parse : string -> option Z.
Variable toISOString : Z -> string.
Variable svc : Gemini.Service.

(** [new Date(c.unlockDate).getTime()]. *)
Definition getTime (c : Capsule.t) : option Z := Date_parse (Capsule.unlockDate c).

(** The comparator of [loadCapsules]. *)
Definition compareCapsules (a b : Capsule.t) : option Z :=
  if Bool.eqb (Capsule.isLocked a) (Capsule.isLocked b) then
    match getTime a, getTime b with
    | Some ta, Some tb => Some (ta - tb)
    | _, _ => None
    end
  else Some (if Capsule.isLocked a then 1 else -1).

(** [loadCapsules]: a failed load is caught, and the listing is left as it
    was. *)
Definition loadCapsules (f : Fault) (now : Z) : Async State unit :=
  try_catch
    (do data <- db (Storage.getAllCapsules Date_parse f now) ;;
     let sorted := Array_sort compareCapsules data in
     setCapsules sorted)
    (fun _ => resolve tt).

(** The media type derived from the attached file. *)
Definition mediaTypeOf (mediaFile : option File) : MediaType :=
  match mediaFile with
  | Some file =>
      if String.prefix "image" (blob_type file) then image
      else if String.prefix "audio" (blob_type file) then audio
      else video
  | None => text
  end.

Definition handleCreateSubmit (p : Submission)
    (data : CreateCapsuleFormData.t) (aiHint : option string) : Async State unit :=
  do reflection <-
    (if truthy (CreateCapsuleFormData.description data) then
       do r <- Gemini.generateFutureReflection svc (CreateCapsuleFormData.description data) ;;
       resolve (Some r)
     else resolve None) ;;
  let mediaType := mediaTypeOf (CreateCapsuleFormData.mediaFile data) in
  let newCapsule :=
    {| Capsule.id := randomUUID p;
       Capsule.title := CreateCapsuleFormData.title data;
       Capsule.description := CreateCapsuleFormData.description data;
       Capsule.mediaType := mediaType;
       Capsule.mediaBlob := file_blob <$> CreateCapsuleFormData.mediaFile data;
       Capsule.mediaUrl := None;
       Capsule.unlockDate := CreateCapsuleFormData.unlockDate data;
       Capsule.createdAt := toISOString (createdNow p);
       Capsule.isLocked := true;
       Capsule.aiHint := aiHint;
       Capsule.aiReflection := reflection |} in
  do _ <- db (Storage.saveCapsule (saveFault p) newCapsule) ;;
  do _ <- loadCapsules (loadFault p) (loadNow p) ;;
  setView DASHBOARD.

(** [confirmed] is the answer to the [confirm] dialog. *)
Definition handleDelete (confirmed : bool) (fDelete fLoad : Fault) (now : Z)
    (id : string) : Async State unit :=
  if confirmed then
    do _ <- db (Storage.deleteCapsule fDelete id) ;;
    loadCapsules fLoad now
  else resolve tt.

Definition handleOpenCapsule (capsule : Capsule.t) : Async State unit :=
  do _ <- setSelectedCapsule (Some capsule) ;;
  setView VIEW_CAPSULE.

End WithPlatform.

End App.

(** ** [components/CapsuleCard.tsx] *)

Module CapsuleCard.

(** The two state variables of a card. *)
Record State : Type := mkState {
  timeLeft : string;
  isLocked : bool
}.

Definition second_ms : Z := 1000.
Definition minute_ms : Z := 1000 * 60.
Definition hour_ms : Z := 1000 * 60 * 60.
Definition day_ms : Z := 1000 * 60 * 60 * 24.

(** The four numbers of the countdown for a distance that is not negative:
    [%] is the remainder with the sign of the dividend, [Math.floor] of a
    quotient by a positive divisor is the floor division. *)
Definition days (distance : Z) : Z := distance / day_ms.
Definition hours (distance : Z) : Z := Z.rem distance day_ms / hour_ms.
Definition minutes (distance : Z) : Z := Z.rem distance hour_ms / minute_ms.
Definition seconds (distance : Z) : Z := Z.rem distance minute_ms / second_ms.

Definition countdown (distance : Z) : string :=
  pretty (days distance) +:+ "d " +:+ pretty (hours distance) +:+ "h "
    +:+ pretty (minutes distance) +:+ "m " +:+ pretty (seconds distance) +:+ "s".

(** [calculateTimeLeft], from the clock [now] and the time value of
    [new Date(capsule.unlockDate)].  An invalid date makes every number
    [NaN]: [NaN < 0] is false and the card stays locked. *)
Definition calculateTimeLeft (now : Z) (unlockTime : option Z) : State :=
  match unlockTime with
  | Some t =>
      let distance := t - now in
      if bool_decide (distance < 0) then
        {| isLocked := false; timeLeft := "UNLOCKED" |}
      else
        {| isLocked := true; timeLeft := countdown distance |}
  | None => {| isLocked := true; timeLeft := "NaNd NaNh NaNm NaNs" |}
  end.

End CapsuleCard.

(** ** [components/CreateCapsule.tsx] *)

Module CreateCapsule.

Inductive RecordingMode : Type := none | audio | video.

(** A device stream, as the tracks [getTracks()] returns. *)
Record MediaStream : Type := mkStream { getTracks : list nat }.

(** The recorder [startRecording] builds.  Its [onstop] handler is a closure
    of the render in which [startRecording] was created: it keeps the
    [mimeTypePrefix] argument and, through that render's [cleanupMedia], the
    value the state variable [stream] had in that render. *)
Record MediaRecorder : Type := mkRecorder {
  recorder_stream : MediaStream;
  onstop_mimeTypePrefix : string;
  onstop_stream : option MediaStream
}.

(** The component: its state variables, its refs, and the part of the
    platform it acts on (the device tracks that are live, the interval
    timers that are active, the alerts shown). *)
Record State : Type := mkState {
  formData : CreateCapsuleFormData.t;
  isSubmitting : bool;
  recordingMode : RecordingMode;
  isRecording : bool;
  recordingTime : nat;
  stream : option MediaStream;
  mediaError : option string;
  mediaRecorderRef : option MediaRecorder;
  chunksRef : list Blob;
  timerRef : option positive;
  liveTracks : gset nat;
  intervals : gset positive;
  nextInterval : positive;
  alerts : list string
}.

Definition initial : State :=
  {| formData := CreateCapsuleFormData.mk "" "" "" None;
     isSubmitting := false;
     recordingMode := none;
     isRecording := false;
     recordingTime := 0;
     stream := None;
     mediaError := None;
     mediaRecorderRef := None;
     chunksRef := [];
     timerRef := None;
     liveTracks := ∅;
     intervals := ∅;
     nextInterval := 1%positive;
     alerts := [] |}.

(** *** State updates *)

Definition setMediaFile (f : option File) (st : State) : State :=
  {| formData :=
       CreateCapsuleFormData.mk
         (CreateCapsuleFormData.title (formData st))
         (CreateCapsuleFormData.description (formData st))
         (CreateCapsuleFormData.unlockDate (formData st)) f;
     isSubmitting := isSubmitting st; recordingMode := recordingMode st;
     isRecording := isRecording st; recordingTime := recordingTime st;
     stream := stream st; mediaError := mediaError st;
     mediaRecorderRef := mediaRecorderRef st; chunksRef := chunksRef st;
     timerRef := timerRef st; liveTracks := liveTracks st;
     intervals := intervals st; nextInterval := nextInterval st;
     alerts := alerts st |}.

Definition setIsSubmitting (b : bool) (st : State) : State :=
  {| formData := formData st;
     isSubmitting := b; recordingMode := recordingMode st;
     isRecording := isRecording st; recordingTime := recordingTime st;
     stream := stream st; mediaError := mediaError st;
     mediaRecorderRef := mediaRecorderRef st; chunksRef := chunksRef st;
     timerRef := timerRef st; liveTracks := liveTracks st;
     intervals := intervals st; nextInterval := nextInterval st;
     alerts := alerts st |}.

Definition setRecordingMode (m : RecordingMode) (st : State) : State :=
  {| formData := formData st;
     isSubmitting := isSubmitting st; recordingMode := m;
     isRecording := isRecording st; recordingTime := recordingTime st;
     stream := stream st; mediaError := mediaError st;
     mediaRecorderRef := mediaRecorderRef st; chunksRef := chunksRef st;
     timerRef := timerRef st; liveTracks := liveTracks st;
     intervals := intervals st; nextInterval := nextInterval st;
     alerts := alerts st |}.

Definition setIsRecording (b : bool) (st : State) : State :=
  {| formData := formData st;
     isSubmitting := isSubmitting st; recordingMode := recordingMode st;
     isRecording := b; recordingTime := recordingTime st;
     stream := stream st; mediaError := mediaError st;
     mediaRecorderRef := mediaRecorderRef st; chunksRef := chunksRef st;
     timerRef := timerRef st; liveTracks := liveTracks st;
     intervals := intervals st; nextInterval := nextInterval st;
     alerts := alerts st |}.

Definition setRecordingTime (n : nat) (st : State) : State :=
  {| formData := formData st;
     isSubmitting := isSubmitting st; recordingMode := recordingMode st;
     isRecording := isRecording st; recordingTime := n;
     stream := stream st; mediaError := mediaError st;
     mediaRecorderRef := mediaRecorderRef st; chunksRef := chunksRef st;
     timerRef := timerRef st; liveTracks := liveTracks st;
     intervals := intervals st; nextInterval := nextInterval st;
     alerts := alerts st |}.

Definition setStream (s : option MediaStream) (st : State) : State :=
  {| formData := formData st;
     isSubmitting := isSubmitting st; recordingMode := recordingMode st;
     isRecording := isRecording st; recordingTime := recordingTime st;
     stream := s; mediaError := mediaError st;
     mediaRecorderRef := mediaRecorderRef st; chunksRef := chunksRef st;
     timerRef := timerRef st; liveTracks := liveTracks st;
     intervals := intervals st; nextInterval := nextInterval st;
     alerts := alerts st |}.

Definition setMediaError (e : option string) (st : State) : State :=
  {| formData := formData st;
     isSubmitting := isSubmitting st; recordingMode := recordingMode st;
     isRecording := isRecording st; recordingTime := recordingTime st;
     stream := stream st; mediaError := e;
     mediaRecorderRef := mediaRecorderRef st; chunksRef := chunksRef st;
     timerRef := timerRef st; liveTracks := liveTracks st;
     intervals := intervals st; nextInterval := nextInterval st;
     alerts := alerts st |}.

Definition setMediaRecorderRef (r : option MediaRecorder) (st : State) : State :=
  {| formData := formData st;
     isSubmitting := isSubmitting st; recordingMode := recordingMode st;
     isRecording := isRecording st; recordingTime := recordingTime st;
     stream := stream st; mediaError := mediaError st;
     mediaRecorderRef := r; chunksRef := chunksRef st;
     timerRef := timerRef st; liveTracks := liveTracks st;
     intervals := intervals st; nextInterval := nextInterval st;
     alerts := alerts st |}.

Definition setChunksRef (cs : list Blob) (st : State) : State :=
  {| formData := formData st;
     isSubmitting := isSubmitting st; recordingMode := recordingMode st;
     isRecording := isRecording st; recordingTime := recordingTime st;
     stream := stream st; mediaError := mediaError st;
     mediaRecorderRef := mediaRecorderRef st; chunksRef := cs;
     timerRef := timerRef st; liveTracks := liveTracks st;
     intervals := intervals st; nextInterval := nextInterval st;
     alerts := alerts st |}.

Definition setTimerRef (t : option positive) (st : State) : State :=
  {| formData := formData st;
     isSubmitting := isSubmitting st; recordingMode := recordingMode st;
     isRecording := isRecording st; recordingTime := recordingTime st;
     stream := stream st; mediaError := mediaError st;
     mediaRecorderRef := mediaRecorderRef st; chunksRef := chunksRef st;
     timerRef := t; liveTracks := liveTracks st;
     intervals := intervals st; nextInterval := nextInterval st;
     alerts := alerts st |}.

Definition setLiveTracks (ts : gset nat) (st : State) : State :=
  {| formData := formData st;
     isSubmitting := isSubmitting st; recordingMode := recordingMode st;
     isRecording := isRecording st; recordingTime := recordingTime st;
     stream := stream st; mediaError := mediaError st;
     mediaRecorderRef := mediaRecorderRef st; chunksRef := chunksRef st;
     timerRef := timerRef st; liveTracks := ts;
     intervals := intervals st; nextInterval := nextInterval st;
     alerts := alerts st |}.

Definition setIntervals (ts : gset positive) (next : positive) (st : State) : State :=
  {| formData := formData st;
     isSubmitting := isSubmitting st; recordingMode := recordingMode st;
     isRecording := isRecording st; recordingTime := recordingTime st;
     stream := stream st; mediaError := mediaError st;
     mediaRecorderRef := mediaRecorderRef st; chunksRef := chunksRef st;
     timerRef := timerRef st; liveTracks := liveTracks st;
     intervals := ts; nextInterval := next;
     alerts := alerts st |}.

Definition alert (msg : string) (st : State) : State :=
  {| formData := formData st;
     isSubmitting := isSubmitting st; recordingMode := recordingMode st;
     isRecording := isRecording st; recordingTime := recordingTime st;
     stream := stream st; mediaError := mediaError st;
     mediaRecorderRef := mediaRecorderRef st; chunksRef := chunksRef st;
     timerRef := timerRef st; liveTracks := liveTracks st;
     intervals := intervals st; nextInterval := nextInterval st;
     alerts := alerts st ++ [msg] |}.

(** *** The platform *)

(** [getUserMedia] resolved with [s]: the tracks of [s] are live. *)
Definition acquire (s : MediaStream) (st : State) : State :=
  setLiveTracks (liveTracks st ∪ list_to_set (getTracks s)) st.

(** [s.getTracks().forEach(track => track.stop())]. *)
Definition stopTracks (s : MediaStream) (st : State) : State :=
  setLiveTracks (liveTracks st ∖ list_to_set (getTracks s)) st.

(** [window.setInterval(...)]: a new active timer and its identifier. *)
Definition setInterval (st : State) : positive * State :=
  (nextInterval st,
   setIntervals ({[nextInterval st]} ∪ intervals st) (Pos.succ (nextInterval st)) st).

Definition clearInterval (t : positive) (st : State) : State :=
  setIntervals (intervals st ∖ {[t]}) (nextInterval st) st.

(** [new Blob(parts, { type })]: the parts in sequence.  Content types are
    kept in the form the constructor gives them, on which it is the
    identity. *)
Definition new_Blob (parts : list Blob) (type : string) : Blob :=
  {| blob_bytes := concat (blob_bytes <$> parts); blob_type := type |}.

(** [s.includes(t)]. *)
Fixpoint includes (t s : string) : bool :=
  String.prefix t s ||
  match s with
  | EmptyString => false
  | String _ s' => includes t s'
  end.

(** *** The handlers

    A handler is created anew by every render and closes over the values
    the state variables have in that render; refs and the platform are read
    when the handler runs.  The state variables a handler closes over are
    its first arguments (named [..._r]): [stream_r] for [cleanupMedia] and
    everything that calls it, [isRecording_r] for [stopRecording].  A
    handler that awaits the device is run in one piece, with the answer of
    the device as an argument. *)

Definition cleanupMedia (stream_r : option MediaStream) (st : State) : State :=
  let st1 :=
    match stream_r with
    | Some s => setStream None (stopTracks s st)
    | None => st
    end in
  let st2 :=
    match timerRef st1 with
    | Some t => setTimerRef None (clearInterval t st1)
    | None => st1
    end in
  setMediaError None (setRecordingTime 0 (setIsRecording false st2)).

Definition handleFileChange (files : list File) (st : State) : State :=
  match files with
  | f :: _ => setMediaFile (Some f) st
  | [] => st
  end.

Definition clearMedia (stream_r : option MediaStream) (st : State) : State :=
  setRecordingMode none (cleanupMedia stream_r (setMediaFile None st)).

(** [recorder.ondataavailable]. *)
Definition ondataavailable (data : Blob) (st : State) : State :=
  if bool_decide (0 < blob_size data)%nat then setChunksRef (chunksRef st ++ [data]) st
  else st.

(** The file [recorder.onstop] builds from the buffered chunks. *)
Definition recording (chunks : list Blob) (mimeTypePrefix : string) : File :=
  let mimeType := or_else (blob_type <$> head chunks) mimeTypePrefix in
  let blob := new_Blob chunks mimeType in
  let ext := if includes "video" mimeType then "webm" else "webm" in
  {| file_blob := new_Blob [blob] mimeType; file_name := "recording." +:+ ext |}.

(** [recorder.onstop]. *)
Definition onstop (r : MediaRecorder) (st : State) : State :=
  let file := recording (chunksRef st) (onstop_mimeTypePrefix r) in
  cleanupMedia (onstop_stream r) (setMediaFile (Some file) st).

(** [recorderOk] is false when [new MediaRecorder] or [recorder.start()]
    throws. *)
Definition startRecording (stream_r : option MediaStream)
    (currentStream : MediaStream) (mimeTypePrefix : string)
    (recorderOk : bool) (st : State) : State :=
  let st1 := setChunksRef [] st in
  if recorderOk then
    let recorder :=
      {| recorder_stream := currentStream;
         onstop_mimeTypePrefix := mimeTypePrefix;
         onstop_stream := stream_r |} in
    let st2 := setIsRecording true (setMediaRecorderRef (Some recorder) st1) in
    let '(t, st3) := setInterval st2 in
    setTimerRef (Some t) st3
  else setMediaError (Some "Failed to start recording.") st1.

(** [granted] is the stream [getUserMedia] resolves with, [None] when it
    rejects. *)
Definition startAudioMode (stream_r : option MediaStream)
    (granted : option MediaStream) (recorderOk : bool) (st : State) : State :=
  let st1 := setRecordingMode audio st in
  match granted with
  | Some audioStream =>
      startRecording stream_r audioStream "audio/webm" recorderOk
        (setStream (Some audioStream) (acquire audioStream st1))
  | None => setMediaError (Some "Could not access microphone.") st1
  end.

Definition startVideoMode (granted : option MediaStream) (st : State) : State :=
  let st1 := setRecordingMode video st in
  match granted with
  | Some videoStream => setStream (Some videoStream) (acquire videoStream st1)
  | None => setMediaError (Some "Could not access camera/microphone.") st1
  end.

(** [recorder.stop()]: the recorder hands over the data it holds, then
    fires [stop]. *)
Definition MediaRecorder_stop (r : MediaRecorder) (data : Blob) (st : State) : State :=
  onstop r (ondataavailable data st).

Definition stopRecording (isRecording_r : bool) (data : Blob) (st : State) : State :=
  match mediaRecorderRef st with
  | Some r => if isRecording_r then MediaRecorder_stop r data st else st
  | None => st
  end.

Definition cancelRecording (stream_r : option MediaStream) (st : State) : State :=
  setRecordingMode none (cleanupMedia stream_r st).

(** The callback of the interval timer [t], run by the platform once a second
    while the timer is active. *)
Definition tick (t : positive) (st : State) : State :=
  if bool_decide (t ∈ intervals st) then setRecordingTime (S (recordingTime st)) st
  else st.

(** *** The page as the user drives it

    The handlers on screen are those of the last render, so they close over
    the current state variables.  The clean-up of the mount effect
    ([useEffect(..., [])]) is the one of the first render, where [stream]
    is [null]. *)

Inductive Event : Type :=
| RecordAudio (granted : option MediaStream) (recorderOk : bool)
| RecordVideo (granted : option MediaStream)
| StartVideo (recorderOk : bool)
| StopRecording (data : Blob)
| Cancel
| ClearMedia
| Upload (files : list File)
| Tick (t : positive)
| Unmount.

Definition hasMedia (st : State) : bool :=
  bool_decide (is_Some (CreateCapsuleFormData.mediaFile (formData st))).

Definition idle (st : State) : bool :=
  match recordingMode st with none => true | _ => false end.

(** Whether the control of the event is rendered. *)
Definition on_screen (e : Event) (st : State) : bool :=
  match e with
  | RecordAudio _ _ | RecordVideo _ | Upload _ => negb (hasMedia st) && idle st
  | Cancel => negb (hasMedia st) && negb (idle st)
  | StartVideo _ =>
      negb (hasMedia st) && negb (idle st)
      && bool_decide (mediaError st = None)
      && negb (isRecording st)
      && match recordingMode st with video => true | _ => false end
  | StopRecording _ =>
      negb (hasMedia st) && negb (idle st)
      && bool_decide (mediaError st = None)
      && negb (negb (isRecording st)
               && match recordingMode st with video => true | _ => false end)
  | ClearMedia => hasMedia st
  | Tick _ | Unmount => true
  end.

Definition handle (e : Event) (st : State) : State :=
  match e with
  | RecordAudio granted ok => startAudioMode (stream st) granted ok st
  | RecordVideo granted => startVideoMode granted st
  | StartVideo ok =>
      match stream st with
      | Some s => startRecording (stream st) s "video/webm" ok st
      | None => st
      end
  | StopRecording data => stopRecording (isRecording st) data st
  | Cancel => cancelRecording (stream st) st
  | ClearMedia => clearMedia (stream st) st
  | Upload files => handleFileChange files st
  | Tick t => tick t st
  | Unmount => cleanupMedia None st
  end.

(** A run of the page; [None] when an event has no control on screen. *)
Fixpoint run (es : list Event) (st : State) : option State :=
  match es with
  | [] => Some st
  | e :: es' => if on_screen e st then run es' (handle e st) else None
  end.

(** *** Submission *)

Section Submission.

(** The state of the parent component, and its [onSubmit]. *)
Context {S : Type}.
Variable onSubmit : CreateCapsuleFormData.t -> option string -> Async S unit.
Variable svc : Gemini.Service.

Definition here (f : State -> State) : Async (State * S) unit :=
  fun '(st, s) => (Resolved tt, (f st, s)).

Definition parent {A : Type} (m : Async S A) : Async (State * S) A :=
  fun '(st, s) => let '(r, s') := m s in (r, (st, s')).

Definition hintType (file : File) : string :=
  if String.prefix "image" (blob_type file) then "image"
  else if String.prefix "audio" (blob_type file) then "audio"
  else "video".

(** [handleSubmit], closed over the form of the render. *)
Definition handleSubmit (formData_r : CreateCapsuleFormData.t) : Async (State * S) unit :=
  if negb (truthy (CreateCapsuleFormData.title formData_r))
     || negb (truthy (CreateCapsuleFormData.unlockDate formData_r))
  then resolve tt
  else
    do _ <- here (setIsSubmitting true) ;;
    do _ <- try_catch
              (do aiHint <-
                 match CreateCapsuleFormData.mediaFile formData_r with
                 | Some file =>
                     do h <- Gemini.generateCapsuleHint svc file (hintType file) ;;
                     resolve (Some h)
                 | None => resolve None
                 end ;;
               parent (onSubmit formData_r aiHint))
              (fun _ => here (alert "Failed to create capsule")) ;;
    here (setIsSubmitting false).

End Submission.

End CreateCapsule.

(** ** A reference clock

  [Date] parsing and printing for the two forms the application produces:
  the value of a [datetime-local] input, [YYYY-MM-DDTHH:mm], and the
  output of [toISOString], [YYYY-MM-DDTHH:mm:ss.sssZ].  The page is taken
  to run in the UTC time zone.  The examples are stated against it. *)

Module UTC.

Definition digit (a : ascii) : option Z :=
  let n := Z.of_nat (nat_of_ascii a) in
  if bool_decide (48 <= n <= 57) then Some (n - 48) else None.

Fixpoint number_from (acc : Z) (s : string) : option Z :=
  match s with
  | EmptyString => Some acc
  | String a s' =>
      match digit a with
      | Some d => number_from (10 * acc + d) s'
      | None => None
      end
  end.

(** The decimal number written by the [n] characters of [s] from [i]. *)
Definition field (i n : nat) (s : string) : option Z :=
  if bool_decide (String.length (String.substring i n s) = n)
  then number_from 0 (String.substring i n s) else None.

Definition days_from_civil (y m d : Z) : Z :=
  let y' := if bool_decide (m <= 2) then y - 1 else y in
  let era := y' / 400 in
  let yoe := y' - era * 400 in
  let mp := (m + 9) mod 12 in
  let doy := (153 * mp + 2) / 5 + d - 1 in
  let doe := yoe * 365 + yoe / 4 - yoe / 100 + doy in
  era * 146097 + doe - 719468.

Definition civil_from_days (z : Z) : Z * Z * Z :=
  let z' := z + 719468 in
  let era := z' / 146097 in
  let doe := z' - era * 146097 in
  let yoe := (doe - doe / 1460 + doe / 36524 - doe / 146096) / 365 in
  let doy := doe - (365 * yoe + yoe / 4 - yoe / 100) in
  let mp := (5 * doy + 2) / 153 in
  let d := doy - (153 * mp + 2) / 5 + 1 in
  let m := if bool_decide (mp < 10) then mp + 3 else mp - 9 in
  let y := yoe + era * 400 + (if bool_decide (m <= 2) then 1 else 0) in
  (y, m, d).

Definition time_value (y mo d h mi sec ms : Z) : option Z :=
  if bool_decide (1 <= mo <= 12 /\ 1 <= d <= 31 /\ 0 <= h <= 23
                  /\ 0 <= mi <= 59 /\ 0 <= sec <= 59)
  then Some ((((days_from_civil y mo d * 24 + h) * 60 + mi) * 60 + sec) * 1000 + ms)
  else None.

Definition Date_parse (s : string) : option Z :=
  let date_and_minutes :=
    if String.eqb (String.substring 4 1 s) "-"
       && String.eqb (String.substring 7 1 s) "-"
       && String.eqb (String.substring 10 1 s) "T"
       && String.eqb (String.substring 13 1 s) ":"
    then
      y ← field 0 4 s; mo ← field 5 2 s; d ← field 8 2 s;
      h ← field 11 2 s; mi ← field 14 2 s; Some (y, mo, d, h, mi)
    else None in
  '(y, mo, d, h, mi) ← date_and_minutes;
  if bool_decide (String.length s = 16%nat) then time_value y mo d h mi 0 0
  else if bool_decide (String.length s = 24%nat)
          && String.eqb (String.substring 16 1 s) ":"
          && String.eqb (String.substring 19 1 s) "."
          && String.eqb (String.substring 23 1 s) "Z"
  then sec ← field 17 2 s; ms ← field 20 3 s; time_value y mo d h mi sec ms
  else None.

(** [n] in decimal, padded with zeros to [width] characters. *)
Fixpoint padded (width : nat) (n : Z) : string :=
  match width with
  | O => ""
  | S w => padded w (n / 10) +:+ pretty (n mod 10)
  end.

Definition toISOString (t : Z) : string :=
  let '(y, mo, d) := civil_from_days (t / 86400000) in
  let r := t mod 86400000 in
  padded 4 y +:+ "-" +:+ padded 2 mo +:+ "-" +:+ padded 2 d +:+ "T"
    +:+ padded 2 (r / 3600000) +:+ ":" +:+ padded 2 (r / 60000 mod 60) +:+ ":"
    +:+ padded 2 (r / 1000 mod 60) +:+ "." +:+ padded 3 (r mod 1000) +:+ "Z".

End UTC.

(** ** The creation path

    [App.tsx] renders [<CreateCapsule onSubmit={handleCreateSubmit} />]: a
    submission of the form runs [handleSubmit] with the parent's
    [handleCreateSubmit]. *)

Definition createCapsule (Date_parse : string -> option Z) (toISOString : Z -> string)
    (svc : Gemini.Service) (p : App.Submission) (formData : CreateCapsuleFormData.t)
  : Async (CreateCapsule.State * App.State) unit :=
  CreateCapsule.handleSubmit (App.handleCreateSubmit Date_parse toISOString svc p) svc formData.

(** ** Vocabulary of the properties *)

(** The invariant of the object store: a record sits under its key path
    [id], and holds no object URL. *)
Definition well_kept (br : Browser) : Prop :=
  map_Forall (fun k r => Capsule.id r = k /\ Capsule.mediaUrl r = None) (objectStore br).

(** The browsers the storage functions can leave, from a new profile. *)
Inductive reachable (Date_parse : string -> option Z) : Browser -> Prop :=
| reachable_new : reachable Date_parse {| objectStore := ∅; blobURLs := [] |}
| reachable_save f c br :
    reachable Date_parse br -> reachable Date_parse (Storage.saveCapsule f c br).2
| reachable_load f now br :
    reachable Date_parse br ->
    reachable Date_parse (Storage.getAllCapsules Date_parse f now br).2
| reachable_delete f id br :
    reachable Date_parse br -> reachable Date_parse (Storage.deleteCapsule f id br).2.

(** An object URL that the page issued before the blob URL store grew to
    [urls]. *)
Definition issued (urls : list Blob) (u : string) : Prop :=
  exists n, u = blob_url n /\ (n < length urls)%nat.

(** What one loaded capsule [c'] owes to its stored record [r], for a load
    at [now] that started with the blob URL store [urls] and left it as
    [urls']. *)
Definition loaded_from (Date_parse : string -> option Z) (now : Z)
    (urls urls' : list Blob) (r c' : Capsule.t) : Prop :=
  Capsule.id c' = Capsule.id r
  /\ Capsule.title c' = Capsule.title r
  /\ Capsule.description c' = Capsule.description r
  /\ Capsule.unlockDate c' = Capsule.unlockDate r
  /\ Capsule.createdAt c' = Capsule.createdAt r
  /\ Capsule.mediaType c' = Capsule.mediaType r
  /\ Capsule.mediaBlob c' = Capsule.mediaBlob r
  /\ Capsule.aiHint c' = Capsule.aiHint r
  /\ Capsule.aiReflection c' = Capsule.aiReflection r
  /\ Capsule.isLocked c' = Date_gt (Date_parse (Capsule.unlockDate r)) now
  /\ match Capsule.mediaBlob r with
     | Some b =>
         exists n, Capsule.mediaUrl c' = Some (blob_url n)
                   /\ (length urls <= n)%nat /\ urls' !! n = Some b
     | None => Capsule.mediaUrl c' = None
     end.

(** The capsules with a valid unlock date. *)
Definition dated (Date_parse : string -> option Z) (c : Capsule.t) : Prop :=
  is_Some (App.getTime Date_parse c).

(** The text service is out: no credential is configured, or every call to
    the model endpoint throws. *)
Definition enrichment_fails (svc : Gemini.Service) : Prop :=
  Gemini.getAI svc = None
  \/ forall c, exists e, Gemini.generateContent svc c = Gemini.GenerateThrows e.

(** The hint a capsule with media gets when the text service is out. *)
Definition default_hint (svc : Gemini.Service) : string :=
  match Gemini.getAI svc with
  | None => "A mysterious memory from the past..."
  | Some _ => "A securely sealed memory."
  end.

(** Two invariants of the creation page: the buffered chunks are not empty,
    and a recorder was asked for [audio/webm] or [video/webm]. *)
Definition steady (st : CreateCapsule.State) : Prop :=
  Forall (fun c => 0 < blob_size c)%nat (CreateCapsule.chunksRef st)
  /\ forall r, CreateCapsule.mediaRecorderRef st = Some r ->
       CreateCapsule.onstop_mimeTypePrefix r = "audio/webm"
       \/ CreateCapsule.onstop_mimeTypePrefix r = "video/webm".

(** ** Sample data *)

Module Samples.

(** 2030-01-01T00:00 and 2026-11-03T00:00, UTC. *)
Definition T : Z := 1893456000000.
Definition today : Z := 1793664000000.

Definition capsule (id unlockDate : string) : Capsule.t :=
  {| Capsule.id := id;
     Capsule.title := "Memory " +:+ id;
     Capsule.description := "";
     Capsule.mediaType := text;
     Capsule.mediaBlob := None;
     Capsule.mediaUrl := None;
     Capsule.unlockDate := unlockDate;
     Capsule.createdAt := "2026-11-03T00:00:00.000Z";
     Capsule.isLocked := true;
     Capsule.aiHint := None;
     Capsule.aiReflection := None |}.

(** Unlock dates one minute and five minutes after [T], one minute before
    it, and three minutes after it. *)
Definition four : list Capsule.t :=
  [ capsule "a" "2030-01-01T00:01"; capsule "b" "2030-01-01T00:05";
    capsule "c" "2029-12-31T23:59"; capsule "d" "2030-01-01T00:03" ].

(** A capsule that unlocks at [T] itself. *)
Definition on_time : Capsule.t := capsule "f" "2030-01-01T00:00".

Definition fresh_browser : Browser := {| objectStore := ∅; blobURLs := [] |}.

(** The browser after the capsules [cs] were saved, in turn. *)
Definition saved (cs : list Capsule.t) : Browser :=
  foldl (fun br c => (Storage.saveCapsule NoFault c br).2) fresh_browser cs.

Definition page (br : Browser) : App.State :=
  {| App.view := DASHBOARD; App.capsules := [];
     App.selectedCapsule := None; App.browser := br |}.

Definition photo : File :=
  {| file_blob := {| blob_bytes := [x89; x50; x4e; x47]; blob_type := "image/png" |};
     file_name := "photo.png" |}.

(** A capsule with a photograph, as a page holds it after a load. *)
Definition holiday : Capsule.t :=
  {| Capsule.id := "e";
     Capsule.title := "Holiday";
     Capsule.description := "";
     Capsule.mediaType := image;
     Capsule.mediaBlob := Some (file_blob photo);
     Capsule.mediaUrl := Some (blob_url 0);
     Capsule.unlockDate := "2030-01-01T00:02";
     Capsule.createdAt := "2026-11-03T00:00:00.000Z";
     Capsule.isLocked := true;
     Capsule.aiHint := None;
     Capsule.aiReflection := None |}.

Definition form (title unlockDate : string) (mediaFile : option File)
  : CreateCapsuleFormData.t :=
  CreateCapsuleFormData.mk title "A note to my future self" unlockDate mediaFile.

Definition submission : App.Submission :=
  {| App.randomUUID := "3f2b7c1e-0000-4000-8000-000000000001";
     App.createdNow := today;
     App.saveFault := NoFault;
     App.loadFault := NoFault;
     App.loadNow := today |}.

(** No credential configured. *)
Definition no_key : Gemini.Service :=
  {| Gemini.API_KEY := None;
     Gemini.generateContent := fun _ => Gemini.Response (Some "never asked");
     Gemini.readAsDataURL := fun _ => Resolved "data:image/png;base64,iVBORw==" |}.

(** A credential, and an endpoint that throws. *)
Definition failing : Gemini.Service :=
  {| Gemini.API_KEY := Some "key";
     Gemini.generateContent := fun _ => Gemini.GenerateThrows "503";
     Gemini.readAsDataURL := fun _ => Resolved "data:image/png;base64,iVBORw==" |}.

(** A credential, and an endpoint that answers without text. *)
Definition silent : Gemini.Service :=
  {| Gemini.API_KEY := Some "key";
     Gemini.generateContent := fun _ => Gemini.Response None;
     Gemini.readAsDataURL := fun _ => Resolved "data:image/png;base64,iVBORw==" |}.

Definition microphone : CreateCapsule.MediaStream := CreateCapsule.mkStream [0%nat].
Definition camera : CreateCapsule.MediaStream := CreateCapsule.mkStream [1%nat; 2%nat].

Definition no_data : Blob := {| blob_bytes := []; blob_type := "audio/webm" |}.
Definition some_data : Blob :=
  {| blob_bytes := [x1a; x45; xdf; xa3]; blob_type := "audio/webm;codecs=opus" |}.

End Samples.

(** ** [components/VaultDashboard.tsx] *)

Module VaultDashboard.

(** [capsules.filter(c => c.isLocked).length]. *)
Definition lockedCount (capsules : list Capsule.t) : nat :=
  length (filter (fun c => Capsule.isLocked c = true) capsules).

(** [capsules.filter(c => !c.isLocked).length]. *)
Definition unlockedCount (capsules : list Capsule.t) : nat :=
  length (filter (fun c => negb (Capsule.isLocked c) = true) capsules).

(** What the grid shows: the invitation of the empty vault, or one card for
    each capsule, in the order of the listing. *)
Inductive Grid : Type :=
| EmptyVault
| Cards (cards : list Capsule.t).

Definition grid (capsules : list Capsule.t) : Grid :=
  if bool_decide (length capsules = 0%nat) then EmptyVault else Cards capsules.

End VaultDashboard.

(** ** The elapsed time of a recording ([formatTime] of [CreateCapsule.tsx]) *)

(** [s.padStart(targetLength, '0')]. *)
Definition padStart0 (targetLength : nat) (s : string) : string :=
  String.concat "" (replicate (targetLength - String.length s) "0") +:+ s.

Definition formatTime (seconds : nat) : string :=
  let mins := (seconds / 60)%nat in
  let secs := (seconds mod 60)%nat in
  pretty mins +:+ ":" +:+ padStart0 2 (pretty secs).

(** ** The days a capsule was sealed for ([renderViewer] of [App.tsx]) *)

(** [Math.ceil(a / b)] for integers [a] and a positive integer [b]. *)
Definition ceil_div (a b : Z) : Z := - ((- a) / b).

(** [Math.ceil((unlockTime - createdTime) / (1000 * 60 * 60 * 24))]; [None]
    is [NaN], when one of the two dates is invalid. *)
Definition sealedDays (Date_parse : string -> option Z) (c : Capsule.t) : option Z :=
  match Date_parse (Capsule.unlockDate c), Date_parse (Capsule.createdAt c) with
  | Some unlockTime, Some createdTime =>
      Some (ceil_div (unlockTime - createdTime) (1000 * 60 * 60 * 24))
  | _, _ => None
  end.

(** ** More vocabulary *)

(** ** The recording code piece by piece

    [startAudioMode] and [startVideoMode] suspend at
    [await navigator.mediaDevices.getUserMedia(...)].  While the prompt of
    the device is open the page is rendered, in the mode the handler has set,
    and its controls work; the rest of the handler runs when the device
    answers, with the values the handler captured at the click. *)

Module Pieces.

Import CreateCapsule.

(** What [startAudioMode] does once the device has answered. *)
Definition startAudioMode_resume (stream_r : option MediaStream)
    (granted : option MediaStream) (recorderOk : bool) (st : State) : State :=
  match granted with
  | Some audioStream =>
      startRecording stream_r audioStream "audio/webm" recorderOk
        (setStream (Some audioStream) (acquire audioStream st))
  | None => setMediaError (Some "Could not access microphone.") st
  end.

(** What [startVideoMode] does once the device has answered. *)
Definition startVideoMode_resume (granted : option MediaStream) (st : State) : State :=
  match granted with
  | Some videoStream => setStream (Some videoStream) (acquire videoStream st)
  | None => setMediaError (Some "Could not access camera/microphone.") st
  end.

(** Every piece of code of the component that acts on the recording, the
    timer or the form, as something that may run at any time: the two halves
    of the asynchronous handlers, the other handlers, the callbacks of the
    recorder and of the timers, the clean-up of the mount effect, and the
    updates of [handleSubmit].  A piece comes with the values it captured
    ([stream_r], [isRecording_r]); nothing is assumed about them, nor about
    the order of the pieces. *)
Inductive Action : Type :=
| BeginAudio
| ResumeAudio (stream_r : option MediaStream) (granted : option MediaStream)
    (recorderOk : bool)
| BeginVideo
| ResumeVideo (granted : option MediaStream)
| StartRecording (stream_r : option MediaStream) (currentStream : MediaStream)
    (mimeTypePrefix : string) (recorderOk : bool)
| StopRecording (isRecording_r : bool) (data : Blob)
| DataAvailable (data : Blob)
| Stopped (recorder : MediaRecorder)
| CancelRecording (stream_r : option MediaStream)
| ClearMedia (stream_r : option MediaStream)
| FileChange (files : list File)
| Timer (t : positive)
| CleanupMedia (stream_r : option MediaStream)
| Submitting (b : bool)
| Alert (msg : string).

Definition perform (a : Action) (st : State) : State :=
  match a with
  | BeginAudio => setRecordingMode audio st
  | ResumeAudio stream_r granted recorderOk =>
      startAudioMode_resume stream_r granted recorderOk st
  | BeginVideo => setRecordingMode video st
  | ResumeVideo granted => startVideoMode_resume granted st
  | StartRecording stream_r currentStream mimeTypePrefix recorderOk =>
      startRecording stream_r currentStream mimeTypePrefix recorderOk st
  | StopRecording isRecording_r data => stopRecording isRecording_r data st
  | DataAvailable data => ondataavailable data st
  | Stopped recorder => onstop recorder st
  | CancelRecording stream_r => cancelRecording stream_r st
  | ClearMedia stream_r => clearMedia stream_r st
  | FileChange files => handleFileChange files st
  | Timer t => tick t st
  | CleanupMedia stream_r => cleanupMedia stream_r st
  | Submitting b => setIsSubmitting b st
  | Alert msg => alert msg st
  end.

(** The pieces of [acts] one after the other, the first one first. *)
Definition performs (acts : list Action) (st : State) : State :=
  foldl (fun st a => perform a st) st acts.

(** An interval timer that is active and that [timerRef] does not hold. *)
Definition lost (t : positive) (st : State) : Prop :=
  t ∈ intervals st /\ timerRef st <> Some t.

(** The identifiers of [setInterval]: those in use are below the next one,
    and the one [timerRef] holds is active. *)
Definition timers_kept (st : State) : Prop :=
  (forall t, t ∈ intervals st -> (t < nextInterval st)%positive)
  /\ (forall t, timerRef st = Some t -> t ∈ intervals st).

(** How a piece of code acts on the timers: it leaves them alone, or it
    clears the one [timerRef] holds and empties [timerRef], or it starts a
    new one and overwrites [timerRef] with it. *)
Inductive timers_step (st st' : State) : Prop :=
| timers_same :
    intervals st' = intervals st -> timerRef st' = timerRef st ->
    nextInterval st' = nextInterval st -> timers_step st st'
| timers_cleared :
    intervals st' = match timerRef st with
                    | Some t => intervals st ∖ {[t]}
                    | None => intervals st
                    end ->
    timerRef st' = None -> nextInterval st' = nextInterval st -> timers_step st st'
| timers_started :
    intervals st' = {[nextInterval st]} ∪ intervals st ->
    timerRef st' = Some (nextInterval st) ->
    nextInterval st' = Pos.succ (nextInterval st) -> timers_step st st'.

End Pieces.

(** A string without a comma. *)
Fixpoint comma_free (s : string) : bool :=
  match s with
  | EmptyString => true
  | String a s' => negb (Ascii.eqb a ","%char) && comma_free s'
  end.

(** * Properties *)

(** ** The reference clock *)

Example UTC_epoch : UTC.Date_parse "1970-01-01T00:00" = Some 0.
Proof. reflexivity. Qed.

Example UTC_parse_2030 : UTC.Date_parse "2030-01-01T00:00" = Some 1893456000000.
Proof. vm_compute. reflexivity. Qed.

Example UTC_print_2030 : UTC.toISOString 1893456000000 = "2030-01-01T00:00:00.000Z".
Proof. vm_compute. reflexivity. Qed.

Example UTC_print_parse :
  UTC.Date_parse (UTC.toISOString 1762128000123) = Some 1762128000123.
Proof. vm_compute. reflexivity. Qed.

Example UTC_invalid : UTC.Date_parse "tomorrow" = None.
Proof. vm_compute. reflexivity. Qed.

Example UTC_today : UTC.Date_parse "2026-11-03T00:00" = Some Samples.today.
Proof. vm_compute. reflexivity. Qed.

(** ** Storage *)

Section StorageFacts.

Variable Date_parse : string -> option Z.

Implicit Types (c r : Capsule.t) (br : Browser) (urls : list Blob).

Lemma blob_url_inj n m : blob_url n = blob_url m -> n = m.
Proof.
  unfold blob_url. intros H.
  apply (inj (String.app "blob:")) in H. by apply (inj pretty) in H.
Qed.

Lemma well_kept_lookup br k r :
  well_kept br -> objectStore br !! k = Some r ->
  Capsule.id r = k /\ Capsule.mediaUrl r = None.
Proof. intros Hk Hr. exact (map_Forall_lookup_1 _ _ _ _ Hk Hr). Qed.

Lemma well_kept_empty urls : well_kept {| objectStore := ∅; blobURLs := urls |}.
Proof. apply map_Forall_empty. Qed.

Lemma well_kept_put c br :
  well_kept br -> well_kept (Storage.put (Storage.dataToStore c) br).
Proof. intros Hk. by apply map_Forall_insert_2. Qed.

Lemma well_kept_delete id br :
  well_kept br ->
  well_kept {| objectStore := delete id (objectStore br); blobURLs := blobURLs br |}.
Proof. intros Hk. by apply map_Forall_delete. Qed.

Lemma reachable_well_kept br : reachable Date_parse br -> well_kept br.
Proof.
  induction 1 as [|f c br _ IH|f now br _ IH|f id br _ IH].
  - apply well_kept_empty.
  - destruct f; [by apply well_kept_put | done | done].
  - destruct f; [|done|done].
    unfold Storage.getAllCapsules, await, Storage.openDB, resolve.
    by destruct (Storage.processed _ _ _ _).
  - destruct f; [by apply well_kept_delete | done | done].
Qed.

Lemma elem_of_getAll br r :
  r ∈ Storage.getAll br <-> exists k, objectStore br !! k = Some r.
Proof.
  unfold Storage.getAll. rewrite merge_sort_Permutation, list_elem_of_fmap. split.
  - intros [[k r'] [-> H]]. exists k. by apply elem_of_map_to_list in H.
  - intros [k H]. exists (k, r). split; [done|]. by apply elem_of_map_to_list.
Qed.

Lemma process_loaded now r urls :
  loaded_from Date_parse now urls (Storage.process Date_parse now r urls).2 r
    (Storage.process Date_parse now r urls).1
  /\ urls `prefix_of` (Storage.process Date_parse now r urls).2.
Proof.
  unfold Storage.process, loaded_from. simpl.
  destruct (Capsule.mediaBlob r) as [b|]; simpl.
  - split; [|by apply prefix_app_r].
    repeat split; try done.
    exists (length urls). split; [done|]. split; [lia|].
    by rewrite lookup_app_r, Nat.sub_diag by lia.
  - repeat split; done.
Qed.

Lemma loaded_from_weaken now urls0 urls urls' urls'' r c' :
  (length urls0 <= length urls)%nat -> urls' `prefix_of` urls'' ->
  loaded_from Date_parse now urls urls' r c' -> loaded_from Date_parse now urls0 urls'' r c'.
Proof.
  unfold loaded_from. intros Hlen Hpre H.
  destruct H as (?&?&?&?&?&?&?&?&?&?&H). repeat split; try done.
  destruct (Capsule.mediaBlob r); [|done].
  destruct H as (n & ? & ? & Hn). exists n. split; [done|]. split; [lia|].
  by eapply prefix_lookup_Some.
Qed.

Lemma processed_cons now r rs urls :
  Storage.processed Date_parse now (r :: rs) urls =
    ((Storage.process Date_parse now r urls).1
       :: (Storage.processed Date_parse now rs (Storage.process Date_parse now r urls).2).1,
     (Storage.processed Date_parse now rs (Storage.process Date_parse now r urls).2).2).
Proof.
  cbn [Storage.processed].
  destruct (Storage.process Date_parse now r urls) as [c' urls1]. cbn [fst snd].
  by destruct (Storage.processed Date_parse now rs urls1).
Qed.

(** [processed] pairs every record with its loaded capsule, in order. *)
Lemma processed_loaded now rs : forall urls,
  Forall2 (loaded_from Date_parse now urls (Storage.processed Date_parse now rs urls).2) rs
    (Storage.processed Date_parse now rs urls).1
  /\ urls `prefix_of` (Storage.processed Date_parse now rs urls).2.
Proof.
  induction rs as [|r rs IH]; intros urls.
  - split; [constructor | done].
  - rewrite processed_cons. cbn [fst snd].
    destruct (process_loaded now r urls) as [Hr Hp].
    destruct (Storage.process Date_parse now r urls) as [c' urls1] eqn:E1.
    cbn [fst snd] in *.
    specialize (IH urls1). destruct IH as [IH1 IH2].
    destruct (Storage.processed Date_parse now rs urls1) as [rest urls2] eqn:E2.
    cbn [fst snd] in *. split.
    + constructor.
      * eapply loaded_from_weaken; [| exact IH2 | exact Hr]. done.
      * eapply Forall2_impl; [exact IH1|]. intros r0 c0.
        apply loaded_from_weaken; [|done].
        apply prefix_length in Hp. done.
    + by etrans.
Qed.

(** A load without fault resolves, with the capsules of the store. *)
Lemma getAllCapsules_ok now br :
  Storage.getAllCapsules Date_parse NoFault now br =
    (Resolved (Storage.processed Date_parse now (Storage.getAll br) (blobURLs br)).1,
     {| objectStore := objectStore br;
        blobURLs := (Storage.processed Date_parse now (Storage.getAll br) (blobURLs br)).2 |}).
Proof.
  unfold Storage.getAllCapsules, await, Storage.openDB, resolve.
  by destruct (Storage.processed _ _ _ _).
Qed.

Lemma saveCapsule_ok c br :
  Storage.saveCapsule NoFault c br = (Resolved tt, Storage.put (Storage.dataToStore c) br).
Proof. reflexivity. Qed.

Lemma deleteCapsule_ok id br :
  Storage.deleteCapsule NoFault id br =
    (Resolved tt, {| objectStore := delete id (objectStore br); blobURLs := blobURLs br |}).
Proof. reflexivity. Qed.

Lemma loaded_of_stored now br c' :
  c' ∈ (Storage.processed Date_parse now (Storage.getAll br) (blobURLs br)).1 ->
  exists k r, objectStore br !! k = Some r
    /\ loaded_from Date_parse now (blobURLs br)
         (Storage.processed Date_parse now (Storage.getAll br) (blobURLs br)).2 r c'.
Proof.
  intros Hin. apply list_elem_of_lookup in Hin as [i Hi].
  destruct (processed_loaded now (Storage.getAll br) (blobURLs br)) as [HF _].
  destruct (Forall2_lookup_r _ _ _ _ _ HF Hi) as (r & Hr & Hl).
  assert (r ∈ Storage.getAll br) as Hin by (apply list_elem_of_lookup; eauto).
  apply elem_of_getAll in Hin as [k Hk]. eauto.
Qed.

Lemma stored_is_loaded now br k r :
  objectStore br !! k = Some r ->
  exists c', c' ∈ (Storage.processed Date_parse now (Storage.getAll br) (blobURLs br)).1
    /\ loaded_from Date_parse now (blobURLs br)
         (Storage.processed Date_parse now (Storage.getAll br) (blobURLs br)).2 r c'.
Proof.
  intros Hk.
  assert (r ∈ Storage.getAll br) as Hin by (apply elem_of_getAll; eauto).
  apply list_elem_of_lookup in Hin as [i Hi].
  destruct (processed_loaded now (Storage.getAll br) (blobURLs br)) as [HF _].
  destruct (Forall2_lookup_l _ _ _ _ _ HF Hi) as (c' & Hc & Hl).
  exists c'. split; [|done]. apply list_elem_of_lookup. eauto.
Qed.

(** C1. Round trip: a capsule saved without fault is in the store without an
    object URL (no record of the store holds one); the next load returns one
    capsule with its id, and that capsule has the same id, title,
    description, unlockDate, createdAt, mediaType and mediaBlob; its
    mediaUrl is absent when there is no blob, and otherwise is an object URL
    that resolves to the blob and had not been issued before the load. *)
Theorem save_getAll_roundtrip (c : Capsule.t) (br : Browser) (now : Z) :
  well_kept br ->
  exists br1 cs br2,
    Storage.saveCapsule NoFault c br = (Resolved tt, br1)
    /\ (exists r, objectStore br1 !! Capsule.id c = Some r)
    /\ (forall k r, objectStore br1 !! k = Some r -> Capsule.mediaUrl r = None)
    /\ Storage.getAllCapsules Date_parse NoFault now br1 = (Resolved cs, br2)
    /\ (exists c', c' ∈ cs /\ Capsule.id c' = Capsule.id c)
    /\ forall c', c' ∈ cs -> Capsule.id c' = Capsule.id c ->
         Capsule.title c' = Capsule.title c
         /\ Capsule.description c' = Capsule.description c
         /\ Capsule.unlockDate c' = Capsule.unlockDate c
         /\ Capsule.createdAt c' = Capsule.createdAt c
         /\ Capsule.mediaType c' = Capsule.mediaType c
         /\ Capsule.mediaBlob c' = Capsule.mediaBlob c
         /\ match Capsule.mediaBlob c with
            | Some b =>
                exists u, Capsule.mediaUrl c' = Some u
                          /\ url_resolves (blobURLs br2) u b
                          /\ ~ issued (blobURLs br1) u
            | None => Capsule.mediaUrl c' = None
            end.
Proof.
  intros Hk.
  pose proof (well_kept_put c br Hk) as Hk1.
  set (br1 := Storage.put (Storage.dataToStore c) br) in *.
  assert (objectStore br1 !! Capsule.id c = Some (Storage.dataToStore c)) as Hc
    by apply lookup_insert_eq.
  eexists br1, _, _. split; [apply saveCapsule_ok|].
  split; [eauto|].
  split; [intros k r H; by apply (well_kept_lookup _ _ _ Hk1) in H as [_ ?]|].
  split; [apply getAllCapsules_ok|]. cbn [blobURLs]. split.
  - destruct (stored_is_loaded now br1 _ _ Hc) as (c' & Hin & Hl).
    exists c'. split; [done|]. by destruct Hl as [-> _].
  - intros c' Hin Hid.
    destruct (loaded_of_stored now br1 c' Hin) as (k & r & Hr & Hl).
    pose proof Hl as (Hid' & _).
    apply (well_kept_lookup _ _ _ Hk1) in Hr as Hkey. destruct Hkey as [Hkey _].
    assert (k = Capsule.id c) as -> by congruence.
    rewrite Hc in Hr. injection Hr as <-.
    destruct Hl as (_ & -> & -> & -> & -> & -> & -> & _ & _ & _ & Hu).
    repeat split; try done. cbn [Storage.dataToStore Capsule.mediaBlob] in Hu |- *.
    destruct (Capsule.mediaBlob c) as [b|]; [|done].
    destruct Hu as (n & Hn & Hlen & Hlook).
    exists (blob_url n). split; [done|]. split; [by exists n|].
    intros (m & Hm & Hlt). apply blob_url_inj in Hm as <-. lia.
Qed.

(** Two loads of one stored blob give two different object URLs. *)
Lemma two_loads_differ now1 now2 br cs1 br1 cs2 br2 c1 c2 u1 u2 :
  Storage.getAllCapsules Date_parse NoFault now1 br = (Resolved cs1, br1) ->
  Storage.getAllCapsules Date_parse NoFault now2 br1 = (Resolved cs2, br2) ->
  c1 ∈ cs1 -> c2 ∈ cs2 ->
  Capsule.mediaUrl c1 = Some u1 -> Capsule.mediaUrl c2 = Some u2 -> u1 <> u2.
Proof.
  rewrite !getAllCapsules_ok. intros [= <- <-] [= <- <-] H1 H2 Hu1 Hu2.
  apply loaded_of_stored in H1 as (k1 & r1 & _ & Hl1).
  apply loaded_of_stored in H2 as (k2 & r2 & _ & Hl2).
  cbn [blobURLs objectStore] in *.
  destruct Hl1 as (_&_&_&_&_&_&_&_&_&_&Hl1), Hl2 as (_&_&_&_&_&_&_&_&_&_&Hl2).
  destruct (Capsule.mediaBlob r1); [|congruence].
  destruct (Capsule.mediaBlob r2); [|congruence].
  destruct Hl1 as (n1 & E1 & _ & L1), Hl2 as (n2 & E2 & L2 & _).
  apply lookup_lt_Some in L1.
  assert (u1 = blob_url n1) as -> by congruence.
  assert (u2 = blob_url n2) as -> by congruence.
  intros E. apply blob_url_inj in E. lia.
Qed.

(** C2. A load recomputes isLocked for every stored record from its
    unlockDate and the clock alone: the capsule is locked exactly when the
    unlock time is strictly after now, whatever flag the record holds; a
    capsule whose unlock time is now is unlocked. *)
Theorem getAll_recomputes_isLocked (br : Browser) (now : Z) :
  exists cs br',
    Storage.getAllCapsules Date_parse NoFault now br = (Resolved cs, br')
    /\ Forall2 (fun r c' =>
                  Capsule.id c' = Capsule.id r
                  /\ Capsule.unlockDate c' = Capsule.unlockDate r
                  /\ (Capsule.isLocked c' = true <->
                      exists t, Date_parse (Capsule.unlockDate r) = Some t /\ now < t))
         (Storage.getAll br) cs
    /\ forall c', c' ∈ cs ->
         Date_parse (Capsule.unlockDate c') = Some now -> Capsule.isLocked c' = false.
Proof.
  eexists _, _. split; [apply getAllCapsules_ok|].
  destruct (processed_loaded now (Storage.getAll br) (blobURLs br)) as [HF _].
  assert (forall r c' urls urls', loaded_from Date_parse now urls urls' r c' ->
            Capsule.id c' = Capsule.id r
            /\ Capsule.unlockDate c' = Capsule.unlockDate r
            /\ (Capsule.isLocked c' = true <->
                exists t, Date_parse (Capsule.unlockDate r) = Some t /\ now < t)) as Hone.
  { intros r c' urls urls' (Hid & _ & _ & Hd & _ & _ & _ & _ & _ & Hl & _).
    split; [done|]. split; [done|]. rewrite Hl. unfold Date_gt.
    destruct (Date_parse (Capsule.unlockDate r)) as [t|].
    - rewrite bool_decide_eq_true. split; [eauto|]. by intros (t' & [= <-] & ?).
    - split; [done|]. by intros (t' & ? & _). }
  split.
  - eapply Forall2_impl; [exact HF|]. intros r c'. apply Hone.
  - intros c' Hin Hnow.
    apply loaded_of_stored in Hin as (k & r & _ & Hl).
    apply Hone in Hl as (_ & Hd & Hiff). rewrite Hd in Hnow.
    destruct (Capsule.isLocked c'); [|done].
    destruct Hiff as [Hiff _]. destruct (Hiff eq_refl) as (t & Ht & Hlt).
    rewrite Hnow in Ht. injection Ht as <-. lia.
Qed.

(** C9. Deleting is idempotent: without a platform fault the call resolves
    whether or not the id is in the store, it leaves a store without the id
    unchanged, a second call resolves again and changes nothing, and no
    capsule of a later load has the id. *)
Theorem deleteCapsule_idempotent (id : string) (br : Browser) (now : Z) :
  well_kept br ->
  exists br1,
    Storage.deleteCapsule NoFault id br = (Resolved tt, br1)
    /\ (objectStore br !! id = None -> br1 = br)
    /\ Storage.deleteCapsule NoFault id br1 = (Resolved tt, br1)
    /\ exists cs br2,
         Storage.getAllCapsules Date_parse NoFault now br1 = (Resolved cs, br2)
         /\ forall c, c ∈ cs -> Capsule.id c <> id.
Proof.
  intros Hk. eexists. split; [apply deleteCapsule_ok|].
  split; [|split].
  - intros Hnone. destruct br as [store urls]. cbn in *. f_equal.
    by apply delete_id.
  - rewrite deleteCapsule_ok. cbn. do 2 f_equal. apply delete_id, lookup_delete_eq.
  - eexists _, _. split; [apply getAllCapsules_ok|].
    intros c Hin Hid.
    apply loaded_of_stored in Hin as (k & r & Hr & Hl).
    cbn [objectStore] in Hr.
    apply lookup_delete_Some in Hr as [Hne Hr].
    apply (well_kept_lookup _ _ _ Hk) in Hr as [Hkey _]. destruct Hl as [Hid' _]. congruence.
Qed.

End StorageFacts.

Lemma save_getAll_roundtrip_witness :
  exists br1 cs br2,
    Storage.saveCapsule NoFault Samples.holiday (Samples.saved Samples.four)
      = (Resolved tt, br1)
    /\ Storage.getAllCapsules UTC.Date_parse NoFault Samples.T br1 = (Resolved cs, br2)
    /\ exists c', c' ∈ cs /\ Capsule.id c' = "e".
Proof.
  destruct (save_getAll_roundtrip UTC.Date_parse Samples.holiday
              (Samples.saved Samples.four) Samples.T)
    as (br1 & cs & br2 & H1 & _ & _ & H2 & H3 & _).
  - apply (bool_decide_unpack _). vm_compute. reflexivity.
  - exists br1, cs, br2. split; [exact H1|]. split; [exact H2|]. exact H3.
Defined.

Lemma deleteCapsule_idempotent_witness :
  exists br1,
    Storage.deleteCapsule NoFault "zz" (Samples.saved Samples.four) = (Resolved tt, br1)
    /\ Storage.deleteCapsule NoFault "zz" br1 = (Resolved tt, br1).
Proof.
  destruct (deleteCapsule_idempotent UTC.Date_parse "zz" (Samples.saved Samples.four) Samples.T)
    as (br1 & H1 & _ & H2 & _).
  - apply (bool_decide_unpack _). vm_compute. reflexivity.
  - exists br1. split; [exact H1 | exact H2].
Defined.

Lemma getAll_recomputes_isLocked_witness :
  exists cs br',
    Storage.getAllCapsules UTC.Date_parse NoFault Samples.T
      (Samples.saved [Samples.on_time]) = (Resolved cs, br')
    /\ Forall (fun c => Capsule.isLocked c = false) cs.
Proof.
  destruct (getAll_recomputes_isLocked UTC.Date_parse (Samples.saved [Samples.on_time])
              Samples.T) as (cs & br' & H1 & _ & H3).
  exists cs, br'. split; [exact H1|].
  apply Forall_forall. intros c Hc. apply H3; [exact Hc|].
  vm_compute in H1. injection H1 as <- _.
  apply list_elem_of_singleton in Hc as ->. vm_compute. reflexivity.
Defined.

(** The same load keeps the stored flag out of the result: the record was
    saved as locked. *)
Example stored_flag_is_not_trusted :
  Capsule.isLocked <$> Storage.getAll (Samples.saved [Samples.on_time]) = [true]
  /\ Capsule.isLocked <$>
       (Storage.processed UTC.Date_parse Samples.T
          (Storage.getAll (Samples.saved [Samples.on_time])) []).1 = [false].
Proof. split; vm_compute; reflexivity. Qed.

(** ** Sorting *)

Section SortFacts.

Context {A : Type}.
Variable comparefn : A -> A -> option Z.

(** The elements on which the comparator is consistent. *)
Variable ok : A -> Prop.

Local Abbreviation cmp := (SortCompare comparefn).

Hypothesis cmp_trans : forall x y z,
  ok x -> ok y -> ok z -> cmp x y <= 0 -> cmp y z <= 0 -> cmp x z <= 0.
Hypothesis cmp_asym : forall x y, ok x -> ok y -> 0 < cmp x y -> cmp y x <= 0.

Lemma sort_insert_perm x l : sort_insert comparefn x l ≡ₚ x :: l.
Proof.
  induction l as [|y l IH]; [done|]. cbn [sort_insert].
  case_bool_decide; [|done]. rewrite IH. apply Permutation_swap.
Qed.

Lemma Array_sort_perm l : Array_sort comparefn l ≡ₚ l.
Proof.
  induction l as [|x l IH]; [done|].
  cbn [Array_sort foldr]. fold (Array_sort comparefn l).
  by rewrite sort_insert_perm, IH.
Qed.

Lemma sort_insert_sorted x l :
  ok x -> Forall ok l ->
  StronglySorted (fun a b => cmp a b <= 0) l ->
  StronglySorted (fun a b => cmp a b <= 0) (sort_insert comparefn x l).
Proof.
  intros Hx Hok Hs. induction Hs as [|y l Hs IH Hy]; cbn [sort_insert].
  - repeat constructor.
  - apply Forall_cons in Hok as [Hoky Hok]. case_bool_decide as Hgt.
    + constructor; [by apply IH|].
      rewrite sort_insert_perm. constructor; [by apply cmp_asym|done].
    + constructor; [by constructor|].
      assert (cmp x y <= 0) as Hxy by lia.
      constructor; [done|].
      rewrite Forall_forall in Hy, Hok |- *. intros z Hz.
      eapply cmp_trans; [done| exact Hoky |by apply Hok|done|by apply Hy].
Qed.

Lemma Array_sort_sorted l :
  Forall ok l -> StronglySorted (fun a b => cmp a b <= 0) (Array_sort comparefn l).
Proof.
  induction l as [|x l IH]; intros Hok; [constructor|].
  apply Forall_cons in Hok as [Hx Hok].
  cbn [Array_sort foldr]. fold (Array_sort comparefn l).
  apply sort_insert_sorted; [done| |by apply IH].
  by rewrite Array_sort_perm.
Qed.

(** Stability: the elements of a class no two of whose members the
    comparator puts apart keep their order. *)
Variable Q : A -> Prop.
Context `{!forall x, Decision (Q x)}.
Hypothesis Q_tied : forall x y, Q x -> Q y -> cmp x y <= 0.

Lemma sort_insert_stable x l :
  filter Q (sort_insert comparefn x l) = filter Q (x :: l).
Proof.
  induction l as [|y l IH]; [done|]. cbn [sort_insert].
  case_bool_decide as Hgt; [|done].
  rewrite filter_cons, IH, !filter_cons.
  destruct (decide (Q y)) as [Hy|Hy], (decide (Q x)) as [Hx|Hx]; try done.
  specialize (Q_tied x y Hx Hy). lia.
Qed.

Lemma Array_sort_stable l : filter Q (Array_sort comparefn l) = filter Q l.
Proof.
  induction l as [|x l IH]; [done|].
  cbn [Array_sort foldr]. fold (Array_sort comparefn l).
  by rewrite sort_insert_stable, !filter_cons, IH.
Qed.

End SortFacts.

(** ** The listing *)

Lemma StronglySorted_lookup {A : Type} (R : A -> A -> Prop) (l : list A) (i j : nat) (a b : A) :
  StronglySorted R l -> (i < j)%nat -> l !! i = Some a -> l !! j = Some b -> R a b.
Proof.
  intros Hs. revert i j. induction Hs as [|x l Hs IH Hx]; intros i j Hij Hi Hj; [done|].
  destruct j as [|j]; [lia|]. cbn in Hj. destruct i as [|i].
  - injection Hi as <-. rewrite Forall_forall in Hx. apply Hx.
    apply list_elem_of_lookup. eauto.
  - cbn in Hi. apply (IH i j); [lia|done..].
Qed.

Lemma filter_agree {A : Type} (P Q : A -> Prop)
    `{!forall x, Decision (P x)} `{!forall x, Decision (Q x)} (l : list A) :
  Forall (fun x => P x <-> Q x) l -> filter P l = filter Q l.
Proof.
  induction 1 as [|x l Hx _ IH]; [done|]. rewrite !filter_cons, IH.
  destruct (decide (P x)), (decide (Q x)); tauto.
Qed.

Section ListingFacts.

Variable Date_parse : string -> option Z.

Local Abbreviation getTime := (App.getTime Date_parse).
Local Abbreviation compareCapsules := (App.compareCapsules Date_parse).

Local Abbreviation dated := (dated Date_parse).

Lemma compare_dated a b ta tb :
  getTime a = Some ta -> getTime b = Some tb ->
  SortCompare compareCapsules a b =
    if Bool.eqb (Capsule.isLocked a) (Capsule.isLocked b) then ta - tb
    else if Capsule.isLocked a then 1 else -1.
Proof.
  intros Ha Hb. unfold SortCompare, App.compareCapsules. rewrite Ha, Hb.
  by destruct (Bool.eqb _ _).
Qed.

Lemma compare_trans x y z :
  dated x -> dated y -> dated z ->
  SortCompare compareCapsules x y <= 0 -> SortCompare compareCapsules y z <= 0 ->
  SortCompare compareCapsules x z <= 0.
Proof.
  intros [tx Hx] [ty Hy] [tz Hz].
  rewrite (compare_dated x y tx ty), (compare_dated y z ty tz),
    (compare_dated x z tx tz) by done.
  destruct (Capsule.isLocked x), (Capsule.isLocked y), (Capsule.isLocked z);
    cbn; lia.
Qed.

Lemma compare_asym x y :
  dated x -> dated y ->
  0 < SortCompare compareCapsules x y -> SortCompare compareCapsules y x <= 0.
Proof.
  intros [tx Hx] [ty Hy].
  rewrite (compare_dated x y tx ty), (compare_dated y x ty tx) by done.
  destruct (Capsule.isLocked x), (Capsule.isLocked y); cbn; lia.
Qed.

(** What [loadCapsules] leaves in the component when the platform does not
    fail. *)
Lemma loadCapsules_ok now st :
  App.loadCapsules Date_parse NoFault now st =
    (Resolved tt,
     {| App.view := App.view st;
        App.capsules :=
          Array_sort compareCapsules
            (Storage.processed Date_parse now (Storage.getAll (App.browser st))
               (blobURLs (App.browser st))).1;
        App.selectedCapsule := App.selectedCapsule st;
        App.browser :=
          {| objectStore := objectStore (App.browser st);
             blobURLs :=
               (Storage.processed Date_parse now (Storage.getAll (App.browser st))
                  (blobURLs (App.browser st))).2 |} |}).
Proof.
  unfold App.loadCapsules, try_catch, await, App.db.
  rewrite getAllCapsules_ok. reflexivity.
Qed.

(** The order of the listing, for the capsules [data] a load returned at
    [now]. *)
Lemma sorted_listing now (data : list Capsule.t) :
  Forall (fun c => dated c /\ Capsule.isLocked c = Date_gt (getTime c) now) data ->
  Array_sort compareCapsules data ≡ₚ data
  /\ (forall i j a b, (i < j)%nat ->
        Array_sort compareCapsules data !! i = Some a ->
        Array_sort compareCapsules data !! j = Some b ->
        (Capsule.isLocked a = true -> Capsule.isLocked b = true)
        /\ (Capsule.isLocked a = Capsule.isLocked b ->
            exists ta tb, getTime a = Some ta /\ getTime b = Some tb /\ ta <= tb))
  /\ (forall t, filter (fun c => getTime c = Some t) (Array_sort compareCapsules data)
                = filter (fun c => getTime c = Some t) data).
Proof.
  intros Hdata.
  assert (Forall dated data) as Hdated by (eapply Forall_impl; [done|]; by intros ? [? _]).
  pose proof (Array_sort_perm compareCapsules data) as Hperm.
  split; [done|]. split.
  - intros i j a b Hij Ha Hb.
    pose proof (Array_sort_sorted compareCapsules dated compare_trans compare_asym
                  data Hdated) as Hs.
    pose proof (StronglySorted_lookup _ _ _ _ _ _ Hs Hij Ha Hb) as Hle.
    assert (dated a /\ dated b) as [[ta Hta] [tb Htb]].
    { rewrite <- Hperm in Hdated. rewrite Forall_forall in Hdated.
      split; apply Hdated, list_elem_of_lookup; eauto. }
    cbn beta in Hle. rewrite (compare_dated a b ta tb) in Hle by done.
    destruct (Capsule.isLocked a), (Capsule.isLocked b); cbn in Hle;
      (split; [done || lia | intros ?; try done; exists ta, tb; repeat split; try done; lia]).
  - intros t.
    set (Q := fun c => getTime c = Some t /\ Capsule.isLocked c = Date_gt (Some t) now).
    assert (forall l, l ≡ₚ data ->
              filter (fun c => getTime c = Some t) l = filter Q l) as Hagree.
    { intros l Hl. apply filter_agree. rewrite Hl.
      eapply Forall_impl; [exact Hdata|]. intros c [_ Hlock]. unfold Q. split.
      - intros Ht. split; [done|]. by rewrite Hlock, Ht.
      - by intros [Ht _]. }
    rewrite (Hagree _ Hperm), (Hagree data) by done.
    apply Array_sort_stable. intros x y [Hx Hlx] [Hy Hly].
    rewrite (compare_dated x y t t) by done. rewrite Hlx, Hly.
    destruct (Date_gt (Some t) now); cbn; lia.
Qed.

End ListingFacts.

(** C3. The listing [loadCapsules] leaves, for a store whose unlock dates are
    valid: it is a permutation of the loaded capsules; no locked capsule
    comes before an unlocked one; two capsules of the same group are in
    ascending order of unlock time; the capsules with one unlock time keep
    the order the load returned them in.  With unlock dates one and five
    minutes after T, one minute before T and three minutes after T, the
    listing at T is: T-1, T+1, T+3, T+5. *)
Theorem listing_sort_order :
  (forall (Date_parse : string -> option Z) (now : Z) (st : App.State),
     map_Forall (fun _ r => is_Some (Date_parse (Capsule.unlockDate r)))
       (objectStore (App.browser st)) ->
     exists data st',
       Storage.getAllCapsules Date_parse NoFault now (App.browser st)
         = (Resolved data, App.browser st')
       /\ App.loadCapsules Date_parse NoFault now st = (Resolved tt, st')
       /\ App.capsules st' ≡ₚ data
       /\ (forall i j a b, (i < j)%nat ->
             App.capsules st' !! i = Some a -> App.capsules st' !! j = Some b ->
             (Capsule.isLocked a = true -> Capsule.isLocked b = true)
             /\ (Capsule.isLocked a = Capsule.isLocked b ->
                 exists ta tb, Date_parse (Capsule.unlockDate a) = Some ta
                               /\ Date_parse (Capsule.unlockDate b) = Some tb
                               /\ ta <= tb))
       /\ (forall t,
             filter (fun c => Date_parse (Capsule.unlockDate c) = Some t) (App.capsules st')
             = filter (fun c => Date_parse (Capsule.unlockDate c) = Some t) data))
  /\ Capsule.unlockDate <$>
       App.capsules
         (App.loadCapsules UTC.Date_parse NoFault Samples.T
            (Samples.page (Samples.saved Samples.four))).2
     = ["2029-12-31T23:59"; "2030-01-01T00:01"; "2030-01-01T00:03"; "2030-01-01T00:05"]
  /\ Capsule.unlockDate <$>
       Array_sort (App.compareCapsules UTC.Date_parse)
         (Storage.processed UTC.Date_parse Samples.T Samples.four []).1
     = ["2029-12-31T23:59"; "2030-01-01T00:01"; "2030-01-01T00:03"; "2030-01-01T00:05"].
Proof.
  split; [|split; vm_compute; reflexivity].
  intros Date_parse now st Hdates.
  eexists _, _. split; [|split; [apply loadCapsules_ok|]].
  { cbn [App.browser]. apply getAllCapsules_ok. }
  cbn [App.capsules]. apply (sorted_listing Date_parse now).
  apply Forall_forall. intros c' Hin.
  apply loaded_of_stored in Hin as (k & r & Hr & Hl).
  apply (map_Forall_lookup_1 _ _ _ _ Hdates) in Hr.
  destruct Hl as (_ & _ & _ & Hd & _ & _ & _ & _ & _ & Hlock & _).
  unfold dated, App.getTime. rewrite Hd. done.
Qed.

Lemma listing_sort_order_witness :
  exists data st',
    Storage.getAllCapsules UTC.Date_parse NoFault Samples.T (Samples.saved Samples.four)
      = (Resolved data, App.browser st')
    /\ App.loadCapsules UTC.Date_parse NoFault Samples.T
         (Samples.page (Samples.saved Samples.four)) = (Resolved tt, st')
    /\ App.capsules st' ≡ₚ data.
Proof.
  destruct (proj1 listing_sort_order UTC.Date_parse Samples.T
              (Samples.page (Samples.saved Samples.four)))
    as (data & st' & H1 & H2 & H3 & _).
  - apply (bool_decide_unpack _). vm_compute. reflexivity.
  - exists data, st'. auto.
Defined.

(** The store hands its records over in the order of their keys. *)
Example getAll_key_order :
  Capsule.id <$> Storage.getAll (Samples.saved Samples.four) = ["a"; "b"; "c"; "d"].
Proof. vm_compute. reflexivity. Qed.

(** Two capsules with one unlock date stay in the order of the load, whatever
    the order they were saved in. *)
Example listing_keeps_ties :
  Capsule.id <$>
    App.capsules
      (App.loadCapsules UTC.Date_parse NoFault Samples.T
         (Samples.page
            (Samples.saved
               [ Samples.capsule "y" "2030-01-01T00:01";
                 Samples.capsule "w" "2030-01-01T00:05";
                 Samples.capsule "x" "2030-01-01T00:01";
                 Samples.capsule "v" "2029-12-31T23:59" ]))).2
  = ["v"; "x"; "y"; "w"].
Proof. vm_compute. reflexivity. Qed.

(** ** The text service *)

Section GeminiFacts.

Context {S : Type}.
Implicit Types (svc : Gemini.Service) (s : S).

Lemma getAI_Some svc ai : Gemini.getAI svc = Some ai -> ai = Gemini.generateContent svc.
Proof.
  unfold Gemini.getAI. destruct (Gemini.API_KEY svc) as [k|]; [|done].
  destruct (truthy k); [|done]. by intros [= <-].
Qed.

(** C10. [refineUserNote] resolves with the note it was given when no API key
    is configured, when the call to the service throws, and when the service
    answers without text or with the empty text; it rejects in none of these
    cases. *)
Theorem refineUserNote_identity_on_failure svc (currentNote : string) s :
  Gemini.getAI svc = None
  \/ (exists e, Gemini.generateContent svc
                  (Gemini.TextContents (Gemini.refine_prompt currentNote))
                = Gemini.GenerateThrows e)
  \/ Gemini.generateContent svc (Gemini.TextContents (Gemini.refine_prompt currentNote))
     = Gemini.Response None
  \/ Gemini.generateContent svc (Gemini.TextContents (Gemini.refine_prompt currentNote))
     = Gemini.Response (Some "") ->
  Gemini.refineUserNote svc currentNote s = (Resolved currentNote, s).
Proof.
  unfold Gemini.refineUserNote. intros H.
  destruct (Gemini.getAI svc) as [ai|] eqn:Hai; [|done].
  apply getAI_Some in Hai as ->.
  unfold try_catch, await, Gemini.generate.
  destruct H as [?|[[e ->]|[->| ->]]]; done.
Qed.

(** [refineUserNote] never rejects, whatever the service does. *)
Lemma refineUserNote_resolves svc (currentNote : string) s :
  exists note, Gemini.refineUserNote svc currentNote s = (Resolved note, s).
Proof.
  unfold Gemini.refineUserNote.
  destruct (Gemini.getAI svc) as [ai|]; [|by eexists].
  unfold try_catch, await, Gemini.generate.
  destruct (ai _); by eexists.
Qed.

Lemma generateFutureReflection_fails svc (userNote : string) s :
  enrichment_fails svc ->
  Gemini.generateFutureReflection svc userNote s = (Resolved "", s).
Proof.
  unfold Gemini.generateFutureReflection. intros H.
  destruct (Gemini.getAI svc) as [ai|] eqn:Hai; [|done].
  destruct H as [H|H]; [congruence|].
  apply getAI_Some in Hai as ->.
  unfold try_catch, await, Gemini.generate.
  by destruct (H (Gemini.TextContents (Gemini.reflection_prompt userNote))) as [e ->].
Qed.

Lemma generateCapsuleHint_fails svc (mediaBlob : Blob) (mediaType : string) s :
  enrichment_fails svc ->
  Gemini.generateCapsuleHint svc mediaBlob mediaType s = (Resolved (default_hint svc), s).
Proof.
  unfold Gemini.generateCapsuleHint, default_hint. intros H.
  destruct (Gemini.getAI svc) as [ai|] eqn:Hai; [|done].
  destruct H as [H|H]; [congruence|].
  apply getAI_Some in Hai as ->.
  unfold try_catch, await, Storage.blobToBase64.
  destruct (Gemini.readAsDataURL svc mediaBlob) as [url|e]; [|done].
  unfold resolve, Gemini.generate.
  destruct (String.eqb mediaType "image").
  - by destruct (H (Gemini.PartsContents
                      (or_else (Some (blob_type mediaBlob)) "image/jpeg")
                      (Storage.split_comma url !! 1%nat) Gemini.hint_image_prompt)) as [e ->].
  - by destruct (H (Gemini.TextContents Gemini.hint_other_prompt)) as [e ->].
Qed.

(** The two generators never reject. *)
Lemma generateCapsuleHint_resolves svc (mediaBlob : Blob) (mediaType : string) s :
  exists hint, Gemini.generateCapsuleHint svc mediaBlob mediaType s = (Resolved hint, s).
Proof.
  unfold Gemini.generateCapsuleHint.
  destruct (Gemini.getAI svc) as [ai|]; [|by eexists].
  unfold try_catch, await, Storage.blobToBase64.
  destruct (Gemini.readAsDataURL svc mediaBlob) as [url|e]; [|by eexists].
  unfold resolve, Gemini.generate.
  destruct (String.eqb mediaType "image"); destruct (ai _); by eexists.
Qed.

Lemma generateFutureReflection_resolves svc (userNote : string) s :
  exists text, Gemini.generateFutureReflection svc userNote s = (Resolved text, s).
Proof.
  unfold Gemini.generateFutureReflection.
  destruct (Gemini.getAI svc) as [ai|]; [|by eexists].
  unfold try_catch, await, Gemini.generate.
  destruct (ai _); by eexists.
Qed.

End GeminiFacts.

Lemma refineUserNote_identity_on_failure_witness :
  Gemini.refineUserNote Samples.failing "Dear me" tt = (Resolved "Dear me", tt)
  /\ Gemini.refineUserNote Samples.no_key "Dear me" tt = (Resolved "Dear me", tt)
  /\ Gemini.refineUserNote Samples.silent "Dear me" tt = (Resolved "Dear me", tt).
Proof.
  split; [|split].
  - apply refineUserNote_identity_on_failure. right. left. exists "503". reflexivity.
  - apply refineUserNote_identity_on_failure. left. reflexivity.
  - apply refineUserNote_identity_on_failure. right. right. left. reflexivity.
Defined.

(** ** Creation *)

Section CreationFacts.

Variable Date_parse : string -> option Z.
Variable toISOString : Z -> string.
Variable svc : Gemini.Service.

Lemma loadCapsules_resolves f now st :
  exists st',
    App.loadCapsules Date_parse f now st = (Resolved tt, st')
    /\ objectStore (App.browser st') = objectStore (App.browser st).
Proof.
  destruct f as [|err|].
  - rewrite loadCapsules_ok. by eexists.
  - by eexists.
  - by eexists.
Qed.

(** What [handleCreateSubmit] stores when the save does not fail. *)
Lemma handleCreateSubmit_saves p data aiHint app :
  App.saveFault p = NoFault ->
  exists app' reflection,
    App.handleCreateSubmit Date_parse toISOString svc p data aiHint app = (Resolved tt, app')
    /\ objectStore (App.browser app') =
       <[App.randomUUID p :=
           {| Capsule.id := App.randomUUID p;
              Capsule.title := CreateCapsuleFormData.title data;
              Capsule.description := CreateCapsuleFormData.description data;
              Capsule.mediaType := App.mediaTypeOf (CreateCapsuleFormData.mediaFile data);
              Capsule.mediaBlob := file_blob <$> CreateCapsuleFormData.mediaFile data;
              Capsule.mediaUrl := None;
              Capsule.unlockDate := CreateCapsuleFormData.unlockDate data;
              Capsule.createdAt := toISOString (App.createdNow p);
              Capsule.isLocked := true;
              Capsule.aiHint := aiHint;
              Capsule.aiReflection := reflection |}]> (objectStore (App.browser app))
    /\ (if truthy (CreateCapsuleFormData.description data)
        then exists text,
               Gemini.generateFutureReflection svc (CreateCapsuleFormData.description data) app
                 = (Resolved text, app)
               /\ reflection = Some text
        else reflection = None).
Proof.
  intros Hsave. unfold App.handleCreateSubmit.
  set (desc := CreateCapsuleFormData.description data).
  destruct (generateFutureReflection_resolves svc desc app) as [text Htext].
  unfold await at 1.
  assert (exists reflection,
            (if truthy desc
             then await (Gemini.generateFutureReflection svc desc) (fun r => resolve (Some r))
             else resolve None) app = (Resolved reflection, app)
            /\ (if truthy desc
                then exists text, Gemini.generateFutureReflection svc desc app
                                  = (Resolved text, app) /\ reflection = Some text
                else reflection = None)) as (reflection & -> & Hrefl).
  { destruct (truthy desc).
    - exists (Some text). unfold await. rewrite Htext. eauto.
    - by exists None. }
  rewrite Hsave. unfold await at 1. unfold App.db at 1.
  rewrite saveCapsule_ok. unfold await at 1.
  match goal with |- context [App.loadCapsules _ ?f ?n ?st] =>
    destruct (loadCapsules_resolves f n st) as (st' & -> & Hstore) end.
  eexists _, reflection. split; [reflexivity|]. split; [|done].
  cbn [App.setView App.browser snd]. rewrite Hstore. reflexivity.
Qed.

(** A complete form is submitted: whatever the text service does, and
    whatever the unlock date is, the capsule is stored when the save does not
    fail. *)
Lemma createCapsule_persists
    (p : App.Submission) (formData : CreateCapsuleFormData.t)
    (ui : CreateCapsule.State) (app : App.State) :
  CreateCapsuleFormData.title formData <> "" ->
  CreateCapsuleFormData.unlockDate formData <> "" ->
  App.saveFault p = NoFault ->
  exists ui' app' c,
    createCapsule Date_parse toISOString svc p formData (ui, app) = (Resolved tt, (ui', app'))
    /\ CreateCapsule.alerts ui' = CreateCapsule.alerts ui
    /\ objectStore (App.browser app') !! App.randomUUID p = Some c
    /\ Capsule.id c = App.randomUUID p
    /\ Capsule.title c = CreateCapsuleFormData.title formData
    /\ Capsule.description c = CreateCapsuleFormData.description formData
    /\ Capsule.unlockDate c = CreateCapsuleFormData.unlockDate formData
    /\ Capsule.createdAt c = toISOString (App.createdNow p)
    /\ Capsule.mediaType c = App.mediaTypeOf (CreateCapsuleFormData.mediaFile formData)
    /\ Capsule.mediaBlob c = file_blob <$> CreateCapsuleFormData.mediaFile formData
    /\ (if truthy (CreateCapsuleFormData.description formData)
        then exists text,
               Gemini.generateFutureReflection svc
                 (CreateCapsuleFormData.description formData) app = (Resolved text, app)
               /\ Capsule.aiReflection c = Some text
        else Capsule.aiReflection c = None)
    /\ match CreateCapsuleFormData.mediaFile formData with
       | Some file =>
           exists hint,
             Gemini.generateCapsuleHint svc file (CreateCapsule.hintType file)
               (CreateCapsule.setIsSubmitting true ui, app)
             = (Resolved hint, (CreateCapsule.setIsSubmitting true ui, app))
             /\ Capsule.aiHint c = Some hint
       | None => Capsule.aiHint c = None
       end.
Proof.
  intros Htitle Hdate Hsave.
  unfold createCapsule, CreateCapsule.handleSubmit.
  assert (truthy (CreateCapsuleFormData.title formData) = true) as ->
    by (by destruct (CreateCapsuleFormData.title formData)).
  assert (truthy (CreateCapsuleFormData.unlockDate formData) = true) as ->
    by (by destruct (CreateCapsuleFormData.unlockDate formData)).
  cbn [negb orb].
  set (ui1 := CreateCapsule.setIsSubmitting true ui).
  assert (exists aiHint,
            match CreateCapsuleFormData.mediaFile formData with
            | Some file =>
                await (Gemini.generateCapsuleHint svc file (CreateCapsule.hintType file))
                  (fun h => resolve (Some h))
            | None => resolve None
            end (ui1, app) = (Resolved aiHint, (ui1, app))
            /\ match CreateCapsuleFormData.mediaFile formData with
               | Some file =>
                   exists hint,
                     Gemini.generateCapsuleHint svc file (CreateCapsule.hintType file) (ui1, app)
                     = (Resolved hint, (ui1, app))
                     /\ aiHint = Some hint
               | None => aiHint = None
               end) as (aiHint & Hhint & HaiHint).
  { destruct (CreateCapsuleFormData.mediaFile formData) as [file|]; [|by exists None].
    destruct (generateCapsuleHint_resolves svc file (CreateCapsule.hintType file) (ui1, app))
      as [hint Hh].
    exists (Some hint). unfold await. rewrite Hh. eauto. }
  destruct (handleCreateSubmit_saves p formData aiHint app Hsave)
    as (app' & reflection & Hsubmit & Hstore & Hrefl).
  unfold await at 1. unfold CreateCapsule.here at 1. fold ui1.
  unfold await at 1. unfold try_catch. unfold await at 1.
  rewrite Hhint. unfold CreateCapsule.parent. rewrite Hsubmit.
  eexists _, app', _. split; [reflexivity|].
  split; [done|]. rewrite Hstore, lookup_insert_eq. split; [reflexivity|].
  cbn [Capsule.id Capsule.title Capsule.description Capsule.unlockDate Capsule.createdAt
       Capsule.mediaType Capsule.mediaBlob Capsule.aiReflection Capsule.aiHint].
  repeat (split; [done|]). done.
Qed.

(** C4 (amended). A submission whose title is empty or whose unlockDate is
    empty is dropped: [handleSubmit] returns at once, the promise resolves,
    nothing is asked of the text service and neither the component, the
    listing nor the store changes.  A submission with a title and an
    unlockDate is not checked further: when the save does not fail it
    resolves without an alert and stores the capsule with the unlockDate of
    the form, whatever that date is. *)
Theorem createCapsule_checks_presence_only
    (p : App.Submission) (formData : CreateCapsuleFormData.t)
    (ui : CreateCapsule.State) (app : App.State) :
  (CreateCapsuleFormData.title formData = ""
   \/ CreateCapsuleFormData.unlockDate formData = "" ->
   createCapsule Date_parse toISOString svc p formData (ui, app) = (Resolved tt, (ui, app)))
  /\ (CreateCapsuleFormData.title formData <> "" ->
      CreateCapsuleFormData.unlockDate formData <> "" ->
      App.saveFault p = NoFault ->
      exists ui' app' c,
        createCapsule Date_parse toISOString svc p formData (ui, app)
          = (Resolved tt, (ui', app'))
        /\ CreateCapsule.alerts ui' = CreateCapsule.alerts ui
        /\ objectStore (App.browser app') !! App.randomUUID p = Some c
        /\ Capsule.title c = CreateCapsuleFormData.title formData
        /\ Capsule.unlockDate c = CreateCapsuleFormData.unlockDate formData).
Proof.
  split.
  - unfold createCapsule, CreateCapsule.handleSubmit.
    by intros [-> | ->]; [|rewrite orb_true_r].
  - intros Htitle Hdate Hsave.
    destruct (createCapsule_persists p formData ui app Htitle Hdate Hsave)
      as (ui' & app' & c & H1 & H2 & H3 & _ & H4 & _ & H5 & _).
    by exists ui', app', c.
Qed.

(** C5 (amended). With the text service out and a storage without fault, a
    submission with a title and an unlock date resolves, shows no alert and
    stores the capsule under its new id, with the fields of the form; its
    aiReflection is the empty string when the form has a note and absent
    otherwise; its aiHint is absent without media and is the default hint of
    the failure with media. *)
Theorem createCapsule_without_enrichment
    (p : App.Submission) (formData : CreateCapsuleFormData.t)
    (ui : CreateCapsule.State) (app : App.State) :
  enrichment_fails svc ->
  CreateCapsuleFormData.title formData <> "" ->
  CreateCapsuleFormData.unlockDate formData <> "" ->
  App.saveFault p = NoFault ->
  exists ui' app' c,
    createCapsule Date_parse toISOString svc p formData (ui, app) = (Resolved tt, (ui', app'))
    /\ CreateCapsule.alerts ui' = CreateCapsule.alerts ui
    /\ objectStore (App.browser app') !! App.randomUUID p = Some c
    /\ Capsule.id c = App.randomUUID p
    /\ Capsule.title c = CreateCapsuleFormData.title formData
    /\ Capsule.description c = CreateCapsuleFormData.description formData
    /\ Capsule.unlockDate c = CreateCapsuleFormData.unlockDate formData
    /\ Capsule.createdAt c = toISOString (App.createdNow p)
    /\ Capsule.mediaType c = App.mediaTypeOf (CreateCapsuleFormData.mediaFile formData)
    /\ Capsule.mediaBlob c = file_blob <$> CreateCapsuleFormData.mediaFile formData
    /\ Capsule.aiReflection c =
         (if truthy (CreateCapsuleFormData.description formData) then Some "" else None)
    /\ Capsule.aiHint c =
         match CreateCapsuleFormData.mediaFile formData with
         | Some _ => Some (default_hint svc)
         | None => None
         end.
Proof.
  intros Hout Htitle Hdate Hsave.
  destruct (createCapsule_persists p formData ui app Htitle Hdate Hsave)
    as (ui' & app' & c & H1 & H2 & H3 & H4 & H5 & H6 & H7 & H8 & H9 & H10 & Hrefl & Hhint).
  exists ui', app', c. repeat (split; [done|]). split.
  - destruct (truthy (CreateCapsuleFormData.description formData)); [|done].
    destruct Hrefl as (text & Htext & ->).
    rewrite generateFutureReflection_fails in Htext by done. congruence.
  - destruct (CreateCapsuleFormData.mediaFile formData) as [file|]; [|done].
    destruct Hhint as (hint & Hh & ->).
    rewrite generateCapsuleHint_fails in Hh by done. congruence.
Qed.

End CreationFacts.

Lemma createCapsule_checks_presence_only_witness :
  createCapsule UTC.Date_parse UTC.toISOString Samples.no_key Samples.submission
    (Samples.form "" "2030-01-01T00:00" None)
    (CreateCapsule.initial, Samples.page Samples.fresh_browser)
  = (Resolved tt, (CreateCapsule.initial, Samples.page Samples.fresh_browser))
  /\ exists ui' app' c,
       createCapsule UTC.Date_parse UTC.toISOString Samples.no_key Samples.submission
         (Samples.form "To 2030" "2030-01-01T00:00" None)
         (CreateCapsule.initial, Samples.page Samples.fresh_browser)
       = (Resolved tt, (ui', app'))
       /\ objectStore (App.browser app') !! App.randomUUID Samples.submission = Some c
       /\ Capsule.unlockDate c = "2030-01-01T00:00".
Proof.
  split.
  - apply (createCapsule_checks_presence_only UTC.Date_parse UTC.toISOString Samples.no_key).
    left. reflexivity.
  - destruct (proj2 (createCapsule_checks_presence_only UTC.Date_parse UTC.toISOString
                       Samples.no_key Samples.submission
                       (Samples.form "To 2030" "2030-01-01T00:00" None)
                       CreateCapsule.initial (Samples.page Samples.fresh_browser)))
      as (ui' & app' & c & H1 & _ & H2 & _ & H3).
    + discriminate.
    + discriminate.
    + reflexivity.
    + exists ui', app', c. split; [exact H1|]. split; [exact H2 | exact H3].
Defined.

(** C4, as stated, fails: a form with a title and an unlock date one minute
    before the time of creation is accepted; the promise resolves, no alert
    is shown, and the capsule is in the store and in the listing.  (The
    [min] of the date input is computed when the form is rendered: a date
    picked a little ahead of the last render and submitted after it has
    passed is within that bound.) *)
Lemma createCapsule_accepts_past_date :
  (exists t, UTC.Date_parse "2026-11-02T23:59" = Some t
             /\ t < App.createdNow Samples.submission)
  /\ exists ui' app',
       createCapsule UTC.Date_parse UTC.toISOString Samples.no_key Samples.submission
         (Samples.form "One minute late" "2026-11-02T23:59" None)
         (CreateCapsule.initial, Samples.page Samples.fresh_browser)
       = (Resolved tt, (ui', app'))
       /\ CreateCapsule.alerts ui' = []
       /\ Capsule.unlockDate <$>
            objectStore (App.browser app') !! App.randomUUID Samples.submission
          = Some "2026-11-02T23:59"
       /\ Capsule.unlockDate <$> App.capsules app' = ["2026-11-02T23:59"].
Proof.
  split.
  - eexists. split; [vm_compute; reflexivity | reflexivity].
  - eexists _, _. split; [vm_compute; reflexivity|].
    split; [reflexivity|]. split; vm_compute; reflexivity.
Qed.

Lemma createCapsule_without_enrichment_witness :
  exists ui' app' c,
    createCapsule UTC.Date_parse UTC.toISOString Samples.failing Samples.submission
      (Samples.form "Holiday" "2030-01-01T00:00" (Some Samples.photo))
      (CreateCapsule.initial, Samples.page Samples.fresh_browser)
    = (Resolved tt, (ui', app'))
    /\ objectStore (App.browser app') !! App.randomUUID Samples.submission = Some c
    /\ Capsule.aiReflection c = Some ""
    /\ Capsule.aiHint c = Some "A securely sealed memory.".
Proof.
  destruct (createCapsule_without_enrichment UTC.Date_parse UTC.toISOString Samples.failing
              Samples.submission
              (Samples.form "Holiday" "2030-01-01T00:00" (Some Samples.photo))
              CreateCapsule.initial (Samples.page Samples.fresh_browser))
    as (ui' & app' & c & H1 & _ & H2 & _ & _ & _ & _ & _ & _ & _ & H3 & H4).
  - right. intros req. exists "503". reflexivity.
  - discriminate.
  - discriminate.
  - reflexivity.
  - exists ui', app', c. split; [exact H1|]. split; [exact H2|].
    split; [exact H3 | exact H4].
Defined.

(** C5, as stated, fails: with an endpoint that throws, and with no
    credential at all, the capsule made from a form with a photograph has a
    hint that is not empty. *)
Lemma createCapsule_hint_not_empty :
  enrichment_fails Samples.failing /\ enrichment_fails Samples.no_key
  /\ (exists ui' app',
        createCapsule UTC.Date_parse UTC.toISOString Samples.failing Samples.submission
          (Samples.form "Holiday" "2030-01-01T00:00" (Some Samples.photo))
          (CreateCapsule.initial, Samples.page Samples.fresh_browser)
        = (Resolved tt, (ui', app'))
        /\ Capsule.aiHint <$>
             objectStore (App.browser app') !! App.randomUUID Samples.submission
           = Some (Some "A securely sealed memory."))
  /\ (exists ui' app',
        createCapsule UTC.Date_parse UTC.toISOString Samples.no_key Samples.submission
          (Samples.form "Holiday" "2030-01-01T00:00" (Some Samples.photo))
          (CreateCapsule.initial, Samples.page Samples.fresh_browser)
        = (Resolved tt, (ui', app'))
        /\ Capsule.aiHint <$>
             objectStore (App.browser app') !! App.randomUUID Samples.submission
           = Some (Some "A mysterious memory from the past...")).
Proof.
  split; [right; intros req; by exists "503"|].
  split; [by left|].
  split; eexists _, _; (split; [vm_compute; reflexivity|]); vm_compute; reflexivity.
Qed.

(** ** The countdown of a card *)

Lemma countdown_parts (distance : Z) :
  0 <= distance ->
  0 <= CapsuleCard.days distance
  /\ 0 <= CapsuleCard.hours distance < 24
  /\ 0 <= CapsuleCard.minutes distance < 60
  /\ 0 <= CapsuleCard.seconds distance < 60
  /\ distance =
       CapsuleCard.days distance * CapsuleCard.day_ms
       + CapsuleCard.hours distance * CapsuleCard.hour_ms
       + CapsuleCard.minutes distance * CapsuleCard.minute_ms
       + CapsuleCard.seconds distance * CapsuleCard.second_ms
       + distance mod 1000.
Proof.
  intros Hd.
  unfold CapsuleCard.days, CapsuleCard.hours, CapsuleCard.minutes, CapsuleCard.seconds,
    CapsuleCard.day_ms, CapsuleCard.hour_ms, CapsuleCard.minute_ms, CapsuleCard.second_ms.
  rewrite !Z.rem_mod_nonneg by lia.
  change (1000 * 60 * 60 * 24) with 86400000.
  change (1000 * 60 * 60) with 3600000.
  change (1000 * 60) with 60000.
  Z.to_euclidean_division_equations. lia.
Qed.

(** C8. For an unlock time that is not before now, the card is locked and
    its text is [<d>d <h>h <m>m <s>s], where d is the number of whole days
    in the distance, h the whole hours modulo 24, m the whole minutes modulo
    60 and s the whole seconds modulo 60: none is negative, and together
    they make the distance less its milliseconds, so that nothing is rounded
    up.  For every now from the unlock time on, the card shows no time left:
    the zero countdown [0d 0h 0m 0s] at the unlock time itself, where the
    card is still locked, and UNLOCKED once now is past it. *)
Theorem calculateTimeLeft_floor_and_clamp (now unlockTime : Z) :
  (now <= unlockTime ->
     exists d h m s : Z,
       CapsuleCard.calculateTimeLeft now (Some unlockTime)
         = {| CapsuleCard.timeLeft :=
                pretty d +:+ "d " +:+ pretty h +:+ "h " +:+ pretty m +:+ "m "
                  +:+ pretty s +:+ "s";
              CapsuleCard.isLocked := true |}
       /\ d = (unlockTime - now) / 86400000
       /\ h = (unlockTime - now) / 3600000 mod 24
       /\ m = (unlockTime - now) / 60000 mod 60
       /\ s = (unlockTime - now) / 1000 mod 60
       /\ 0 <= d /\ 0 <= h < 24 /\ 0 <= m < 60 /\ 0 <= s < 60
       /\ d * 86400000 + h * 3600000 + m * 60000 + s * 1000 <= unlockTime - now
          < d * 86400000 + h * 3600000 + m * 60000 + s * 1000 + 1000)
  /\ (unlockTime <= now ->
        CapsuleCard.calculateTimeLeft now (Some unlockTime)
          = if bool_decide (unlockTime = now)
            then {| CapsuleCard.timeLeft := "0d 0h 0m 0s"; CapsuleCard.isLocked := true |}
            else {| CapsuleCard.timeLeft := "UNLOCKED"; CapsuleCard.isLocked := false |}).
Proof.
  split.
  - intros Hle.
    exists (CapsuleCard.days (unlockTime - now)), (CapsuleCard.hours (unlockTime - now)),
      (CapsuleCard.minutes (unlockTime - now)), (CapsuleCard.seconds (unlockTime - now)).
    split.
    { unfold CapsuleCard.calculateTimeLeft. rewrite bool_decide_eq_false_2 by lia.
      reflexivity. }
    unfold CapsuleCard.days, CapsuleCard.hours, CapsuleCard.minutes, CapsuleCard.seconds,
      CapsuleCard.day_ms, CapsuleCard.hour_ms, CapsuleCard.minute_ms, CapsuleCard.second_ms.
    rewrite !Z.rem_mod_nonneg by lia.
    change (1000 * 60 * 60 * 24) with 86400000.
    change (1000 * 60 * 60) with 3600000.
    change (1000 * 60) with 60000.
    assert (0 <= unlockTime - now) as Hd by lia.
    revert Hd. generalize (unlockTime - now). intros x Hx.
    repeat split; Z.to_euclidean_division_equations; lia.
  - intros Hle. case_bool_decide as Heq.
    + subst. unfold CapsuleCard.calculateTimeLeft. rewrite Z.sub_diag.
      vm_compute. reflexivity.
    + unfold CapsuleCard.calculateTimeLeft.
      rewrite bool_decide_eq_true_2 by lia. reflexivity.
Qed.

Lemma calculateTimeLeft_floor_and_clamp_witness :
  CapsuleCard.calculateTimeLeft 0 (Some 93784999)
  = {| CapsuleCard.timeLeft := "1d 2h 3m 4s"; CapsuleCard.isLocked := true |}
  /\ CapsuleCard.calculateTimeLeft Samples.today (Some (Samples.today + 3599999))
     = {| CapsuleCard.timeLeft := "0d 0h 59m 59s"; CapsuleCard.isLocked := true |}
  /\ CapsuleCard.calculateTimeLeft Samples.T (Some Samples.T)
     = {| CapsuleCard.timeLeft := "0d 0h 0m 0s"; CapsuleCard.isLocked := true |}
  /\ CapsuleCard.calculateTimeLeft (Samples.T + 1) (Some Samples.T)
     = {| CapsuleCard.timeLeft := "UNLOCKED"; CapsuleCard.isLocked := false |}.
Proof.
  split; [|split; [|split]].
  - destruct (proj1 (calculateTimeLeft_floor_and_clamp 0 93784999))
      as (d & h & m & s & -> & -> & -> & -> & -> & _); [lia|].
    vm_compute. reflexivity.
  - destruct (proj1 (calculateTimeLeft_floor_and_clamp Samples.today
                       (Samples.today + 3599999)))
      as (d & h & m & s & -> & -> & -> & -> & -> & _); [vm_compute; discriminate|].
    vm_compute. reflexivity.
  - rewrite (proj2 (calculateTimeLeft_floor_and_clamp Samples.T Samples.T));
      [reflexivity | lia].
  - rewrite (proj2 (calculateTimeLeft_floor_and_clamp (Samples.T + 1) Samples.T));
      [reflexivity | lia].
Defined.

Example countdown_truncates :
  CapsuleCard.timeLeft (CapsuleCard.calculateTimeLeft 0 (Some 93784999)) = "1d 2h 3m 4s".
Proof. vm_compute. reflexivity. Qed.

Example countdown_invalid_date :
  CapsuleCard.calculateTimeLeft 0 None
  = {| CapsuleCard.timeLeft := "NaNd NaNh NaNm NaNs"; CapsuleCard.isLocked := true |}.
Proof. reflexivity. Qed.

(** ** Recording *)

Section RecordingFacts.

Import CreateCapsule.

Implicit Types (st : State) (r : MediaRecorder).

Lemma cleanupMedia_formData stream_r st :
  formData (cleanupMedia stream_r st) = formData st.
Proof.
  unfold cleanupMedia. destruct stream_r as [s|]; cbn.
  - by destruct (timerRef st).
  - by destruct (timerRef st).
Qed.

Lemma cleanupMedia_counter stream_r st :
  recordingTime (cleanupMedia stream_r st) = 0%nat
  /\ isRecording (cleanupMedia stream_r st) = false
  /\ timerRef (cleanupMedia stream_r st) = None
  /\ forall t, timerRef st = Some t -> t ∉ intervals (cleanupMedia stream_r st).
Proof.
  unfold cleanupMedia. destruct stream_r as [s|]; cbn;
    destruct (timerRef st) as [t|] eqn:Ht; cbn; rewrite ?Ht;
    repeat split; try done; intros t' [= <-];
    rewrite elem_of_difference, elem_of_singleton; tauto.
Qed.

Lemma cleanupMedia_tracks s st :
  liveTracks (cleanupMedia (Some s) st) = liveTracks st ∖ list_to_set (getTracks s)
  /\ stream (cleanupMedia (Some s) st) = None.
Proof. unfold cleanupMedia. cbn. by destruct (timerRef st). Qed.

(** With the [stream] of its render missing, [cleanupMedia] stops no track
    and keeps the state variable. *)
Lemma cleanupMedia_stale st :
  liveTracks (cleanupMedia None st) = liveTracks st
  /\ stream (cleanupMedia None st) = stream st.
Proof. unfold cleanupMedia. by destruct (timerRef st). Qed.

(** The cancel button, which closes over the current [stream]: the tracks of
    the stream are stopped, the timer is cleared, the counter is zero. *)
Lemma cancel_releases st :
  (forall s t, stream st = Some s -> t ∈ getTracks s -> t ∉ liveTracks (handle Cancel st))
  /\ stream (handle Cancel st) = None
  /\ recordingTime (handle Cancel st) = 0%nat
  /\ timerRef (handle Cancel st) = None
  /\ (forall t, timerRef st = Some t -> t ∉ intervals (handle Cancel st))
  /\ recordingMode (handle Cancel st) = none.
Proof.
  cbn [handle]. unfold cancelRecording. cbn [setRecordingMode liveTracks stream
    recordingTime timerRef intervals recordingMode].
  destruct (cleanupMedia_counter (stream st) st) as (Htime & _ & Href & Hint).
  split; [|split; [|by repeat split]].
  - intros s t Hs Ht. rewrite Hs.
    destruct (cleanupMedia_tracks s st) as [-> _].
    rewrite elem_of_difference, elem_of_list_to_set. tauto.
  - destruct (stream st) as [s|] eqn:Hs.
    + by destruct (cleanupMedia_tracks s st) as [_ ->].
    + by destruct (cleanupMedia_stale st) as [_ ->].
Qed.

(** A video capture that is started and cancelled: no track is live, no
    timer is active, the counter is zero. *)
Example video_cancel_releases :
  exists st,
    run [RecordVideo (Some Samples.camera); StartVideo true; Tick 1%positive;
         Tick 1%positive; Cancel] initial = Some st
    /\ liveTracks st = ∅ /\ intervals st = ∅ /\ timerRef st = None
    /\ recordingTime st = 0%nat /\ stream st = None.
Proof. eexists. split; [vm_compute; reflexivity|]. by vm_compute. Qed.

(** A video capture that is started and stopped: the handler of the start
    button closed over the stream, and the tracks are stopped. *)
Example video_stop_releases :
  exists st,
    run [RecordVideo (Some Samples.camera); StartVideo true; Tick 1%positive;
         StopRecording Samples.some_data] initial = Some st
    /\ liveTracks st = ∅ /\ intervals st = ∅ /\ recordingTime st = 0%nat
    /\ stream st = None.
Proof. eexists. split; [vm_compute; reflexivity|]. by vm_compute. Qed.

(** C6 fails on the code.  An audio capture that is stopped: [startAudioMode]
    runs in the render in which the stream is still [null], so the [onstop]
    handler it installs calls a [cleanupMedia] that stops no track.  After
    the stop the timer is cleared and the counter is zero, but the track of
    the microphone is live, and it stays live when the page is left. *)
Theorem audio_stop_leaves_track_live :
  exists st st',
    run [RecordAudio (Some Samples.microphone) true; Tick 1%positive; Tick 1%positive;
         StopRecording Samples.some_data] initial = Some st
    /\ isRecording st = false
    /\ recordingTime st = 0%nat /\ intervals st = ∅ /\ timerRef st = None
    /\ liveTracks st = {[ 0%nat ]}
    /\ stream st = Some Samples.microphone
    /\ run [Unmount] st = Some st'
    /\ liveTracks st' = {[ 0%nat ]}.
Proof.
  eexists _, _. split; [vm_compute; reflexivity|].
  repeat split; by vm_compute.
Qed.

(** An audio capture that is cancelled: the cancel button closes over the
    stream, and the track is stopped. *)
Example audio_cancel_releases :
  exists st,
    run [RecordAudio (Some Samples.microphone) true; Tick 1%positive; Cancel] initial
      = Some st
    /\ liveTracks st = ∅ /\ intervals st = ∅ /\ recordingTime st = 0%nat
    /\ stream st = None.
Proof. eexists. split; [vm_compute; reflexivity|]. by vm_compute. Qed.

(** While it records, the counter follows the timer. *)
Example counter_follows_timer :
  recordingTime <$>
    run [RecordAudio (Some Samples.microphone) true; Tick 1%positive; Tick 1%positive] initial
  = Some 2%nat.
Proof. vm_compute. reflexivity. Qed.

(** The same for every stream the device grants and every piece of data the
    recorder hands over: the stop of an audio capture stops none of its
    tracks. *)
Lemma audio_stop_releases_nothing (s : MediaStream) (data : Blob) :
  exists st,
    run [RecordAudio (Some s) true; StopRecording data] initial = Some st
    /\ liveTracks st = list_to_set (getTracks s)
    /\ stream st = Some s
    /\ recordingTime st = 0%nat /\ timerRef st = None.
Proof.
  set (st1 := handle (RecordAudio (Some s) true) initial).
  assert (on_screen (RecordAudio (Some s) true) initial = true) as Hon1 by reflexivity.
  assert (mediaRecorderRef st1 = Some (mkRecorder s "audio/webm" None)) as Hrec
    by reflexivity.
  assert (isRecording st1 = true) as Hisrec by reflexivity.
  assert (on_screen (StopRecording data) st1 = true) as Hon2 by reflexivity.
  exists (cleanupMedia None
            (setMediaFile (Some (recording (chunksRef (ondataavailable data st1)) "audio/webm"))
               (ondataavailable data st1))).
  split.
  { cbn [run]. rewrite Hon1. fold st1. rewrite Hon2. cbn [handle].
    unfold stopRecording. rewrite Hrec, Hisrec. reflexivity. }
  destruct (cleanupMedia_stale
              (setMediaFile (Some (recording (chunksRef (ondataavailable data st1)) "audio/webm"))
                 (ondataavailable data st1))) as [-> ->].
  destruct (cleanupMedia_counter None
              (setMediaFile (Some (recording (chunksRef (ondataavailable data st1)) "audio/webm"))
                 (ondataavailable data st1))) as (-> & _ & -> & _).
  cbn [setMediaFile liveTracks stream]. unfold ondataavailable.
  case_bool_decide; (split; [apply (left_id_L ∅ (∪))|done]).
Qed.

(** Leaving the page while the camera preview is armed: the clean-up of the
    mount effect stops no track either. *)
Example unmount_leaves_tracks_live :
  exists st,
    run [RecordVideo (Some Samples.camera); Unmount] initial = Some st
    /\ liveTracks st = {[ 1%nat; 2%nat ]}.
Proof. eexists. split; [vm_compute; reflexivity|]. by vm_compute. Qed.

(** The chunks the recorder buffers are never empty. *)
Lemma ondataavailable_chunks data st :
  Forall (fun c => 0 < blob_size c)%nat (chunksRef st) ->
  Forall (fun c => 0 < blob_size c)%nat (chunksRef (ondataavailable data st)).
Proof.
  intros H. unfold ondataavailable. case_bool_decide; [|done].
  cbn. apply Forall_app. by repeat constructor.
Qed.

Lemma recording_bytes chunks prefix :
  blob_bytes (recording chunks prefix) = concat (blob_bytes <$> chunks).
Proof. unfold recording, new_Blob. cbn. by rewrite app_nil_r. Qed.

Lemma recording_name chunks prefix : file_name (recording chunks prefix) = "recording.webm".
Proof. unfold recording. cbn [file_name]. by destruct (includes _ _). Qed.

(** What the recorder does at [stop]: the file it leaves in the form. *)
Lemma recorder_stop_file r (data : Blob) st :
  Forall (fun c => 0 < blob_size c)%nat (chunksRef st) ->
  onstop_mimeTypePrefix r <> "" ->
  exists file,
    CreateCapsuleFormData.mediaFile (formData (MediaRecorder_stop r data st)) = Some file
    /\ file_name file = "recording.webm"
    /\ blob_bytes file = concat (blob_bytes <$> chunksRef (ondataavailable data st))
    /\ blob_type file =
         match chunksRef (ondataavailable data st) with
         | first :: _ =>
             if truthy (blob_type first) then blob_type first else onstop_mimeTypePrefix r
         | [] => onstop_mimeTypePrefix r
         end
    /\ blob_type file <> ""
    /\ ((0 < blob_size file)%nat <-> chunksRef (ondataavailable data st) <> []).
Proof.
  intros Hchunks Hprefix.
  apply (ondataavailable_chunks data) in Hchunks.
  set (st1 := ondataavailable data st) in *.
  exists (recording (chunksRef st1) (onstop_mimeTypePrefix r)).
  split; [|split; [apply recording_name|split; [apply recording_bytes|]]].
  { unfold MediaRecorder_stop, onstop. fold st1. by rewrite cleanupMedia_formData. }
  assert (blob_type (recording (chunksRef st1) (onstop_mimeTypePrefix r)) =
            match chunksRef st1 with
            | first :: _ =>
                if truthy (blob_type first) then blob_type first else onstop_mimeTypePrefix r
            | [] => onstop_mimeTypePrefix r
            end) as Htype by (by destruct (chunksRef st1)).
  split; [done|]. split.
  - rewrite Htype. destruct (chunksRef st1) as [|first ?]; [done|].
    destruct (blob_type first); [done|]. cbn. done.
  - unfold blob_size. rewrite recording_bytes.
    destruct (chunksRef st1) as [|first rest]; cbn; [split; [lia|done]|].
    apply Forall_cons in Hchunks as [Hfirst _]. unfold blob_size in Hfirst.
    rewrite length_app. split; [done|lia].
Qed.

Lemma cleanupMedia_refs stream_r st :
  chunksRef (cleanupMedia stream_r st) = chunksRef st
  /\ mediaRecorderRef (cleanupMedia stream_r st) = mediaRecorderRef st.
Proof. unfold cleanupMedia. destruct stream_r; cbn; by destruct (timerRef st). Qed.

Lemma startRecording_steady stream_r s prefix ok st :
  prefix = "audio/webm" \/ prefix = "video/webm" ->
  (forall r, mediaRecorderRef st = Some r ->
     onstop_mimeTypePrefix r = "audio/webm" \/ onstop_mimeTypePrefix r = "video/webm") ->
  steady (startRecording stream_r s prefix ok st).
Proof.
  intros Hp Hr. unfold startRecording. destruct ok; cbn.
  - split; [constructor|]. by intros r [= <-].
  - split; [constructor|done].
Qed.

Lemma handle_steady e st : steady st -> steady (handle e st).
Proof.
  intros Hst. pose proof Hst as [Hc Hr].
  destruct e as [g ok|g|ok|data| | |files|t|]; cbn [handle].
  - unfold startAudioMode. destruct g as [s|]; [|done].
    apply startRecording_steady; [by left|done].
  - unfold startVideoMode. by destruct g.
  - destruct (stream st) as [s|]; [|done].
    apply startRecording_steady; [by right|done].
  - unfold stopRecording. destruct (mediaRecorderRef st) as [r|] eqn:Hrec; [|done].
    destruct (isRecording st); [|done].
    unfold MediaRecorder_stop, onstop, steady.
    destruct (cleanupMedia_refs (onstop_stream r)
                (setMediaFile (Some (recording (chunksRef (ondataavailable data st))
                                       (onstop_mimeTypePrefix r)))
                   (ondataavailable data st))) as [-> ->].
    cbn [setMediaFile chunksRef mediaRecorderRef].
    split; [by apply ondataavailable_chunks|].
    unfold ondataavailable.
    case_bool_decide; cbn [setChunksRef mediaRecorderRef]; by rewrite Hrec.
  - unfold cancelRecording, steady. cbn [setRecordingMode chunksRef mediaRecorderRef].
    by destruct (cleanupMedia_refs (stream st) st) as [-> ->].
  - unfold clearMedia, steady. cbn [setRecordingMode chunksRef mediaRecorderRef].
    by destruct (cleanupMedia_refs (stream st) (setMediaFile None st)) as [-> ->].
  - unfold handleFileChange. by destruct files.
  - unfold tick. by case_bool_decide.
  - unfold steady. by destruct (cleanupMedia_refs None st) as [-> ->].
Qed.

Lemma run_steady es : forall st st', steady st -> run es st = Some st' -> steady st'.
Proof.
  induction es as [|e es IH]; intros st st' Hst; cbn [run].
  - by intros [= <-].
  - destruct (on_screen e st); [|done]. apply IH. by apply handle_steady.
Qed.

Lemma initial_steady : steady initial.
Proof. split; [constructor|done]. Qed.

(** C7 (amended). On any page, when a recording is stopped the form gets a
    file named [recording.webm] whose bytes are the buffered chunks in
    sequence and whose content type is that of the first chunk, or the
    requested type when there is no chunk or the first chunk has no type;
    the content type is not empty; the file is empty exactly when no chunk
    was buffered. *)
Theorem stop_produces_recording (es : list Event) st r (data : Blob) :
  run es initial = Some st ->
  mediaRecorderRef st = Some r ->
  isRecording st = true ->
  exists file,
    CreateCapsuleFormData.mediaFile (formData (handle (StopRecording data) st)) = Some file
    /\ file_name file = "recording.webm"
    /\ blob_bytes file = concat (blob_bytes <$> chunksRef (ondataavailable data st))
    /\ blob_type file =
         match chunksRef (ondataavailable data st) with
         | first :: _ =>
             if truthy (blob_type first) then blob_type first else onstop_mimeTypePrefix r
         | [] => onstop_mimeTypePrefix r
         end
    /\ blob_type file <> ""
    /\ ((0 < blob_size file)%nat <-> chunksRef (ondataavailable data st) <> []).
Proof.
  intros Hrun Hrec Hon.
  destruct (run_steady es initial st initial_steady Hrun) as [Hchunks Hprefix].
  cbn [handle]. unfold stopRecording. rewrite Hrec, Hon.
  apply recorder_stop_file; [done|].
  by destruct (Hprefix r Hrec) as [-> | ->].
Qed.

End RecordingFacts.

Lemma stop_produces_recording_witness :
  exists file,
    CreateCapsuleFormData.mediaFile
      (CreateCapsule.formData
         (CreateCapsule.handle (CreateCapsule.StopRecording Samples.some_data)
            (CreateCapsule.handle (CreateCapsule.RecordAudio (Some Samples.microphone) true)
               CreateCapsule.initial))) = Some file
    /\ file_name file = "recording.webm"
    /\ blob_type file = "audio/webm;codecs=opus"
    /\ (0 < blob_size file)%nat.
Proof.
  destruct (stop_produces_recording
              [CreateCapsule.RecordAudio (Some Samples.microphone) true]
              (CreateCapsule.handle (CreateCapsule.RecordAudio (Some Samples.microphone) true)
                 CreateCapsule.initial)
              (CreateCapsule.mkRecorder Samples.microphone "audio/webm" None)
              Samples.some_data)
    as (file & H1 & H2 & _ & H3 & _ & H4).
  - reflexivity.
  - reflexivity.
  - reflexivity.
  - exists file. split; [exact H1|]. split; [exact H2|]. split; [rewrite H3; reflexivity|].
    apply H4. vm_compute. discriminate.
Defined.

(** C7, as stated, fails: an audio recording stopped before the recorder had
    any data gives the form a file, and the file is empty. *)
Lemma stop_without_data_produces_empty_file :
  exists st file,
    CreateCapsule.run
      [CreateCapsule.RecordAudio (Some Samples.microphone) true;
       CreateCapsule.StopRecording Samples.no_data] CreateCapsule.initial = Some st
    /\ CreateCapsuleFormData.mediaFile (CreateCapsule.formData st) = Some file
    /\ blob_size file = 0%nat
    /\ blob_type file = "audio/webm".
Proof.
  eexists _, _. split; [vm_compute; reflexivity|].
  split; [vm_compute; reflexivity|]. split; reflexivity.
Qed.

(** * Further properties *)

(** ** The store *)

Section MoreStorageFacts.

Variable Date_parse : string -> option Z.

Implicit Types (c r : Capsule.t) (br : Browser) (f : Fault).

(** X1. A save is an upsert under the id: after it the store holds the record
    of the capsule (without its mediaUrl) under the id, every other key is as
    before and the blob URL store is untouched; a second save under the same
    id leaves the store as the second save alone would. *)
Theorem saveCapsule_upsert c1 c2 br :
  Capsule.id c1 = Capsule.id c2 ->
  objectStore (Storage.saveCapsule NoFault c2 br).2 !! Capsule.id c2
    = Some (Storage.dataToStore c2)
  /\ (forall k, k <> Capsule.id c2 ->
        objectStore (Storage.saveCapsule NoFault c2 br).2 !! k = objectStore br !! k)
  /\ blobURLs (Storage.saveCapsule NoFault c2 br).2 = blobURLs br
  /\ Storage.saveCapsule NoFault c2 (Storage.saveCapsule NoFault c1 br).2
     = Storage.saveCapsule NoFault c2 br
  /\ size (objectStore (Storage.saveCapsule NoFault c2 (Storage.saveCapsule NoFault c1 br).2).2)
     = size (objectStore (Storage.saveCapsule NoFault c1 br).2).
Proof.
  intros Hid. rewrite !saveCapsule_ok. unfold Storage.put.
  cbn [snd objectStore blobURLs Storage.dataToStore Capsule.id]. rewrite Hid.
  split; [apply lookup_insert_eq|].
  split; [by intros k Hk; rewrite lookup_insert_ne|].
  split; [done|]. rewrite insert_insert_eq. split; [done|].
  destruct (objectStore br !! Capsule.id c2) as [r|] eqn:Hr.
  - by rewrite !map_size_insert_Some.
  - by rewrite !map_size_insert_None.
Qed.

Lemma processed_length now rs : forall urls,
  length (Storage.processed Date_parse now rs urls).1 = length rs
  /\ Capsule.id <$> (Storage.processed Date_parse now rs urls).1 = Capsule.id <$> rs
  /\ length (Storage.processed Date_parse now rs urls).2
     = (length urls + length (filter (fun r => is_Some (Capsule.mediaBlob r)) rs))%nat.
Proof.
  induction rs as [|r rs IH]; intros urls.
  - cbn. rewrite Nat.add_0_r. done.
  - rewrite processed_cons. cbn [fst snd].
    destruct (IH (Storage.process Date_parse now r urls).2) as (IH1 & IH2 & IH3).
    cbn [length fmap list_fmap]. rewrite IH1, IH3. fold (fmap Capsule.id rs).
    change (list_fmap _ _ Capsule.id ?l) with (Capsule.id <$> l).
    rewrite IH2. split; [done|]. split; [done|].
    rewrite filter_cons. unfold Storage.process. cbn [snd].
    destruct (Capsule.mediaBlob r) as [b|]; cbn [snd createObjectURL].
    + rewrite decide_True by eauto. cbn [length]. rewrite length_app. cbn. lia.
    + rewrite decide_False by (by intros [? ?]). done.
Qed.

Lemma getAll_ids br :
  well_kept br ->
  Capsule.id <$> Storage.getAll br ≡ₚ (map_to_list (objectStore br)).*1.
Proof.
  intros Hk. unfold Storage.getAll. rewrite merge_sort_Permutation.
  rewrite <- list_fmap_compose.
  assert (Capsule.id ∘ snd <$> map_to_list (objectStore br)
          = fst <$> map_to_list (objectStore br)) as ->; [|done].
  apply Forall_fmap_ext_1, Forall_forall. intros [k r] Hin. cbn.
  apply elem_of_map_to_list in Hin. by apply (well_kept_lookup _ _ _ Hk) in Hin as [? _].
Qed.

(** X3. A load does not touch the object store, whatever the platform does
    to it; when it resolves it returns one capsule for each record, in the
    order of the keys: as many capsules as the store has records, their ids
    in ascending order and without repetition, and an id is among them
    exactly when the store has a record under it. *)
Theorem getAllCapsules_reads_only f (now : Z) br :
  well_kept br ->
  objectStore (Storage.getAllCapsules Date_parse f now br).2 = objectStore br
  /\ forall cs br',
       Storage.getAllCapsules Date_parse f now br = (Resolved cs, br') ->
       length cs = size (objectStore br)
       /\ NoDup (Capsule.id <$> cs)
       /\ Sorted (fun a b => String.leb a b = true) (Capsule.id <$> cs)
       /\ forall k, k ∈ (Capsule.id <$> cs) <-> is_Some (objectStore br !! k).
Proof.
  intros Hk. split.
  { destruct f; [rewrite getAllCapsules_ok|..]; done. }
  intros cs br' H. destruct f; [|done|done].
  rewrite getAllCapsules_ok in H. injection H as <- <-.
  destruct (processed_length now (Storage.getAll br) (blobURLs br)) as (Hlen & Hids & _).
  rewrite Hlen, Hids. pose proof (getAll_ids br Hk) as Hperm.
  split; [|split; [|split]].
  - rewrite <- (length_fmap Capsule.id), Hperm, length_fmap. apply length_map_to_list.
  - rewrite Hperm. apply NoDup_fst_map_to_list.
  - unfold Storage.getAll.
    apply (Sorted_fmap Capsule.id Storage.key_le); [done|].
    apply Sorted_merge_sort. intros a b. apply String.leb_total.
  - intros k. rewrite Hperm, list_elem_of_fmap. split.
    + intros [[k' r] [-> Hin]]. apply elem_of_map_to_list in Hin. by eexists.
    + intros [r Hr]. exists (k, r). split; [done|]. by apply elem_of_map_to_list.
Qed.

(** X4. A load issues one new object URL for each record that has a blob and
    revokes none: the blob URL store grows by the number of such records,
    and every URL issued before still resolves to the same blob. *)
Theorem getAllCapsules_issues_urls (now : Z) br :
  length (blobURLs (Storage.getAllCapsules Date_parse NoFault now br).2)
  = (length (blobURLs br)
     + length (filter (fun r => is_Some (Capsule.mediaBlob r)) (Storage.getAll br)))%nat
  /\ forall u b, url_resolves (blobURLs br) u b ->
       url_resolves (blobURLs (Storage.getAllCapsules Date_parse NoFault now br).2) u b.
Proof.
  rewrite getAllCapsules_ok. cbn [snd blobURLs].
  destruct (processed_length now (Storage.getAll br) (blobURLs br)) as (_ & _ & Hlen).
  destruct (processed_loaded Date_parse now (Storage.getAll br) (blobURLs br)) as [_ Hpre].
  split; [done|]. intros u b (n & -> & Hn). exists n. split; [done|].
  by eapply prefix_lookup_Some.
Qed.

(** X5. Saving a capsule under a new id and deleting that id gives the
    browser back as it was; deleting another id keeps the saved record. *)
Theorem save_then_delete c (id : string) br :
  objectStore br !! Capsule.id c = None ->
  Storage.deleteCapsule NoFault (Capsule.id c) (Storage.saveCapsule NoFault c br).2
    = (Resolved tt, br)
  /\ (id <> Capsule.id c ->
      objectStore (Storage.deleteCapsule NoFault id (Storage.saveCapsule NoFault c br).2).2
        !! Capsule.id c = Some (Storage.dataToStore c)).
Proof.
  intros Hnew. rewrite saveCapsule_ok, !deleteCapsule_ok. unfold Storage.put.
  cbn [snd objectStore blobURLs Storage.dataToStore Capsule.id]. split.
  - destruct br as [store urls]. cbn in *. by rewrite delete_insert_eq, delete_id.
  - intros Hne. rewrite lookup_delete_ne by done. apply lookup_insert_eq.
Qed.

(** X6. A capsule does not lock again: of two loads of a store, the second
    not earlier than the first, a capsule the first load shows unlocked is
    unlocked in the second. *)
Theorem unlocked_stays_unlocked (now1 now2 : Z) br cs1 br1 cs2 br2 c1 c2 :
  well_kept br ->
  now1 <= now2 ->
  Storage.getAllCapsules Date_parse NoFault now1 br = (Resolved cs1, br1) ->
  Storage.getAllCapsules Date_parse NoFault now2 br1 = (Resolved cs2, br2) ->
  c1 ∈ cs1 -> c2 ∈ cs2 -> Capsule.id c1 = Capsule.id c2 ->
  Capsule.isLocked c1 = false -> Capsule.isLocked c2 = false.
Proof.
  intros Hk Hle. rewrite !getAllCapsules_ok. intros [= <- <-] [= <- <-] H1 H2 Hid Hun.
  apply loaded_of_stored in H1 as (k1 & r1 & Hr1 & Hl1).
  apply loaded_of_stored in H2 as (k2 & r2 & Hr2 & Hl2).
  cbn [objectStore] in Hr2.
  destruct (well_kept_lookup _ _ _ Hk Hr1) as [Hk1 _].
  destruct (well_kept_lookup _ _ _ Hk Hr2) as [Hk2 _].
  destruct Hl1 as (Hid1 & _ & _ & _ & _ & _ & _ & _ & _ & Hlock1 & _).
  destruct Hl2 as (Hid2 & _ & _ & _ & _ & _ & _ & _ & _ & Hlock2 & _).
  assert (k1 = k2) as <- by congruence.
  assert (r1 = r2) as <- by congruence.
  rewrite Hlock2. rewrite Hlock1 in Hun. unfold Date_gt in *.
  destruct (Date_parse (Capsule.unlockDate r1)) as [t|]; [|done].
  apply bool_decide_eq_false in Hun. apply bool_decide_eq_false. lia.
Qed.

End MoreStorageFacts.

Lemma saveCapsule_upsert_witness :
  Storage.saveCapsule NoFault Samples.holiday
    (Storage.saveCapsule NoFault (Samples.capsule "e" "2031-01-01T00:00")
       Samples.fresh_browser).2
  = Storage.saveCapsule NoFault Samples.holiday Samples.fresh_browser.
Proof.
  destruct (saveCapsule_upsert (Samples.capsule "e" "2031-01-01T00:00") Samples.holiday
              Samples.fresh_browser) as (_ & _ & _ & H & _).
  - reflexivity.
  - exact H.
Defined.

Lemma getAllCapsules_reads_only_witness :
  exists cs br',
    Storage.getAllCapsules UTC.Date_parse NoFault Samples.T (Samples.saved Samples.four)
      = (Resolved cs, br')
    /\ length cs = 4%nat /\ NoDup (Capsule.id <$> cs).
Proof.
  destruct (getAllCapsules_reads_only UTC.Date_parse NoFault Samples.T
              (Samples.saved Samples.four)) as [_ Hload].
  - apply (bool_decide_unpack _). vm_compute. reflexivity.
  - eexists _, _. split; [apply getAllCapsules_ok|].
    destruct (Hload _ _ (getAllCapsules_ok UTC.Date_parse Samples.T
                           (Samples.saved Samples.four))) as (Hlen & Hnd & _).
    split; [|exact Hnd]. rewrite Hlen. vm_compute. reflexivity.
Defined.

Lemma save_then_delete_witness :
  Storage.deleteCapsule NoFault "e"
    (Storage.saveCapsule NoFault Samples.holiday (Samples.saved Samples.four)).2
  = (Resolved tt, Samples.saved Samples.four).
Proof.
  apply (save_then_delete Samples.holiday "a" (Samples.saved Samples.four)).
  vm_compute. reflexivity.
Defined.

Lemma unlocked_stays_unlocked_witness :
  exists cs1 br1 cs2 br2 c1 c2,
    Storage.getAllCapsules UTC.Date_parse NoFault Samples.T (Samples.saved Samples.four)
      = (Resolved cs1, br1)
    /\ Storage.getAllCapsules UTC.Date_parse NoFault (Samples.T + 60000) br1
       = (Resolved cs2, br2)
    /\ c1 ∈ cs1 /\ c2 ∈ cs2 /\ Capsule.id c1 = "c" /\ Capsule.id c2 = "c"
    /\ Capsule.isLocked c1 = false /\ Capsule.isLocked c2 = false.
Proof.
  set (c := (Storage.process UTC.Date_parse Samples.T
               (Samples.capsule "c" "2029-12-31T23:59") []).1).
  set (c' := (Storage.process UTC.Date_parse (Samples.T + 60000)
                (Samples.capsule "c" "2029-12-31T23:59") []).1).
  eexists _, _, _, _, c, c'.
  split; [apply getAllCapsules_ok|]. split; [apply getAllCapsules_ok|].
  assert (c ∈ (Storage.processed UTC.Date_parse Samples.T
                 (Storage.getAll (Samples.saved Samples.four))
                 (blobURLs (Samples.saved Samples.four))).1) as Hin1
    by (apply list_elem_of_lookup; exists 2%nat; vm_compute; reflexivity).
  split; [exact Hin1|].
  match goal with |- ?c2 ∈ ?l /\ _ =>
    assert (c2 ∈ l) as Hin2
      by (apply list_elem_of_lookup; exists 2%nat; vm_compute; reflexivity) end.
  split; [exact Hin2|]. split; [reflexivity|]. split; [reflexivity|].
  split; [vm_compute; reflexivity|].
  eapply (unlocked_stays_unlocked UTC.Date_parse Samples.T (Samples.T + 60000)
            (Samples.saved Samples.four) _ _ _ _ c c').
  - apply (bool_decide_unpack _). vm_compute. reflexivity.
  - vm_compute. discriminate.
  - apply getAllCapsules_ok.
  - apply getAllCapsules_ok.
  - exact Hin1.
  - exact Hin2.
  - reflexivity.
  - vm_compute. reflexivity.
Defined.

(** ** Reading a blob, and the text service *)

Lemma split_comma_free (s : string) : comma_free s = true -> Storage.split_comma s = [s].
Proof.
  induction s as [|a s IH]; [done|]. cbn [comma_free Storage.split_comma].
  intros [Ha Hs]%andb_true_iff. apply negb_true_iff in Ha. rewrite Ha.
  by rewrite (IH Hs).
Qed.

Lemma split_comma_app (p q : string) :
  comma_free p = true ->
  Storage.split_comma (p +:+ "," +:+ q) = p :: Storage.split_comma q.
Proof.
  induction p as [|a p IH]; [done|]. cbn [comma_free].
  intros [Ha Hp]%andb_true_iff. apply negb_true_iff in Ha.
  change (String a p +:+ "," +:+ q) with (String a (p +:+ "," +:+ q)).
  cbn [Storage.split_comma]. by rewrite Ha, (IH Hp).
Qed.

(** X7. [blobToBase64] gives the part of the data URL after its comma: for a
    data URL made of a header and a payload, neither with a comma, it
    resolves with the payload.  A result of the reader without a comma gives
    [undefined], and a reader that fails makes it reject with the reader's
    error. *)
Theorem blobToBase64_payload {S : Type} (readAsDataURL : Blob -> promise string)
    (blob : Blob) (s : S) :
  (forall header payload,
     comma_free header = true -> comma_free payload = true ->
     readAsDataURL blob = Resolved (header +:+ "," +:+ payload) ->
     Storage.blobToBase64 readAsDataURL blob s = (Resolved (Some payload), s))
  /\ (forall url,
        comma_free url = true -> readAsDataURL blob = Resolved url ->
        Storage.blobToBase64 readAsDataURL blob s = (Resolved None, s))
  /\ (forall e,
        readAsDataURL blob = Rejected e ->
        Storage.blobToBase64 readAsDataURL blob s = (Rejected e, s)).
Proof.
  unfold Storage.blobToBase64. split; [|split].
  - intros header payload Hh Hp ->.
    by rewrite (split_comma_app _ _ Hh), (split_comma_free _ Hp).
  - intros url Hu ->. by rewrite (split_comma_free _ Hu).
  - by intros e ->.
Qed.

Lemma blobToBase64_payload_witness :
  Storage.blobToBase64 (Gemini.readAsDataURL Samples.failing) Samples.photo tt
  = (Resolved (Some "iVBORw=="), tt).
Proof.
  apply (proj1 (blobToBase64_payload (Gemini.readAsDataURL Samples.failing)
                  Samples.photo tt) "data:image/png;base64" "iVBORw==");
    reflexivity.
Defined.

Lemma or_else_nonempty (a : option string) (b : string) : b <> "" -> or_else a b <> "".
Proof.
  intros Hb. unfold or_else. destruct a as [[|c s]|]; cbn; done.
Qed.

(** X8. [generateCapsuleHint] always resolves, and with a hint that is not
    empty: whatever the credential, the reader and the model endpoint do,
    the caller gets a text to show. *)
Theorem generateCapsuleHint_never_empty {S : Type} (svc : Gemini.Service)
    (mediaBlob : Blob) (mediaType : string) (s : S) :
  exists hint,
    Gemini.generateCapsuleHint svc mediaBlob mediaType s = (Resolved hint, s)
    /\ hint <> "".
Proof.
  unfold Gemini.generateCapsuleHint.
  destruct (Gemini.getAI svc) as [ai|]; [|by eexists].
  unfold try_catch, await, Storage.blobToBase64.
  destruct (Gemini.readAsDataURL svc mediaBlob) as [url|e]; [|by eexists].
  unfold resolve, Gemini.generate.
  destruct (String.eqb mediaType "image"); destruct (ai _) as [err|t];
    eexists; (split; [reflexivity|]); try done; by apply or_else_nonempty.
Qed.

(** X9. An API key that is the empty string counts as no key: the model
    endpoint is not consulted, the hint is the default for a missing
    credential, the reflection is empty and the note comes back as it
    was. *)
Theorem empty_key_is_no_key {S : Type} (svc : Gemini.Service)
    (mediaBlob : Blob) (mediaType note : string) (s : S) :
  Gemini.API_KEY svc = None \/ Gemini.API_KEY svc = Some "" ->
  Gemini.getAI svc = None
  /\ Gemini.generateCapsuleHint svc mediaBlob mediaType s
     = (Resolved "A mysterious memory from the past...", s)
  /\ Gemini.generateFutureReflection svc note s = (Resolved "", s)
  /\ Gemini.refineUserNote svc note s = (Resolved note, s).
Proof.
  intros Hkey.
  assert (Gemini.getAI svc = None) as Hai
    by (unfold Gemini.getAI; by destruct Hkey as [-> | ->]).
  unfold Gemini.generateCapsuleHint, Gemini.generateFutureReflection, Gemini.refineUserNote.
  by rewrite Hai.
Qed.

Lemma empty_key_is_no_key_witness :
  Gemini.refineUserNote
    {| Gemini.API_KEY := Some "";
       Gemini.generateContent := fun _ => Gemini.Response (Some "rewritten");
       Gemini.readAsDataURL := fun _ => Rejected "unreadable" |}
    "Dear me" tt = (Resolved "Dear me", tt).
Proof.
  apply (empty_key_is_no_key _ Samples.photo "image" "Dear me" tt). right. reflexivity.
Defined.

(** ** The application *)

(** X10. The two places that class an attached file agree: the media type
    of the capsule and the type handed to the hint generator are both image
    for a content type that starts with [image], both audio for one that
    starts with [audio], and both video for every other content type; a
    capsule has the media type text exactly when no file is attached. *)
Theorem media_type_classes (mediaFile : option File) :
  (App.mediaTypeOf mediaFile = text <-> mediaFile = None)
  /\ forall file, mediaFile = Some file ->
       (String.prefix "image" (blob_type file) = true
        /\ App.mediaTypeOf mediaFile = image /\ CreateCapsule.hintType file = "image")
       \/ (String.prefix "image" (blob_type file) = false
           /\ String.prefix "audio" (blob_type file) = true
           /\ App.mediaTypeOf mediaFile = audio /\ CreateCapsule.hintType file = "audio")
       \/ (String.prefix "image" (blob_type file) = false
           /\ String.prefix "audio" (blob_type file) = false
           /\ App.mediaTypeOf mediaFile = video /\ CreateCapsule.hintType file = "video").
Proof.
  split.
  - unfold App.mediaTypeOf. destruct mediaFile as [file|]; [|done].
    split; [|done].
    destruct (String.prefix "image" _); [done|]. by destruct (String.prefix "audio" _).
  - intros file ->. unfold App.mediaTypeOf, CreateCapsule.hintType.
    destruct (String.prefix "image" _); [by left|].
    destruct (String.prefix "audio" _); [right; by left | right; by right].
Qed.

Lemma media_type_classes_witness :
  App.mediaTypeOf (Some Samples.photo) = image /\ CreateCapsule.hintType Samples.photo = "image".
Proof.
  destruct (proj2 (media_type_classes (Some Samples.photo)) Samples.photo eq_refl)
    as [(_ & H1 & H2)|[(H & _)|(H & _)]].
  - split; [exact H1 | exact H2].
  - discriminate H.
  - discriminate H.
Defined.

Section MoreCreationFacts.

Variable Date_parse : string -> option Z.
Variable toISOString : Z -> string.
Variable svc : Gemini.Service.

(** X11. A load the platform fails is caught: [loadCapsules] resolves and
    leaves the component as it was, with the listing it had. *)
Theorem loadCapsules_keeps_listing_on_fault (f : Fault) (now : Z) (st : App.State) :
  f <> NoFault ->
  App.loadCapsules Date_parse f now st = (Resolved tt, st).
Proof.
  intros Hf. destruct st as [v cs sel br]. destruct f; [done|done|done].
Qed.

(** X12. After a creation that the platform does not fail, the new capsule
    is on the listing: the listing is reloaded after the save, it has one
    capsule with the new id, with the unlock date of the form, shown locked
    exactly when that date is after the time of the reload, and the view is
    back on the dashboard. *)
Theorem handleCreateSubmit_lists_capsule (p : App.Submission)
    (data : CreateCapsuleFormData.t) (aiHint : option string) (app : App.State) :
  well_kept (App.browser app) ->
  App.saveFault p = NoFault -> App.loadFault p = NoFault ->
  exists app',
    App.handleCreateSubmit Date_parse toISOString svc p data aiHint app = (Resolved tt, app')
    /\ App.view app' = DASHBOARD
    /\ (exists c, c ∈ App.capsules app' /\ Capsule.id c = App.randomUUID p)
    /\ forall c, c ∈ App.capsules app' -> Capsule.id c = App.randomUUID p ->
         Capsule.title c = CreateCapsuleFormData.title data
         /\ Capsule.unlockDate c = CreateCapsuleFormData.unlockDate data
         /\ Capsule.aiHint c = aiHint
         /\ Capsule.isLocked c
            = Date_gt (Date_parse (CreateCapsuleFormData.unlockDate data)) (App.loadNow p).
Proof.
  intros Hk Hsave Hload. unfold App.handleCreateSubmit.
  set (desc := CreateCapsuleFormData.description data).
  destruct (generateFutureReflection_resolves svc desc app) as [text Htext].
  unfold await at 1.
  assert (exists reflection,
            (if truthy desc
             then await (Gemini.generateFutureReflection svc desc) (fun r => resolve (Some r))
             else resolve None) app = (Resolved reflection, app)) as (reflection & ->).
  { destruct (truthy desc).
    - exists (Some text). unfold await. by rewrite Htext.
    - by exists None. }
  rewrite Hsave, Hload. unfold await at 1. unfold App.db at 1.
  rewrite saveCapsule_ok. unfold await at 1. rewrite loadCapsules_ok.
  cbn [App.setView App.browser App.view App.capsules snd].
  match goal with |- context [Storage.put (Storage.dataToStore ?c) ?b] =>
    set (new := c); set (br1 := Storage.put (Storage.dataToStore c) b) end.
  assert (well_kept br1) as Hk1 by (by apply well_kept_put).
  assert (objectStore br1 !! App.randomUUID p = Some (Storage.dataToStore new)) as Hnew
    by apply lookup_insert_eq.
  eexists. split; [reflexivity|]. cbn [App.view App.capsules]. split; [done|].
  split.
  - destruct (stored_is_loaded Date_parse (App.loadNow p) br1 _ _ Hnew) as (c & Hin & Hl).
    exists c. split; [by rewrite Array_sort_perm|]. by destruct Hl as [-> _].
  - intros c Hin Hid. rewrite Array_sort_perm in Hin.
    apply loaded_of_stored in Hin as (k & r & Hr & Hl).
    destruct (well_kept_lookup _ _ _ Hk1 Hr) as [Hkey _].
    pose proof Hl as (Hid' & _).
    assert (k = App.randomUUID p) as -> by congruence.
    assert (Some r = Some (Storage.dataToStore new)) as [= ->]
      by (rewrite <- Hr; exact Hnew).
    by destruct Hl as (_ & -> & _ & -> & _ & _ & _ & -> & _ & -> & _).
Qed.

(** X13. A creation whose save the platform fails stores and lists nothing:
    the rejection of the save is caught by [handleSubmit], which resolves,
    shows the alert [Failed to create capsule] and ends the submitting
    state; the store, the listing and the view are as before. *)
Theorem createCapsule_failed_save (p : App.Submission) (formData : CreateCapsuleFormData.t)
    (ui : CreateCapsule.State) (app : App.State) :
  CreateCapsuleFormData.title formData <> "" ->
  CreateCapsuleFormData.unlockDate formData <> "" ->
  App.saveFault p <> NoFault ->
  exists ui',
    createCapsule Date_parse toISOString svc p formData (ui, app) = (Resolved tt, (ui', app))
    /\ CreateCapsule.alerts ui' = CreateCapsule.alerts ui ++ ["Failed to create capsule"]
    /\ CreateCapsule.isSubmitting ui' = false
    /\ CreateCapsule.formData ui' = CreateCapsule.formData ui.
Proof.
  intros Htitle Hdate Hsave.
  unfold createCapsule, CreateCapsule.handleSubmit.
  assert (truthy (CreateCapsuleFormData.title formData) = true) as ->
    by (by destruct (CreateCapsuleFormData.title formData)).
  assert (truthy (CreateCapsuleFormData.unlockDate formData) = true) as ->
    by (by destruct (CreateCapsuleFormData.unlockDate formData)).
  cbn [negb orb].
  set (ui1 := CreateCapsule.setIsSubmitting true ui).
  assert (exists aiHint,
            match CreateCapsuleFormData.mediaFile formData with
            | Some file =>
                await (Gemini.generateCapsuleHint svc file (CreateCapsule.hintType file))
                  (fun h => resolve (Some h))
            | None => resolve None
            end (ui1, app) = (Resolved aiHint, (ui1, app))) as (aiHint & Hhint).
  { destruct (CreateCapsuleFormData.mediaFile formData) as [file|]; [|by exists None].
    destruct (generateCapsuleHint_resolves svc file (CreateCapsule.hintType file) (ui1, app))
      as [hint Hh].
    exists (Some hint). unfold await. by rewrite Hh. }
  assert (exists reason,
            App.handleCreateSubmit Date_parse toISOString svc p formData aiHint app
            = (Rejected reason, app)) as (reason & Hsubmit).
  { unfold App.handleCreateSubmit.
    set (desc := CreateCapsuleFormData.description formData).
    destruct (generateFutureReflection_resolves svc desc app) as [text Htext].
    unfold await at 1.
    assert (exists reflection,
              (if truthy desc
               then await (Gemini.generateFutureReflection svc desc) (fun r => resolve (Some r))
               else resolve None) app = (Resolved reflection, app)) as (reflection & ->).
    { destruct (truthy desc).
      - exists (Some text). unfold await. by rewrite Htext.
      - by exists None. }
    destruct app as [v cs sel br].
    destruct (App.saveFault p); [done|by eexists|by eexists]. }
  unfold await at 1. unfold CreateCapsule.here at 1. fold ui1.
  unfold await at 1. unfold try_catch. unfold await at 1.
  rewrite Hhint. unfold CreateCapsule.parent. rewrite Hsubmit.
  eexists. split; [reflexivity|]. done.
Qed.

End MoreCreationFacts.

Lemma loadCapsules_keeps_listing_on_fault_witness :
  App.loadCapsules UTC.Date_parse RequestFault Samples.T
    (Samples.page (Samples.saved Samples.four))
  = (Resolved tt, Samples.page (Samples.saved Samples.four)).
Proof. apply loadCapsules_keeps_listing_on_fault. discriminate. Defined.

Lemma handleCreateSubmit_lists_capsule_witness :
  exists app',
    App.handleCreateSubmit UTC.Date_parse UTC.toISOString Samples.no_key Samples.submission
      (Samples.form "To 2030" "2030-01-01T00:00" None) None
      (Samples.page (Samples.saved Samples.four)) = (Resolved tt, app')
    /\ App.view app' = DASHBOARD
    /\ exists c, c ∈ App.capsules app' /\ Capsule.id c = App.randomUUID Samples.submission.
Proof.
  destruct (handleCreateSubmit_lists_capsule UTC.Date_parse UTC.toISOString Samples.no_key
              Samples.submission (Samples.form "To 2030" "2030-01-01T00:00" None) None
              (Samples.page (Samples.saved Samples.four)))
    as (app' & H1 & H2 & H3 & _).
  - apply (bool_decide_unpack _). vm_compute. reflexivity.
  - reflexivity.
  - reflexivity.
  - exists app'. split; [exact H1|]. split; [exact H2 | exact H3].
Defined.

Lemma createCapsule_failed_save_witness :
  exists ui',
    createCapsule UTC.Date_parse UTC.toISOString Samples.no_key
      {| App.randomUUID := "3f2b7c1e-0000-4000-8000-000000000002";
         App.createdNow := Samples.today;
         App.saveFault := RequestFault;
         App.loadFault := NoFault;
         App.loadNow := Samples.today |}
      (Samples.form "To 2030" "2030-01-01T00:00" (Some Samples.photo))
      (CreateCapsule.initial, Samples.page Samples.fresh_browser)
    = (Resolved tt, (ui', Samples.page Samples.fresh_browser))
    /\ CreateCapsule.alerts ui' = ["Failed to create capsule"].
Proof.
  edestruct (createCapsule_failed_save UTC.Date_parse UTC.toISOString Samples.no_key
              {| App.randomUUID := "3f2b7c1e-0000-4000-8000-000000000002";
                 App.createdNow := Samples.today;
                 App.saveFault := RequestFault;
                 App.loadFault := NoFault;
                 App.loadNow := Samples.today |}
              (Samples.form "To 2030" "2030-01-01T00:00" (Some Samples.photo))
              CreateCapsule.initial (Samples.page Samples.fresh_browser))
    as (ui' & H1 & H2 & _).
  - discriminate.
  - discriminate.
  - discriminate.
  - exists ui'. split; [exact H1 | exact H2].
Defined.

(** X14. [handleSubmit] never rejects.  For a form with a title and an
    unlock date it hands the form to [onSubmit] with the hint, resolves
    whatever [onSubmit] does, ends with the submitting state off, and shows
    the alert [Failed to create capsule] exactly when [onSubmit] rejected;
    what [onSubmit] did to the parent is kept. *)
Theorem handleSubmit_never_rejects {S : Type}
    (onSubmit : CreateCapsuleFormData.t -> option string -> Async S unit)
    (svc : Gemini.Service) (formData : CreateCapsuleFormData.t)
    (ui : CreateCapsule.State) (s : S) :
  CreateCapsuleFormData.title formData <> "" ->
  CreateCapsuleFormData.unlockDate formData <> "" ->
  exists ui' aiHint,
    CreateCapsule.handleSubmit onSubmit svc formData (ui, s)
      = (Resolved tt, (ui', (onSubmit formData aiHint s).2))
    /\ CreateCapsule.isSubmitting ui' = false
    /\ CreateCapsule.alerts ui' =
         CreateCapsule.alerts ui ++
           match (onSubmit formData aiHint s).1 with
           | Resolved _ => []
           | Rejected _ => ["Failed to create capsule"]
           end
    /\ (aiHint = None <-> CreateCapsuleFormData.mediaFile formData = None).
Proof.
  intros Htitle Hdate. unfold CreateCapsule.handleSubmit.
  assert (truthy (CreateCapsuleFormData.title formData) = true) as ->
    by (by destruct (CreateCapsuleFormData.title formData)).
  assert (truthy (CreateCapsuleFormData.unlockDate formData) = true) as ->
    by (by destruct (CreateCapsuleFormData.unlockDate formData)).
  cbn [negb orb].
  set (ui1 := CreateCapsule.setIsSubmitting true ui).
  assert (exists aiHint,
            match CreateCapsuleFormData.mediaFile formData with
            | Some file =>
                await (Gemini.generateCapsuleHint svc file (CreateCapsule.hintType file))
                  (fun h => resolve (Some h))
            | None => resolve None
            end (ui1, s) = (Resolved aiHint, (ui1, s))
            /\ (aiHint = None <-> CreateCapsuleFormData.mediaFile formData = None))
    as (aiHint & Hhint & Hnone).
  { destruct (CreateCapsuleFormData.mediaFile formData) as [file|]; [|by exists None].
    destruct (generateCapsuleHint_resolves svc file (CreateCapsule.hintType file) (ui1, s))
      as [hint Hh].
    exists (Some hint). unfold await. by rewrite Hh. }
  unfold await at 1. unfold CreateCapsule.here at 1. fold ui1.
  unfold await at 1. unfold try_catch. unfold await at 1.
  rewrite Hhint. unfold CreateCapsule.parent.
  destruct (onSubmit formData aiHint s) as [[[]|reason] s'] eqn:Hsub.
  - eexists _, aiHint. rewrite Hsub. split; [reflexivity|]. cbn.
    by rewrite app_nil_r.
  - eexists _, aiHint. rewrite Hsub. split; [reflexivity|]. done.
Qed.

Lemma handleSubmit_never_rejects_witness :
  exists ui' aiHint,
    CreateCapsule.handleSubmit (fun _ _ => reject "no") Samples.no_key
      (Samples.form "To 2030" "2030-01-01T00:00" None) (CreateCapsule.initial, tt)
    = (Resolved tt, (ui', tt))
    /\ CreateCapsule.alerts ui' = ["Failed to create capsule"]
    /\ aiHint = @None string.
Proof.
  destruct (handleSubmit_never_rejects (fun _ _ => reject "no") Samples.no_key
              (Samples.form "To 2030" "2030-01-01T00:00" None) CreateCapsule.initial tt)
    as (ui' & aiHint & H1 & _ & H2 & H3).
  - discriminate.
  - discriminate.
  - exists ui', aiHint. split; [exact H1|]. split; [exact H2|]. apply H3. reflexivity.
Defined.

Section DeletionFacts.

Variable Date_parse : string -> option Z.

(** X15. Deleting from the listing.  A declined confirmation changes
    nothing.  A confirmed deletion that the platform does not fail removes
    the record, keeps every other record, and reloads: no capsule of the
    listing has the id.  A confirmed deletion whose delete fails rejects,
    with the store and the listing as before. *)
Theorem handleDelete_cases (fDelete fLoad : Fault) (now : Z) (id : string) (st : App.State) :
  well_kept (App.browser st) ->
  App.handleDelete Date_parse false fDelete fLoad now id st = (Resolved tt, st)
  /\ (exists st',
        App.handleDelete Date_parse true NoFault NoFault now id st = (Resolved tt, st')
        /\ objectStore (App.browser st') = delete id (objectStore (App.browser st))
        /\ forall c, c ∈ App.capsules st' -> Capsule.id c <> id)
  /\ (fDelete <> NoFault ->
      exists reason,
        App.handleDelete Date_parse true fDelete fLoad now id st = (Rejected reason, st)).
Proof.
  intros Hk. split; [done|]. split.
  - unfold App.handleDelete, await. unfold App.db at 1. rewrite deleteCapsule_ok.
    set (br1 := {| objectStore := delete id (objectStore (App.browser st));
                   blobURLs := blobURLs (App.browser st) |}).
    rewrite loadCapsules_ok. cbn [App.browser].
    eexists. split; [reflexivity|]. cbn [App.browser App.capsules objectStore].
    split; [done|]. intros c Hin Hid. rewrite Array_sort_perm in Hin.
    apply loaded_of_stored in Hin as (k & r & Hr & Hl). cbn [objectStore br1] in Hr.
    apply lookup_delete_Some in Hr as [Hne Hr].
    apply (well_kept_lookup _ _ _ Hk) in Hr as [Hkey _]. destruct Hl as [Hid' _]. congruence.
  - intros Hf. destruct st as [v cs sel br].
    destruct fDelete; [done|by eexists|by eexists].
Qed.

Local Abbreviation compareCapsules := (App.compareCapsules Date_parse).

Lemma sorted_is_fixed {A : Type} (comparefn : A -> A -> option Z) (l : list A) :
  StronglySorted (fun a b => SortCompare comparefn a b <= 0) l ->
  Array_sort comparefn l = l.
Proof.
  induction 1 as [|x l Hs IH Hx]; [done|].
  cbn [Array_sort foldr]. fold (Array_sort comparefn l). rewrite IH.
  destruct l as [|y l']; [done|]. cbn [sort_insert].
  apply Forall_cons in Hx as [Hxy _]. rewrite bool_decide_eq_false_2 by lia. done.
Qed.

(** X16. On capsules with valid unlock dates the sort of the listing is
    idempotent: sorting a sorted listing again changes nothing. *)
Theorem listing_sort_idempotent (data : list Capsule.t) :
  Forall (dated Date_parse) data ->
  Array_sort compareCapsules (Array_sort compareCapsules data)
  = Array_sort compareCapsules data.
Proof.
  intros Hd. apply sorted_is_fixed.
  apply (Array_sort_sorted compareCapsules (dated Date_parse));
    [apply compare_trans | apply compare_asym | done].
Qed.

(** X17. One invalid unlock date breaks the comparator of the listing: the
    capsule with the invalid date compares as equal to every capsule of its
    group, so of two capsules with valid dates the later is not after it and
    it is not after the earlier, while the later is after the earlier. *)
Theorem comparator_inconsistent_with_invalid_date (a b n : Capsule.t) (ta tb : Z) :
  Capsule.isLocked a = Capsule.isLocked n ->
  Capsule.isLocked b = Capsule.isLocked n ->
  App.getTime Date_parse a = Some ta -> App.getTime Date_parse b = Some tb ->
  App.getTime Date_parse n = None ->
  ta < tb ->
  compareCapsules b n = None /\ compareCapsules n a = None
  /\ SortCompare compareCapsules b n = 0
  /\ SortCompare compareCapsules n a = 0
  /\ 0 < SortCompare compareCapsules b a.
Proof.
  intros Han Hbn Ha Hb Hn Hlt. unfold SortCompare, App.compareCapsules.
  rewrite Ha, Hb, Hn, Han, Hbn. rewrite Bool.eqb_reflx. cbn. repeat split; try done. lia.
Qed.

End DeletionFacts.

Lemma handleDelete_cases_witness :
  exists st',
    App.handleDelete UTC.Date_parse true NoFault NoFault Samples.T "b"
      (Samples.page (Samples.saved Samples.four)) = (Resolved tt, st')
    /\ forall c, c ∈ App.capsules st' -> Capsule.id c <> "b".
Proof.
  destruct (handleDelete_cases UTC.Date_parse NoFault NoFault Samples.T "b"
              (Samples.page (Samples.saved Samples.four)))
    as (_ & (st' & H1 & _ & H2) & _).
  - apply (bool_decide_unpack _). vm_compute. reflexivity.
  - exists st'. split; [exact H1 | exact H2].
Defined.

Lemma listing_sort_idempotent_witness :
  Array_sort (App.compareCapsules UTC.Date_parse)
    (Array_sort (App.compareCapsules UTC.Date_parse) Samples.four)
  = Array_sort (App.compareCapsules UTC.Date_parse) Samples.four.
Proof.
  apply listing_sort_idempotent.
  repeat constructor; vm_compute; eexists; reflexivity.
Defined.

Lemma comparator_inconsistent_with_invalid_date_witness :
  SortCompare (App.compareCapsules UTC.Date_parse)
    (Samples.capsule "b" "2030-01-01T00:05") (Samples.capsule "n" "some day") = 0
  /\ SortCompare (App.compareCapsules UTC.Date_parse)
       (Samples.capsule "n" "some day") (Samples.capsule "a" "2030-01-01T00:01") = 0
  /\ 0 < SortCompare (App.compareCapsules UTC.Date_parse)
           (Samples.capsule "b" "2030-01-01T00:05") (Samples.capsule "a" "2030-01-01T00:01").
Proof.
  destruct (comparator_inconsistent_with_invalid_date UTC.Date_parse
              (Samples.capsule "a" "2030-01-01T00:01")
              (Samples.capsule "b" "2030-01-01T00:05")
              (Samples.capsule "n" "some day")
              1893456060000 1893456300000)
    as (_ & _ & H1 & H2 & H3).
  - reflexivity.
  - reflexivity.
  - vm_compute. reflexivity.
  - vm_compute. reflexivity.
  - vm_compute. reflexivity.
  - reflexivity.
  - split; [exact H1|]. split; [exact H2 | exact H3].
Defined.

(** ** What is shown *)

(** X18. The card and the load agree on the lock of a capsule with a valid
    unlock date at every time but the unlock instant itself: there the load
    gives the capsule as unlocked while the card still shows it locked, with
    the countdown at zero.  A capsule with an invalid date is unlocked for
    the load and locked for the card. *)
Theorem card_and_load_on_lock (now unlockTime : Z) :
  (unlockTime <> now ->
     CapsuleCard.isLocked (CapsuleCard.calculateTimeLeft now (Some unlockTime))
     = Date_gt (Some unlockTime) now)
  /\ (CapsuleCard.calculateTimeLeft now (Some now)
      = {| CapsuleCard.timeLeft := "0d 0h 0m 0s"; CapsuleCard.isLocked := true |}
      /\ Date_gt (Some now) now = false)
  /\ (CapsuleCard.isLocked (CapsuleCard.calculateTimeLeft now None) = true
      /\ Date_gt None now = false).
Proof.
  split; [|split].
  - intros Hne. unfold CapsuleCard.calculateTimeLeft, Date_gt. cbn zeta.
    destruct (decide (unlockTime - now < 0)) as [Hlt|Hge].
    + rewrite bool_decide_eq_true_2 by done. cbn.
      symmetry. apply bool_decide_eq_false. lia.
    + rewrite bool_decide_eq_false_2 by done. cbn.
      symmetry. apply bool_decide_eq_true. lia.
  - split.
    + unfold CapsuleCard.calculateTimeLeft. rewrite Z.sub_diag. vm_compute. reflexivity.
    + unfold Date_gt. apply bool_decide_eq_false. lia.
  - done.
Qed.

Lemma card_and_load_on_lock_witness :
  CapsuleCard.isLocked (CapsuleCard.calculateTimeLeft Samples.today (Some Samples.T))
  = Date_gt (Some Samples.T) Samples.today.
Proof.
  apply (proj1 (card_and_load_on_lock Samples.today Samples.T)). discriminate.
Defined.

Lemma all_locked_filters (l : list Capsule.t) :
  Forall (fun c => Capsule.isLocked c = true) l ->
  filter (fun c => negb (Capsule.isLocked c) = true) l = []
  /\ filter (fun c => Capsule.isLocked c = true) l = l.
Proof.
  induction 1 as [|x l Hx _ [IH1 IH2]]; [done|].
  rewrite !filter_cons, IH1, IH2, Hx. cbn.
  rewrite decide_False by done. by rewrite decide_True by done.
Qed.

Lemma unlocked_first_split (l : list Capsule.t) :
  (forall i j a b, (i < j)%nat -> l !! i = Some a -> l !! j = Some b ->
     Capsule.isLocked a = true -> Capsule.isLocked b = true) ->
  l = filter (fun c => negb (Capsule.isLocked c) = true) l
        ++ filter (fun c => Capsule.isLocked c = true) l.
Proof.
  induction l as [|x l IH]; intros Hord; [done|].
  rewrite !filter_cons.
  destruct (Capsule.isLocked x) eqn:Hx; cbn.
  - rewrite decide_False by done. rewrite decide_True by done.
    assert (Forall (fun c => Capsule.isLocked c = true) l) as Hall.
    { apply Forall_forall. intros b Hb. apply list_elem_of_lookup in Hb as [j Hj].
      by apply (Hord 0%nat (S j) x b); [lia|..]. }
    destruct (all_locked_filters l Hall) as [-> ->]. done.
  - rewrite decide_True by done. rewrite decide_False by done. cbn. f_equal.
    apply IH. intros i j a b Hij Hi Hj. apply (Hord (S i) (S j) a b); [lia|done..].
Qed.

Lemma counts_sum (l : list Capsule.t) :
  (VaultDashboard.lockedCount l + VaultDashboard.unlockedCount l)%nat = length l.
Proof.
  unfold VaultDashboard.lockedCount, VaultDashboard.unlockedCount.
  induction l as [|x l IH]; [done|]. rewrite !filter_cons.
  destruct (Capsule.isLocked x); cbn.
  - rewrite decide_True by done. rewrite decide_False by done. cbn. lia.
  - rewrite decide_False by done. rewrite decide_True by done. cbn. lia.
Qed.

Section DashboardFacts.

Variable Date_parse : string -> option Z.

Lemma loaded_data_dated (now : Z) (br : Browser) :
  map_Forall (fun _ r => is_Some (Date_parse (Capsule.unlockDate r))) (objectStore br) ->
  Forall (fun c => dated Date_parse c
                   /\ Capsule.isLocked c = Date_gt (App.getTime Date_parse c) now)
    (Storage.processed Date_parse now (Storage.getAll br) (blobURLs br)).1.
Proof.
  intros Hdates. apply Forall_forall. intros c' Hin.
  apply loaded_of_stored in Hin as (k & r & Hr & Hl).
  apply (map_Forall_lookup_1 _ _ _ _ Hdates) in Hr.
  destruct Hl as (_ & _ & _ & Hd & _ & _ & _ & _ & _ & Hlock & _).
  unfold dated, App.getTime. rewrite Hd. done.
Qed.

Lemma getAll_length (br : Browser) : length (Storage.getAll br) = size (objectStore br).
Proof.
  unfold Storage.getAll. rewrite merge_sort_Permutation, length_fmap.
  apply length_map_to_list.
Qed.

(** X19. The dashboard on a listing that was just loaded, for a store whose
    unlock dates are valid: the two counters add up to the number of cards;
    the first cards, as many as the counter of the capsules available to
    open says, are the unlocked ones and all the cards after them are
    locked; the invitation of the empty vault is shown exactly when the
    store is empty. *)
Theorem dashboard_counts (now : Z) (st : App.State) :
  map_Forall (fun _ r => is_Some (Date_parse (Capsule.unlockDate r)))
    (objectStore (App.browser st)) ->
  let cs := App.capsules (App.loadCapsules Date_parse NoFault now st).2 in
  (VaultDashboard.lockedCount cs + VaultDashboard.unlockedCount cs)%nat = length cs
  /\ Forall (fun c => Capsule.isLocked c = false) (take (VaultDashboard.unlockedCount cs) cs)
  /\ Forall (fun c => Capsule.isLocked c = true) (drop (VaultDashboard.unlockedCount cs) cs)
  /\ (VaultDashboard.grid cs = VaultDashboard.EmptyVault
      <-> objectStore (App.browser st) = ∅).
Proof.
  intros Hdates cs. subst cs. rewrite loadCapsules_ok. cbn [snd App.capsules].
  set (data := (Storage.processed Date_parse now (Storage.getAll (App.browser st))
                  (blobURLs (App.browser st))).1).
  set (cs := Array_sort (App.compareCapsules Date_parse) data).
  destruct (sorted_listing Date_parse now data (loaded_data_dated now _ Hdates))
    as (Hperm & Hord & _). fold cs in Hperm, Hord.
  split; [apply counts_sum|].
  assert (cs = filter (fun c => negb (Capsule.isLocked c) = true) cs
                 ++ filter (fun c => Capsule.isLocked c = true) cs) as Hsplit.
  { apply unlocked_first_split. intros i j a b Hij Ha Hb.
    by destruct (Hord i j a b Hij Ha Hb) as [? _]. }
  unfold VaultDashboard.unlockedCount. split; [|split].
  - set (U := filter (fun c => negb (Capsule.isLocked c) = true) cs) in *.
    set (L := filter (fun c => Capsule.isLocked c = true) cs) in *.
    assert (take (length U) cs = U) as ->
      by (transitivity (take (length U) (U ++ L));
          [f_equal; exact Hsplit | apply take_app_length]).
    apply Forall_forall. intros c [Hc _]%list_elem_of_filter.
    by destruct (Capsule.isLocked c).
  - set (U := filter (fun c => negb (Capsule.isLocked c) = true) cs) in *.
    set (L := filter (fun c => Capsule.isLocked c = true) cs) in *.
    assert (drop (length U) cs = L) as ->
      by (transitivity (drop (length U) (U ++ L));
          [f_equal; exact Hsplit | apply drop_app_length]).
    apply Forall_forall. by intros c [Hc _]%list_elem_of_filter.
  - assert (length cs = size (objectStore (App.browser st))) as Hlen.
    { rewrite Hperm. unfold data.
      destruct (processed_length Date_parse now (Storage.getAll (App.browser st))
                  (blobURLs (App.browser st))) as (-> & _).
      apply getAll_length. }
    unfold VaultDashboard.grid. case_bool_decide as Hsize; rewrite Hlen in Hsize.
    + split; [|done]. intros _. by apply map_size_empty_iff.
    + split; [done|]. intros Hempty. by apply map_size_empty_iff in Hempty.
Qed.

(** X20. The days a capsule was sealed for are rounded up: for valid dates
    the viewer shows the least number of whole days that covers the time
    from the creation to the unlock date. *)
Theorem sealedDays_rounds_up (c : Capsule.t) (unlockTime createdTime : Z) :
  Date_parse (Capsule.unlockDate c) = Some unlockTime ->
  Date_parse (Capsule.createdAt c) = Some createdTime ->
  exists days,
    sealedDays Date_parse c = Some days
    /\ (days - 1) * CapsuleCard.day_ms < unlockTime - createdTime <= days * CapsuleCard.day_ms.
Proof.
  intros Hu Hc. unfold sealedDays. rewrite Hu, Hc. eexists. split; [reflexivity|].
  unfold ceil_div, CapsuleCard.day_ms. change (1000 * 60 * 60 * 24) with 86400000.
  Z.to_euclidean_division_equations. lia.
Qed.

End DashboardFacts.

Lemma dashboard_counts_witness :
  VaultDashboard.unlockedCount
    (App.capsules (App.loadCapsules UTC.Date_parse NoFault Samples.T
                     (Samples.page (Samples.saved Samples.four))).2) = 1%nat
  /\ Forall (fun c => Capsule.isLocked c = true)
       (drop 1 (App.capsules (App.loadCapsules UTC.Date_parse NoFault Samples.T
                                (Samples.page (Samples.saved Samples.four))).2)).
Proof.
  destruct (dashboard_counts UTC.Date_parse Samples.T
              (Samples.page (Samples.saved Samples.four))) as (_ & _ & H & _).
  - apply (bool_decide_unpack _). vm_compute. reflexivity.
  - assert (VaultDashboard.unlockedCount
              (App.capsules (App.loadCapsules UTC.Date_parse NoFault Samples.T
                               (Samples.page (Samples.saved Samples.four))).2) = 1%nat)
      as Hone by (vm_compute; reflexivity).
    split; [exact Hone|]. rewrite Hone in H. exact H.
Defined.

Lemma sealedDays_rounds_up_witness :
  sealedDays UTC.Date_parse (Samples.capsule "a" "2030-01-01T00:01") = Some 1156.
Proof.
  destruct (sealedDays_rounds_up UTC.Date_parse (Samples.capsule "a" "2030-01-01T00:01")
              1893456060000 Samples.today) as (days & H & _).
  - vm_compute. reflexivity.
  - vm_compute. reflexivity.
  - rewrite H. vm_compute in H. injection H as <-. reflexivity.
Defined.

(** ** The timer and the device of the creation page *)

Section MoreRecordingFacts.

Import CreateCapsule.

Implicit Types (st : State).

Lemma cleanupMedia_timers stream_r st :
  intervals (cleanupMedia stream_r st)
  = match timerRef st with
    | Some t => intervals st ∖ {[t]}
    | None => intervals st
    end
  /\ timerRef (cleanupMedia stream_r st) = None
  /\ nextInterval (cleanupMedia stream_r st) = nextInterval st.
Proof.
  unfold cleanupMedia.
  destruct stream_r as [s|]; cbn; destruct (timerRef st) as [t|] eqn:Ht; cbn; done.
Qed.

Lemma startRecording_timers stream_r s prefix st :
  intervals (startRecording stream_r s prefix true st) = {[nextInterval st]} ∪ intervals st
  /\ timerRef (startRecording stream_r s prefix true st) = Some (nextInterval st)
  /\ nextInterval (startRecording stream_r s prefix true st) = Pos.succ (nextInterval st).
Proof. done. Qed.

Lemma perform_timers (a : Pieces.Action) st : Pieces.timers_step st (Pieces.perform a st).
Proof.
  destruct a as [|stream_r g ok| |g|stream_r s prefix ok|rec_r data|data|r
                 |stream_r|stream_r|files|t|stream_r|b|msg]; cbn [Pieces.perform].
  - by apply Pieces.timers_same.
  - unfold Pieces.startAudioMode_resume. destruct g as [s|]; [|by apply Pieces.timers_same].
    destruct ok; [|by apply Pieces.timers_same].
    by apply Pieces.timers_started.
  - by apply Pieces.timers_same.
  - unfold Pieces.startVideoMode_resume. destruct g; by apply Pieces.timers_same.
  - destruct ok; [by apply Pieces.timers_started | by apply Pieces.timers_same].
  - unfold stopRecording. destruct (mediaRecorderRef st) as [r|]; [|by apply Pieces.timers_same].
    destruct rec_r; [|by apply Pieces.timers_same].
    unfold MediaRecorder_stop, onstop.
    set (st1 := setMediaFile _ (ondataavailable data st)).
    destruct (cleanupMedia_timers (onstop_stream r) st1) as (Hi & Hr & Hn).
    assert (intervals st1 = intervals st /\ timerRef st1 = timerRef st
            /\ nextInterval st1 = nextInterval st) as (Ei & Er & En)
      by (subst st1; unfold ondataavailable; by case_bool_decide).
    rewrite Er, Ei in Hi. rewrite En in Hn. by apply Pieces.timers_cleared.
  - unfold ondataavailable. case_bool_decide; by apply Pieces.timers_same.
  - unfold onstop.
    destruct (cleanupMedia_timers (onstop_stream r)
                (setMediaFile (Some (recording (chunksRef st) (onstop_mimeTypePrefix r))) st))
      as (Hi & Hr & Hn).
    by apply Pieces.timers_cleared.
  - unfold cancelRecording.
    destruct (cleanupMedia_timers stream_r st) as (Hi & Hr & Hn). by apply Pieces.timers_cleared.
  - unfold clearMedia.
    destruct (cleanupMedia_timers stream_r (setMediaFile None st)) as (Hi & Hr & Hn).
    by apply Pieces.timers_cleared.
  - unfold handleFileChange. destruct files; by apply Pieces.timers_same.
  - unfold tick. case_bool_decide; by apply Pieces.timers_same.
  - destruct (cleanupMedia_timers stream_r st) as (Hi & Hr & Hn). by apply Pieces.timers_cleared.
  - by apply Pieces.timers_same.
  - by apply Pieces.timers_same.
Qed.

Lemma timers_step_kept st st' :
  Pieces.timers_step st st' -> Pieces.timers_kept st -> Pieces.timers_kept st'.
Proof.
  intros Hstep [Hlt Href]. destruct Hstep as [Hi Hr Hn|Hi Hr Hn|Hi Hr Hn]; split.
  - intros t. rewrite Hi, Hn. apply Hlt.
  - intros t. rewrite Hi, Hr. apply Href.
  - intros t Ht. rewrite Hn. apply Hlt. rewrite Hi in Ht.
    destruct (timerRef st); [by apply elem_of_difference in Ht as [? _] | done].
  - intros t. by rewrite Hr.
  - intros t. rewrite Hi, Hn, elem_of_union, elem_of_singleton.
    intros [->|Ht%Hlt]; lia.
  - intros t. rewrite Hi, Hr. intros [= <-]. apply elem_of_union_l. by apply elem_of_singleton.
Qed.

Lemma timers_step_lost st st' (t : positive) :
  Pieces.timers_step st st' -> Pieces.timers_kept st ->
  Pieces.lost t st -> Pieces.lost t st'.
Proof.
  intros Hstep [Hlt Href] [Hin Hne]. destruct Hstep as [Hi Hr Hn|Hi Hr Hn|Hi Hr Hn]; split.
  - by rewrite Hi.
  - by rewrite Hr.
  - rewrite Hi. destruct (timerRef st) as [t0|]; [|done].
    apply elem_of_difference. split; [done|]. rewrite elem_of_singleton. congruence.
  - by rewrite Hr.
  - rewrite Hi. by apply elem_of_union_r.
  - rewrite Hr. intros [= <-]. apply Hlt in Hin. lia.
Qed.

Lemma performs_kept (acts : list Pieces.Action) : forall st,
  Pieces.timers_kept st -> Pieces.timers_kept (Pieces.performs acts st).
Proof.
  induction acts as [|a acts IH]; intros st Hk; [done|].
  apply IH. eapply timers_step_kept; [apply perform_timers | done].
Qed.

Lemma performs_lost (acts : list Pieces.Action) (t : positive) : forall st,
  Pieces.timers_kept st -> Pieces.lost t st -> Pieces.lost t (Pieces.performs acts st).
Proof.
  induction acts as [|a acts IH]; intros st Hk Hl; [done|].
  apply IH.
  - eapply timers_step_kept; [apply perform_timers | done].
  - eapply timers_step_lost; [apply perform_timers | done..].
Qed.

Lemma initial_timers_kept : Pieces.timers_kept initial.
Proof. split; [intros t Ht; by apply not_elem_of_empty in Ht | done]. Qed.

(** The two halves of the asynchronous handlers, run without anything in
    between, are the handlers. *)
Lemma startAudioMode_pieces stream_r granted recorderOk st :
  startAudioMode stream_r granted recorderOk st
  = Pieces.perform (Pieces.ResumeAudio stream_r granted recorderOk)
      (Pieces.perform Pieces.BeginAudio st).
Proof. reflexivity. Qed.

Lemma startVideoMode_pieces granted st :
  startVideoMode granted st
  = Pieces.perform (Pieces.ResumeVideo granted) (Pieces.perform Pieces.BeginVideo st).
Proof. reflexivity. Qed.

(** X21. The component loses timers and never gets them back.
    [cleanupMedia] clears only the timer [timerRef] holds, and
    [startRecording] overwrites [timerRef] without clearing it.  So, after
    any pieces of the code of the component in any order: a timer that is
    active and that [timerRef] does not hold stays so whatever runs next, and
    each of its ticks adds a second to the counter; and a [startRecording]
    that succeeds while [timerRef] holds a timer loses that timer.  The page
    gets there: Cancel while the prompt of the microphone is open, then the
    grant, starts a recording on the idle page, where Record Audio is on
    screen; pressing it and granting again leaves two active timers, the
    first of them lost. *)
Theorem lost_timer_is_never_cleared :
  (forall (before after : list Pieces.Action) (t : positive),
     Pieces.lost t (Pieces.performs before initial) ->
     Pieces.lost t (Pieces.performs after (Pieces.performs before initial))
     /\ recordingTime (tick t (Pieces.performs after (Pieces.performs before initial)))
        = S (recordingTime (Pieces.performs after (Pieces.performs before initial))))
  /\ (forall (before : list Pieces.Action) stream_r s prefix (t : positive),
        timerRef (Pieces.performs before initial) = Some t ->
        Pieces.lost t
          (startRecording stream_r s prefix true (Pieces.performs before initial)))
  /\ (forall s1 s2 : MediaStream,
        let st1 := Pieces.perform Pieces.BeginAudio initial in
        let st2 := Pieces.perform (Pieces.CancelRecording (stream st1)) st1 in
        let st3 := Pieces.perform (Pieces.ResumeAudio (stream initial) (Some s1) true) st2 in
        let st4 := Pieces.perform Pieces.BeginAudio st3 in
        let st5 := Pieces.perform (Pieces.ResumeAudio (stream st3) (Some s2) true) st4 in
        on_screen (RecordAudio (Some s1) true) initial = true
        /\ on_screen Cancel st1 = true
        /\ (recordingMode st3 = none /\ isRecording st3 = true
            /\ timerRef st3 = Some 1%positive)
        /\ on_screen (RecordAudio (Some s2) true) st3 = true
        /\ timerRef st5 = Some 2%positive
        /\ (forall t, t ∈ intervals st5 <-> t = 1%positive \/ t = 2%positive)
        /\ Pieces.lost 1%positive st5).
Proof.
  split; [|split].
  - intros before after t Hl.
    pose proof (performs_kept before initial initial_timers_kept) as Hk.
    pose proof (performs_lost after t _ Hk Hl) as Hl'. split; [done|].
    unfold tick. destruct Hl' as [Hin _]. by rewrite bool_decide_eq_true_2.
  - intros before stream_r s prefix t Ht.
    destruct (performs_kept before initial initial_timers_kept) as [Hlt Href].
    destruct (startRecording_timers stream_r s prefix (Pieces.performs before initial))
      as (Hi & Hr & _).
    split.
    + rewrite Hi. apply elem_of_union_r. by apply Href.
    + rewrite Hr. intros [= <-]. apply Href, Hlt in Ht. lia.
  - intros s1 s2 st1 st2 st3 st4 st5.
    assert (intervals st5 = {[2%positive]} ∪ ({[1%positive]} ∪ ∅)) as Hi by reflexivity.
    assert (timerRef st5 = Some 2%positive) as Hr by reflexivity.
    split; [reflexivity|]. split; [reflexivity|].
    split; [repeat split|]. split; [reflexivity|]. split; [done|].
    split; [|split].
    + intros t. rewrite Hi, !elem_of_union, !elem_of_singleton, elem_of_empty. tauto.
    + rewrite Hi. apply elem_of_union_r, elem_of_union_l. by apply elem_of_singleton.
    + by rewrite Hr.
Qed.



End MoreRecordingFacts.

Lemma lost_timer_is_never_cleared_witness :
  let first := Samples.microphone in
  let second := CreateCapsule.mkStream [3%nat] in
  let leak :=
    [Pieces.BeginAudio; Pieces.CancelRecording None;
     Pieces.ResumeAudio None (Some first) true;
     Pieces.BeginAudio; Pieces.ResumeAudio (Some first) (Some second) true] in
  let after :=
    [Pieces.Timer 1%positive; Pieces.StopRecording true Samples.some_data;
     Pieces.ClearMedia (Some second); Pieces.CleanupMedia None] in
  Pieces.lost 1%positive (Pieces.performs leak CreateCapsule.initial)
  /\ Pieces.lost 1%positive (Pieces.performs after (Pieces.performs leak CreateCapsule.initial))
  /\ CreateCapsule.timerRef (Pieces.performs after (Pieces.performs leak CreateCapsule.initial))
     = None
  /\ CreateCapsule.isRecording
       (Pieces.performs after (Pieces.performs leak CreateCapsule.initial)) = false.
Proof.
  intros first second leak after.
  assert (Pieces.lost 1%positive (Pieces.performs leak CreateCapsule.initial)) as Hl.
  { split; [|by vm_compute].
    apply (bool_decide_unpack _). vm_compute. reflexivity. }
  split; [exact Hl|]. split; [|split].
  - exact (proj1 (proj1 lost_timer_is_never_cleared leak after 1%positive Hl)).
  - vm_compute. reflexivity.
  - vm_compute. reflexivity.
Defined.


(** ** The elapsed time on screen *)

Lemma string_length_app (x y : string) :
  String.length (x +:+ y) = (String.length x + String.length y)%nat.
Proof.
  induction x as [|a x IH]; [done|].
  change (S (String.length (x +:+ y)) = S (String.length x + String.length y)).
  by rewrite IH.
Qed.

Lemma string_app_inj_length (x1 x2 y1 y2 : string) :
  String.length x1 = String.length x2 -> x1 +:+ y1 = x2 +:+ y2 -> x1 = x2 /\ y1 = y2.
Proof.
  revert x2. induction x1 as [|a x1 IH]; intros [|b x2] Hlen Heq; try done.
  change (String a (x1 +:+ y1) = String b (x2 +:+ y2)) in Heq.
  injection Heq as -> Heq. injection Hlen as Hlen.
  destruct (IH x2 Hlen Heq) as [-> ->]. done.
Qed.

Lemma seconds_field (s : nat) :
  (s < 60)%nat -> String.length (padStart0 2 (pretty s)) = 2%nat.
Proof.
  intros Hs.
  assert (Forall (fun s => String.length (padStart0 2 (pretty s)) = 2%nat) (seq 0 60)) as Hall
    by (apply (bool_decide_unpack _); vm_compute; reflexivity).
  rewrite Forall_forall in Hall. apply Hall, elem_of_seq. lia.
Qed.

Lemma seconds_field_inj (s1 s2 : nat) :
  (s1 < 60)%nat -> (s2 < 60)%nat ->
  padStart0 2 (pretty s1) = padStart0 2 (pretty s2) -> s1 = s2.
Proof.
  intros H1 H2.
  assert (Forall (fun s1 => Forall (fun s2 =>
            padStart0 2 (pretty s1) = padStart0 2 (pretty s2) -> s1 = s2) (seq 0 60))
            (seq 0 60)) as Hall
    by (apply (bool_decide_unpack _); vm_compute; reflexivity).
  rewrite Forall_forall in Hall.
  assert (s1 ∈ seq 0 60) as Hs1 by (apply elem_of_seq; lia).
  specialize (Hall s1 Hs1). rewrite Forall_forall in Hall.
  apply Hall, elem_of_seq. lia.
Qed.

(** X23. The elapsed time is shown as the minutes, a colon and the seconds
    in two digits; the minutes are not wrapped at the hour; two different
    numbers of seconds are never shown as the same text. *)
Theorem formatTime_shows_every_second (a b : nat) :
  (exists ss, formatTime a = pretty (a / 60)%nat +:+ ":" +:+ ss
              /\ String.length ss = 2%nat)
  /\ (formatTime a = formatTime b -> a = b).
Proof.
  pose proof (Nat.mod_upper_bound a 60 ltac:(done)) as Ha.
  pose proof (Nat.mod_upper_bound b 60 ltac:(done)) as Hb.
  split.
  - eexists. split; [reflexivity|]. by apply seconds_field.
  - unfold formatTime. intros Heq.
    assert (String.length (pretty (a / 60)%nat) = String.length (pretty (b / 60)%nat)) as Hlen.
    { apply (f_equal String.length) in Heq.
      rewrite !string_length_app, !seconds_field in Heq by done. lia. }
    apply string_app_inj_length in Heq as [Hm Hs]; [|done].
    apply (inj pretty) in Hm. injection Hs as Hs.
    apply seconds_field_inj in Hs; [|done..].
    pose proof (Nat.div_mod_eq a 60) as Ea. pose proof (Nat.div_mod_eq b 60) as Eb.
    change (a mod 60 = b mod 60)%nat in Hs. rewrite Hm, Hs in Ea. congruence.
Qed.

Lemma formatTime_shows_every_second_witness :
  formatTime 65 = "1:05" /\ formatTime 3600 = "60:00" /\ formatTime 65 <> formatTime 66.
Proof.
  split; [vm_compute; reflexivity|]. split; [vm_compute; reflexivity|]. intros E.
  apply (proj2 (formatTime_shows_every_second 65 66)) in E. discriminate E.
Defined.
